(** * webhook-proxy: the QQ Bot adapter and the dispatch pipeline

    A shallow embedding of
      - utils/ed25519.ts      (hexToBytes, bytesToHex, class Ed25519),
      - adapters/qqbot.ts     (class QQBotAdapter),
      - routes/webhook.ts     (the POST and GET handlers, broadcastEvent),
        and the POST handler of its second copy, with the shorter timer,
    and the properties of the design document that concern them, followed
    by further properties read off the code.

    Conventions.
    - A JavaScript string is a [string]: each [ascii] is one UTF-16 code
      unit below 256, so [String.length] is the [.length] of the source and
      [TextEncoder_encode] is UTF-8 on that range.
    - A [Uint8Array] is a [list byte].
    - An [async] function returns an [outcome]: it resolves ([Ret]), rejects
      or throws ([Throw]), or never settles ([Pending]: a loop that does not
      end, or an awaited promise that stays pending).
    - tweetnacl is outside the repository: its three primitives are
      variables of a section, the size checks of its wrappers are written
      out. *)

From Stdlib Require Import Bool Arith List String Ascii ZArith NArith Lia.
From Stdlib.Strings Require Import Byte.
From Stdlib Require Import DecimalString.
Import ListNotations.
Local Open Scope string_scope.
Set Warnings "-register-all".

(* ------------------------------------------------------------------ *)
(** ** Outcomes of (async) JavaScript functions *)

Inductive error : Type :=
| SyntaxError
| TypeError
| Error (msg : string).

Inductive outcome (A : Type) : Type :=
| Ret (a : A)
| Throw (e : error)
| Pending.
Arguments Ret {A} a.
Arguments Throw {A} e.
Arguments Pending {A}.

Definition bind {A B} (m : outcome A) (k : A -> outcome B) : outcome B :=
  match m with
  | Ret a => k a
  | Throw e => Throw e
  | Pending => Pending
  end.

(** [try { m } catch (error) { h error }] *)
Definition try_catch {A} (m : outcome A) (h : error -> outcome A) : outcome A :=
  match m with
  | Throw e => h e
  | r => r
  end.

Declare Scope js_scope.
Delimit Scope js_scope with js.
Notation "x <- m ;; k" := (bind m (fun x => k))
  (at level 61, m at next level, right associativity) : js_scope.
Local Open Scope js_scope.

Definition settled {A} (m : outcome A) : bool :=
  match m with Pending => false | _ => true end.

Definition throws {A} (m : outcome A) : bool :=
  match m with Throw _ => true | _ => false end.

(* ------------------------------------------------------------------ *)
(** ** Strings *)

Module JSString.

(** [s.repeat(2)] *)
Definition repeat2 (s : string) : string := s ++ s.

(** [s.slice(0, n)] for [0 <= n] *)
Definition slice0 (n : nat) (s : string) : string := String.substring 0 n s.

(** White space and line terminators of ECMAScript among the code units
    below 256: TAB, LF, VT, FF, CR, SP, NBSP. *)
Definition is_space (c : ascii) : bool :=
  match N_of_ascii c with
  | 9 | 10 | 11 | 12 | 13 | 32 | 160 => true
  | _ => false
  end%N.

Fixpoint trimStart (s : string) : string :=
  match s with
  | String c r => if is_space c then trimStart r else s
  | EmptyString => EmptyString
  end.

(** Drops the trailing white space: a character stays when something
    that is not white space follows it, or when it is not white space. *)
Fixpoint trimEnd (s : string) : string :=
  match s with
  | EmptyString => EmptyString
  | String c r =>
      match trimEnd r with
      | EmptyString => if is_space c then EmptyString else String c EmptyString
      | r' => String c r'
      end
  end.

(** [s.trim()] *)
Definition trim (s : string) : string := trimEnd (trimStart s).

(** [s.replace(/^0x/, '')] *)
Definition strip_0x (s : string) : string :=
  match s with
  | String "0" (String "x" r) => r
  | _ => s
  end.

(** [s.padStart(2, '0')] *)
Definition padStart2 (s : string) : string :=
  match String.length s with
  | 0 => "00"
  | 1 => "0" ++ s
  | _ => s
  end.

(** JavaScript truthiness of a string: [''] is the only falsy one. *)
Definition truthy (s : string) : bool :=
  match s with EmptyString => false | _ => true end.

End JSString.

(* ------------------------------------------------------------------ *)
(** ** utils/ed25519.ts: hexadecimal helpers *)

(** The digit of [parseInt(_, 16)]: both cases are read. *)
Definition hex_value (c : ascii) : option Z :=
  let n := Z.of_N (N_of_ascii c) in
  if ((48 <=? n) && (n <=? 57))%Z then Some (n - 48)%Z
  else if ((97 <=? n) && (n <=? 102))%Z then Some (n - 87)%Z
  else if ((65 <=? n) && (n <=? 70))%Z then Some (n - 55)%Z
  else None.

(** The longest prefix of hexadecimal digits, read with accumulator [acc];
    [seen] tells whether a digit was read. *)
Fixpoint parse_hex_digits (s : string) (acc : Z) (seen : bool) : option Z :=
  match s with
  | String c r =>
      match hex_value c with
      | Some d => parse_hex_digits r (16 * acc + d)%Z true
      | None => if seen then Some acc else None
      end
  | EmptyString => if seen then Some acc else None
  end.

(** [parseInt(s, 16)]; [None] is [NaN].  Leading white space is skipped, a
    sign is read, a [0x] or [0X] prefix is dropped, then the longest run of
    digits is read. *)
Definition parseInt16 (s : string) : option Z :=
  let s := JSString.trimStart s in
  let '(sign, s) :=
    match s with
    | String "-" r => ((-1)%Z, r)
    | String "+" r => (1%Z, r)
    | _ => (1%Z, s)
    end in
  let s :=
    match s with
    | String "0" (String "x" r) => r
    | String "0" (String "X" r) => r
    | _ => s
    end in
  match parse_hex_digits s 0%Z false with
  | Some v => Some (sign * v)%Z
  | None => None
  end.

(** Storing a number in a [Uint8Array]: [NaN] becomes 0, the rest wraps
    modulo 256. *)
Definition toUint8 (v : option Z) : byte :=
  match v with
  | None => x00
  | Some z => byte_of_ascii (ascii_of_N (Z.to_N (z mod 256)))
  end.

(** The loop of [hexToBytes]: [bytes[i / 2] = parseInt(hex.substring(i, i + 2), 16)]
    for [i = 0, 2, 4, ... < hex.length]. *)
Fixpoint hex_pairs (s : string) : list byte :=
  match s with
  | String a (String b r) =>
      toUint8 (parseInt16 (String a (String b EmptyString))) :: hex_pairs r
  | _ => []
  end.

Definition hexToBytes (hex : string) : outcome (list byte) :=
  let hex := JSString.trim (JSString.strip_0x hex) in
  if negb (Nat.even (String.length hex)) then
    Throw (Error "Hex string must have an even number of characters")
  else Ret (hex_pairs hex).

(** One lower-case hexadecimal digit of [Number.prototype.toString(16)]. *)
Definition hex_digit (n : N) : ascii :=
  if (n <? 10)%N then ascii_of_N (48 + n)%N else ascii_of_N (87 + n)%N.

(** [b.toString(16)] for a byte. *)
Definition toString16 (b : byte) : string :=
  let n := Byte.to_N b in
  if (n <? 16)%N then String (hex_digit n) EmptyString
  else String (hex_digit (n / 16)%N) (String (hex_digit (n mod 16)%N) EmptyString).

(** [Array.from(bytes).map(b => b.toString(16).padStart(2, '0')).join('')] *)
Definition bytesToHex (bytes : list byte) : string :=
  String.concat "" (map (fun b => JSString.padStart2 (toString16 b)) bytes).

(** [new TextEncoder().encode(s)]: UTF-8 of code units below 256. *)
Definition encode_unit (c : ascii) : list byte :=
  let n := N_of_ascii c in
  if (n <? 128)%N then [byte_of_ascii c]
  else [byte_of_ascii (ascii_of_N (192 + n / 64)%N);
        byte_of_ascii (ascii_of_N (128 + n mod 64)%N)].

Definition TextEncoder_encode (s : string) : list byte :=
  flat_map encode_unit (list_ascii_of_string s).

(* ------------------------------------------------------------------ *)
(** ** utils/ed25519.ts: class Ed25519 *)

(** The primitives of tweetnacl on well-sized arguments: the key pair of a
    32-byte seed, the detached signature and its check. *)
Record tweetnacl : Type := {
  PublicKey : Type;
  SecretKey : Type;
  crypto_sign_seed_keypair : list byte -> PublicKey * SecretKey;
  crypto_sign_detached : list byte -> SecretKey -> list byte;
  crypto_sign_verify : list byte -> list byte -> PublicKey -> bool
}.

(** An instance of the class holds the secret. *)
Record Ed25519 : Type := new_Ed25519 { secret : string }.

Section Ed25519.

Variable nacl : tweetnacl.

(** [nacl.sign.keyPair.fromSeed]: a seed that is not 32 bytes long is
    refused with an exception. *)
Definition keyPair_fromSeed (seed : list byte)
  : outcome (PublicKey nacl * SecretKey nacl) :=
  if Nat.eqb (List.length seed) 32 then Ret (crypto_sign_seed_keypair nacl seed)
  else Throw (Error "bad seed size").

(** [nacl.sign.detached] *)
Definition sign_detached (msg : list byte) (sk : SecretKey nacl)
  : outcome (list byte) :=
  Ret (crypto_sign_detached nacl msg sk).

(** [nacl.sign.detached.verify]: a signature that is not 64 bytes long is
    refused with an exception. *)
Definition sign_detached_verify (msg sig : list byte) (pk : PublicKey nacl)
  : outcome bool :=
  if Nat.eqb (List.length sig) 64 then Ret (crypto_sign_verify nacl msg sig pk)
  else Throw (Error "bad signature size").

(** [while (secret.length < 32) secret = secret.repeat(2).slice(0, 32)],
    run for at most [fuel] iterations. *)
Fixpoint stretch (fuel : nat) (secret : string) {struct fuel}
  : outcome string :=
  if Nat.ltb (String.length secret) 32 then
    match fuel with
    | O => Pending
    | S fuel' =>
        stretch fuel' (JSString.slice0 32 (JSString.repeat2 secret))
    end
  else Ret secret.

(** [async sign(message)] *)
Definition Ed25519_sign (fuel : nat) (self : Ed25519) (message : string)
  : outcome string :=
  try_catch
    (secret <- stretch fuel (secret self) ;;
     let seedBytes := TextEncoder_encode secret in
     keyPair <- keyPair_fromSeed seedBytes ;;
     let messageBytes := TextEncoder_encode message in
     signatureBytes <- sign_detached messageBytes (snd keyPair) ;;
     Ret (bytesToHex signatureBytes))
    (fun error => Throw error).

(** [async verify(signature, message)] *)
Definition Ed25519_verify (fuel : nat) (self : Ed25519)
           (signature message : string) : outcome bool :=
  try_catch
    (secret <- stretch fuel (secret self) ;;
     let seedBytes := TextEncoder_encode secret in
     keyPair <- keyPair_fromSeed seedBytes ;;
     let messageBytes := TextEncoder_encode message in
     signatureBytes <- hexToBytes signature ;;
     if negb (Nat.eqb (List.length signatureBytes) 64) then Ret false
     else sign_detached_verify messageBytes signatureBytes (fst keyPair))
    (fun _ => Ret false).

(** [verifyQQBotSignature(body, timestamp, signature, secret)] *)
Definition verifyQQBotSignature (fuel : nat)
           (body timestamp signature secret : string) : outcome bool :=
  let message := timestamp ++ body in
  Ed25519_verify fuel (new_Ed25519 secret) signature message.

(** [signQQBotCallback(eventTs, plainToken, secret)] *)
Definition signQQBotCallback (fuel : nat)
           (eventTs plainToken secret : string) : outcome string :=
  let message := eventTs ++ plainToken in
  Ed25519_sign fuel (new_Ed25519 secret) message.

End Ed25519.


(** The seed the two methods hand to [fromSeed], when the loop ends. *)
Definition seed_of (fuel : nat) (s : string) : outcome (list byte) :=
  s' <- stretch fuel s ;; Ret (TextEncoder_encode s').

(* ------------------------------------------------------------------ *)
(** ** JavaScript values read from JSON *)

(** A parsed JSON text.  A number is the double nearest to its literal:
    [JNum n] for a literal worth the integer [n], [JDec m e] for a literal
    worth [m / 10 ^ e]. *)
Inductive json : Type :=
| JNull
| JBool (b : bool)
| JNum (n : Z)
| JDec (m : Z) (e : positive)
| JStr (s : string)
| JArr (items : list json)
| JObj (fields : list (string * json)).

(** A JavaScript value that came out of a parsed text: [None] is
    [undefined]. *)
Definition jsval : Type := option json.
Definition undefined : jsval := None.

Module JS.

(** The own property [k] of a parsed object; a key written twice keeps
    its last value. *)
Fixpoint field (k : string) (fields : list (string * json)) : jsval :=
  match fields with
  | [] => undefined
  | (k', v) :: rest =>
      match field k rest with
      | Some v' => Some v'
      | None => if String.eqb k k' then Some v else undefined
      end
  end.

(** [v.k] for one of the names the adapter reads ([id], [op], [d], [s],
    [t], [plain_token], [event_ts]): reading a property of [null] or
    [undefined] throws a [TypeError]; numbers, booleans, strings and
    arrays have no such property. *)
Definition get (v : jsval) (k : string) : outcome jsval :=
  match v with
  | None | Some JNull => Throw TypeError
  | Some (JObj fields) => Ret (field k fields)
  | Some _ => Ret undefined
  end.

(** The digits of an integer. *)
Definition decimal (n : Z) : string :=
  NilZero.string_of_int (Z.to_int n).

(** How many digits an integer has. *)
Definition digits (n : Z) : Z := Z.of_nat (String.length (decimal n)).

(** A double that is not negative: zero, [m * 2 ^ e] with a mantissa
    [m] below [2 ^ 53] (and from [2 ^ 52] on, unless [e] is the least
    exponent, -1074), or [Infinity]. *)
Inductive double : Type :=
| DZero
| DFinite (m e : Z)
| DInfinity.

Definition double_eqb (x y : double) : bool :=
  match x, y with
  | DZero, DZero | DInfinity, DInfinity => true
  | DFinite m e, DFinite m' e' => (m =? m')%Z && (e =? e')%Z
  | _, _ => false
  end.

(** The double nearest to the fraction [a / b] of two positive integers;
    a tie goes to the even mantissa. *)
Definition nearest_double (a b : Z) : double :=
  let l := (Z.log2 a - Z.log2 b)%Z in
  let fl := if (b * 2 ^ Z.max 0 l <=? a * 2 ^ Z.max 0 (- l))%Z
            then l else (l - 1)%Z in
  let e := Z.max (fl - 52) (-1074) in
  let num := (a * 2 ^ Z.max 0 (- e))%Z in
  let den := (b * 2 ^ Z.max 0 e)%Z in
  let q := (num / den)%Z in
  let r := (num mod den)%Z in
  let m := if (den <? 2 * r)%Z || ((2 * r =? den)%Z && Z.odd q)
           then (q + 1)%Z else q in
  let '(m, e) := if (m =? 2 ^ 53)%Z then (2 ^ 52, e + 1)%Z else (m, e) in
  if (m =? 0)%Z then DZero
  else if (971 <? e)%Z then DInfinity
  else DFinite m e.

(** The [n] with [10 ^ (n - 1) <= a / b < 10 ^ n]. *)
Definition magnitude (a b : Z) : Z :=
  let n0 := (digits a - digits b)%Z in
  if (b * 10 ^ Z.max 0 n0 <=? a * 10 ^ Z.max 0 (- n0))%Z
  then (n0 + 1)%Z else n0.

(** The shortest digits that name the double [x], worth [a / b] with
    [10 ^ (n - 1) <= a / b < 10 ^ n]: the least [k], from [k] on, for
    which some [s * 10 ^ (n - k)] rounds to [x], with the [s] nearest to
    [x] (the even one of two).  The answer is [s] and [k]. *)
Fixpoint shortest (fuel : nat) (k : Z) (x : double) (a b n : Z) : Z * Z :=
  match fuel with
  | O => (0, k)%Z
  | S fuel' =>
      let sn := (10 ^ Z.max 0 (n - k))%Z in
      let sd := (10 ^ Z.max 0 (k - n))%Z in
      let N := (a * sd)%Z in
      let D := (b * sn)%Z in
      let lo := (N / D)%Z in
      let hi := (lo + 1)%Z in
      let rlo := (N - lo * D)%Z in
      let rhi := (D - rlo)%Z in
      let lo_ok := double_eqb (nearest_double (lo * sn) sd) x in
      let hi_ok := double_eqb (nearest_double (hi * sn) sd) x in
      let take_lo :=
        lo_ok && (negb hi_ok || (rlo <? rhi)%Z
                  || ((rlo =? rhi)%Z && Z.even lo)) in
      if take_lo then (lo, k)
      else if hi_ok then (hi, k)
      else shortest fuel' (k + 1)%Z x a b n
  end.

(** The digits without the zeros at their end. *)
Fixpoint strip_zeros (fuel : nat) (s : Z) : Z :=
  match fuel with
  | O => s
  | S fuel' =>
      if (s mod 10 =? 0)%Z then strip_zeros fuel' (s / 10)%Z else s
  end.

Fixpoint zeros (n : nat) : string :=
  match n with O => EmptyString | S n' => String "0"%char (zeros n') end.

(** The text of the number with the digits [ds] and the decimal point
    after the [n]-th of them: plain up to 21 digits before the point and
    up to 6 zeros after it, with an exponent otherwise. *)
Definition layout (ds : string) (n : Z) : string :=
  let k := Z.of_nat (String.length ds) in
  if ((k <=? n) && (n <=? 21))%Z then ds ++ zeros (Z.to_nat (n - k))
  else if ((0 <? n) && (n <=? 21))%Z then
    substring 0 (Z.to_nat n) ds ++ "."
              ++ substring (Z.to_nat n) (Z.to_nat (k - n)) ds
  else if ((-6 <? n) && (n <=? 0))%Z then
    "0." ++ zeros (Z.to_nat (- n)) ++ ds
  else
    let e := (n - 1)%Z in
    let sign := if (0 <? e)%Z then "e+" else "e-" in
    match ds with
    | String d EmptyString =>
        String d EmptyString ++ sign ++ decimal (Z.abs e)
    | String d rest =>
        String d EmptyString ++ "." ++ rest ++ sign ++ decimal (Z.abs e)
    | EmptyString => EmptyString
    end.

(** [Number.prototype.toString] on the double nearest to [a / b]. *)
Definition positive_toString (a b : Z) : string :=
  match nearest_double a b with
  | DZero => "0"
  | DInfinity => "Infinity"
  | DFinite m e =>
      let A := (m * 2 ^ Z.max 0 e)%Z in
      let B := (2 ^ Z.max 0 (- e))%Z in
      let n := magnitude A B in
      let '(s, k) := shortest 17 1 (DFinite m e) A B n in
      layout (decimal (strip_zeros 17 s)) (digits s + (n - k))
  end.

(** [String(x)] for the number a literal worth [m / b] parses to; the
    zero a negative literal can round to prints as [0] too. *)
Definition literal_toString (m b : Z) : string :=
  match m with
  | Z0 => "0"
  | Zpos _ => positive_toString m b
  | Zneg _ =>
      match nearest_double (- m) b with
      | DZero => "0"
      | _ => "-" ++ positive_toString (- m) b
      end
  end.

(** [String(n)] for the number an integer literal parses to. *)
Definition Number_toString (n : Z) : string := literal_toString n 1.

(** The number a literal worth [m / b] parses to: its sign and the
    double nearest to its size. *)
Definition number_of (m b : Z) : Z * double :=
  match m with
  | Z0 => (0%Z, DZero)
  | _ =>
      match nearest_double (Z.abs m) b with
      | DZero => (0%Z, DZero)
      | d => (Z.sgn m, d)
      end
  end.

Definition number_eqb (x y : Z * double) : bool :=
  (fst x =? fst y)%Z && double_eqb (snd x) (snd y).

(** Truthiness; of the numbers only zero is falsy, and a literal so
    small that it parses to zero is. *)
Definition truthy (v : jsval) : bool :=
  match v with
  | None | Some JNull => false
  | Some (JBool b) => b
  | Some (JNum n) => negb (Z.eqb n 0)
  | Some (JDec m e) =>
      negb (number_eqb (number_of m (10 ^ Zpos e)) (0%Z, DZero))
  | Some (JStr s) => JSString.truthy s
  | Some (JArr _) | Some (JObj _) => true
  end.

(** [a || b] *)
Definition or (a b : jsval) : jsval := if truthy a then a else b.

(** [v === n] for one of the number literals of the code, [0] and
    [13] *)
Definition is_num (n : Z) (v : jsval) : bool :=
  match v with
  | Some (JNum m) => Z.eqb m n
  | Some (JDec m e) =>
      number_eqb (number_of m (10 ^ Zpos e)) (number_of n 1)
  | _ => false
  end.


(** Turning a value that is neither [null] nor [undefined] into a
    string, as [String(v)], a template literal and [v.toString()] do.
    Inside an array [null] gives the empty string.  An object prints as
    [[object Object]], unless it has a member [toString] of its own:
    that member came out of JSON and is no function, and the conversion
    throws a [TypeError]. *)
Fixpoint toString (v : json) : outcome string :=
  match v with
  | JNull => Ret "null"
  | JBool true => Ret "true"
  | JBool false => Ret "false"
  | JNum n => Ret (Number_toString n)
  | JDec m e => Ret (literal_toString m (10 ^ Zpos e))
  | JStr s => Ret s
  | JArr items =>
      parts <-
        (fix join (l : list json) : outcome (list string) :=
           match l with
           | [] => Ret []
           | e :: r =>
               x <- match e with JNull => Ret "" | _ => toString e end ;;
               xs <- join r ;;
               Ret (x :: xs)
           end) items ;;
      Ret (String.concat "," parts)
  | JObj fields =>
      match field "toString" fields with
      | Some _ => Throw TypeError
      | None => Ret "[object Object]"
      end
  end.

(** [String(v)], and [v] inside a template literal *)
Definition String_ (v : jsval) : outcome string :=
  match v with
  | None => Ret "undefined"
  | Some j => toString j
  end.

(** [v.toString()] *)
Definition call_toString (v : jsval) : outcome string :=
  match v with
  | None | Some JNull => Throw TypeError
  | Some j => toString j
  end.

(** [v?.toString()] *)
Definition opt_toString (v : jsval) : outcome jsval :=
  match v with
  | None | Some JNull => Ret undefined
  | Some j => s <- toString j ;; Ret (Some (JStr s))
  end.

Definition str (s : string) : jsval := Some (JStr s).
Definition num (n : Z) : jsval := Some (JNum n).

End JS.

(* ------------------------------------------------------------------ *)
(** ** Requests and responses *)

Definition lower (c : ascii) : ascii :=
  let n := N_of_ascii c in
  if ((65 <=? n) && (n <=? 90))%N then ascii_of_N (n + 32)%N else c.

Fixpoint lowercase (s : string) : string :=
  match s with
  | EmptyString => EmptyString
  | String c r => String (lower c) (lowercase r)
  end.

(** A request: the text of its body and its headers, one entry per name. *)
Record Request : Type := {
  req_body : string;
  req_headers : list (string * string)
}.

(** [headers.get(name)]: names are compared without case. *)
Fixpoint headers_get (name : string) (hs : list (string * string))
  : option string :=
  match hs with
  | [] => None
  | (k, v) :: rest =>
      if String.eqb (lowercase k) (lowercase name) then Some v
      else headers_get name rest
  end.

(** [request.headers.get(name) || ''] *)
Definition header_or_empty (name : string) (r : Request) : string :=
  match headers_get name (req_headers r) with
  | Some v => v
  | None => ""
  end.

(** The body of a response: a text, or [JSON.stringify] of a value. *)
Inductive body : Type :=
| Text (s : string)
| JSON_stringify (v : json).

Record Response : Type := {
  status : Z;
  res_body : body
}.

Definition text_response (s : string) (st : Z) : Response :=
  {| status := st; res_body := Text s |}.

(* ------------------------------------------------------------------ *)
(** ** types: the canonical event ([WebhookEventData]) *)

Record EventHeaders : Type := {
  x_qqbot_op : string;
  x_qqbot_seq : jsval;
  x_qqbot_event_type : jsval
}.

Record EventData : Type := {
  opcode : jsval;
  event_type : jsval;
  sequence : jsval;
  event_id : jsval;
  event_data : jsval
}.

Record WebhookEventData : Type := {
  ev_id : jsval;
  ev_platform : string;
  ev_type : jsval;
  ev_timestamp : Z;
  ev_headers : EventHeaders;
  ev_payload : jsval;
  ev_data : EventData
}.

(* ------------------------------------------------------------------ *)
(** ** adapters/qqbot.ts: class QQBotAdapter *)

Record QQBotConfig : Type := {
  appId : string;
  cfg_secret : string;
  verifySignature : bool
}.

Record QQBotAdapter : Type := {
  config : QQBotConfig;
  ed25519 : option Ed25519
}.

(** The constructor: [if (config.secret) this.ed25519 = new Ed25519(config.secret)] *)
Definition new_QQBotAdapter (cfg : QQBotConfig) : QQBotAdapter :=
  {| config := cfg;
     ed25519 := if JSString.truthy (cfg_secret cfg)
                then Some (new_Ed25519 (cfg_secret cfg)) else None |}.

Definition createQQBotAdapter (cfg : QQBotConfig) : QQBotAdapter :=
  new_QQBotAdapter cfg.

(** [transform(payload)]; [now_id] and [now_ts] are the two readings of
    [Date.now()], for the fallback id and for the time stamp.  The members
    of the event are evaluated in the order they are written: the template
    [`op_${op}`] only when [t] is falsy, then [op.toString()], then
    [s?.toString()]. *)
Definition transform (now_id now_ts : Z) (payload : jsval)
  : outcome WebhookEventData :=
  id <- JS.get payload "id" ;;
  op <- JS.get payload "op" ;;
  d <- JS.get payload "d" ;;
  s <- JS.get payload "s" ;;
  t <- JS.get payload "t" ;;
  type <- (if JS.truthy t then Ret t
           else op_text <- JS.String_ op ;; Ret (JS.str ("op_" ++ op_text))) ;;
  op_str <- JS.call_toString op ;;
  seq <- JS.opt_toString s ;;
  Ret {| ev_id := JS.or id (JS.str ("qqbot_" ++ JS.Number_toString now_id));
         ev_platform := "qqbot";
         ev_type := type;
         ev_timestamp := now_ts;
         ev_headers :=
           {| x_qqbot_op := op_str;
              x_qqbot_seq := JS.or seq (JS.str "");
              x_qqbot_event_type := JS.or t (JS.str "") |};
         ev_payload := d;
         ev_data :=
           {| opcode := op;
              event_type := JS.or t (JS.str "");
              sequence := JS.or s (JS.num 0);
              event_id := JS.or id (JS.str "");
              event_data := d |} |}.

(** [createAckResponse()] *)
Definition createAckResponse : Response :=
  {| status := 200; res_body := JSON_stringify (JObj [("op", JNum 12)]) |}.

(** [handleDispatch(_payload)] *)
Definition handleDispatch (_payload : jsval) : Response := createAckResponse.

Section QQBot.

Variable nacl : tweetnacl.
(** [JSON.parse]: [None] is a [SyntaxError]. *)
Variable JSON_parse : string -> option json.
(** The iterations granted to the loop of the key derivation. *)
Variable fuel : nat.

Definition parse (text : string) : outcome jsval :=
  match JSON_parse text with
  | Some v => Ret (Some v)
  | None => Throw SyntaxError
  end.

(** [async verifySignature(body, timestamp, signature)] *)
Definition QQBotAdapter_verifySignature (self : QQBotAdapter)
           (body timestamp signature : string) : outcome bool :=
  if negb (verifySignature (config self)) then Ret true
  else
    match ed25519 self with
    | None => Ret false
    | Some ed =>
        try_catch
          (let message := timestamp ++ body in
           isValid <- Ed25519_verify nacl fuel ed signature message ;;
           Ret isValid)
          (fun _ => Ret false)
    end.

(** [private async handleVerification(payload)] *)
Definition handleVerification (self : QQBotAdapter) (payload : jsval)
  : outcome Response :=
  d <- JS.get payload "d" ;;
  plain_token <- JS.get d "plain_token" ;;
  event_ts <- JS.get d "event_ts" ;;
  if negb (JS.truthy plain_token) || negb (JS.truthy event_ts) then
    Ret (text_response "Bad request" 400)
  else
    match ed25519 self with
    | None => Ret (text_response "Server configuration error" 500)
    | Some ed =>
        try_catch
          (plainTokenStr <- JS.String_ plain_token ;;
           eventTsStr <- JS.String_ event_ts ;;
           let message := eventTsStr ++ plainTokenStr in
           signature <- Ed25519_sign nacl fuel ed message ;;
           let responseBody :=
             match plain_token with
             | Some v => JObj [("plain_token", v); ("signature", JStr signature)]
             | None => JObj [("signature", JStr signature)]
             end in
           Ret {| status := 200; res_body := JSON_stringify responseBody |})
          (fun _ => Ret (text_response "Internal server error" 500))
    end.

(** [async handleWebhook(request)] *)
Definition handleWebhook (self : QQBotAdapter) (request : Request)
  : outcome Response :=
  try_catch
    (let body := req_body request in
     let timestamp := header_or_empty "X-Signature-Timestamp" request in
     let signature := header_or_empty "X-Signature-Ed25519" request in
     payload <- parse body ;;
     op <- JS.get payload "op" ;;
     if JS.is_num 13 op then handleVerification self payload
     else
       let by_opcode :=
         if JS.is_num 0 op then Ret (handleDispatch payload)
         else Ret createAckResponse in
       if verifySignature (config self)
          && JSString.truthy timestamp && JSString.truthy signature
       then
         isValid <- QQBotAdapter_verifySignature self body timestamp signature ;;
         if negb isValid then Ret (text_response "Invalid signature" 401)
         else by_opcode
       else by_opcode)
    (fun _ => Ret (text_response "Internal server error" 500)).

End QQBot.

(* ------------------------------------------------------------------ *)
(** ** routes/webhook.ts: the collaborators *)

Definition SUPPORTED_PLATFORMS : list string :=
  ["github"; "gitlab"; "qqbot"; "telegram";
   "stripe"; "jenkins"; "jira"; "sentry"; "generic"].

(** [xs.includes(x)] *)
Definition includes (xs : list string) (x : string) : bool :=
  existsb (String.eqb x) xs.

(** The routing record, as the handlers read it, with the credential and
    the verification switch the factory binds to the adapter. *)
Record Proxy : Type := {
  proxy_id : string;
  proxy_platform : string;
  proxy_active : bool;
  access_token : option string;
  proxy_secret : string;
  proxy_verify_signature : bool
}.

(** What the store's promise resolves to. *)
Inductive store_value : Type :=
| SNull
| SUndefined
| SProxy (p : Proxy).

(** A query of the store: the answer of its promise ([Pending]: it never
    settles) and the milliseconds it takes. *)
Record Query : Type := {
  settles_after : Z;
  answer : outcome store_value
}.

(** The interface the routes use of an adapter. *)
Record Adapter : Type := {
  adapter_handleWebhook : Request -> outcome Response;
  adapter_transform : jsval -> outcome WebhookEventData
}.

(** What the Durable Object answers to one [fetch]. *)
Record DOResponse : Type := {
  do_ok : bool;
  do_status : Z
}.

(** The environment of the routes: the store ([db/proxies.ts]), the
    factory ([utils/adapter-factory.ts]), the classification of errors
    ([utils/performance.ts]) and the Durable Object.  The calls with side
    effects answer by the number of the attempt. *)
Record Env : Type := {
  getProxyByRandomKey : string -> Query;
  createAdapter : Proxy -> outcome (option Adapter);
  classifyError : error -> string;
  updateProxyEventCount : string -> nat -> outcome unit;
  broadcast_fetch : string -> WebhookEventData -> nat -> outcome DOResponse;
  connection_fetch : string -> Request -> outcome Response
}.

(** [Promise.race([dbQueryPromise, timeoutPromise])], the timer resolving
    to [null] after 10000 ms.  The promise of the store is made first and
    comes first in the race: when both settle at the same time, the store
    wins. *)
Definition race_with_timeout (q : Query) : outcome store_value :=
  match answer q with
  | Pending => Ret SNull
  | r => if (settles_after q <=? 10000)%Z then r else Ret SNull
  end.

(** [request.clone()]: a request whose body has been read cannot be
    cloned, the call throws a [TypeError]. *)
Definition Request_clone (bodyUsed : bool) (request : Request)
  : outcome Request :=
  if bodyUsed then Throw TypeError else Ret request.

(** [await dbQueryPromise] *)
Definition await_query (q : Query) : outcome store_value := answer q.

(** Modelled from the spec: [withRetry] of utils/performance.ts is not among
    the sources.  The retry helper runs the step, and after a failure asks
    the predicate whether to continue while retries are left; when the
    retries are exhausted or the predicate declines, the last failure is
    raised to the caller.  It also reports how many attempts were made. *)
Fixpoint withRetry_from {A} (fn : nat -> outcome A)
         (onRetry : error -> nat -> bool) (retries attempt : nat)
  : outcome A * nat :=
  match fn attempt with
  | Throw e =>
      match retries with
      | O => (Throw e, S attempt)
      | S retries' =>
          if onRetry e attempt
          then withRetry_from fn onRetry retries' (S attempt)
          else (Throw e, S attempt)
      end
  | r => (r, S attempt)
  end.

Record RetryOptions : Type := {
  maxRetries : nat;
  initialDelay : Z
}.

Definition withRetry {A} (fn : nat -> outcome A) (options : RetryOptions)
           (onRetry : error -> nat -> bool) : outcome A * nat :=
  withRetry_from fn onRetry (maxRetries options) 0.

(* ------------------------------------------------------------------ *)
(** ** routes/webhook.ts: the handlers *)

(** A task handed to [executionCtx.waitUntil]: the arguments of
    [broadcastEvent], the request being the clone that still holds the
    body. *)
Record BroadcastTask : Type := {
  task_adapter : Adapter;
  task_body : string;
  task_proxyId : string;
  task_randomKey : string
}.

(** What the POST handler leaves behind: the response, the arguments of
    [perfMonitor.end], and the tasks it scheduled. *)
Record PostResult : Type := {
  response : Response;
  recorded : string * option string;
  scheduled : list BroadcastTask
}.

Definition reject (kind text : string) (st : Z) : PostResult :=
  {| response := text_response text st;
     recorded := ("error", Some kind);
     scheduled := [] |}.

(** What one run of [broadcastEvent] did: the attempts at the counter and
    at the delivery, the event the Durable Object accepted, the error the
    [catch] logged, and whether the task ended. *)
Record BroadcastReport : Type := {
  count_attempts : nat;
  delivery_attempts : nat;
  delivered : option WebhookEventData;
  logged : option error;
  finished : outcome unit
}.

Section Routes.

Variable env : Env.
Variable JSON_parse : string -> option json.

(** [webhook.post('/:platform/:randomKey', ...)].  The request is cloned
    before the adapter reads it.  On the QQ Bot platform the handler
    reads the body of the clone to look at [op], writes [op] and
    [t || 'N/A'] into a log line (a template, which turns both into
    strings), and for a dispatch clones the clone again, after its body
    was read. *)
Definition post_handler (platform randomKey : string) (req : Request)
  : outcome PostResult :=
  try_catch
    (if negb (includes SUPPORTED_PLATFORMS platform) then
       Ret (reject "InvalidPlatform" "Invalid platform" 400)
     else
       proxy <- race_with_timeout (getProxyByRandomKey env randomKey) ;;
       match proxy with
       | SNull => Ret (reject "DBTimeout" "Database timeout" 500)
       | SUndefined => Ret (reject "ProxyNotFound" "Proxy not found" 404)
       | SProxy proxy =>
           if negb (proxy_active proxy) then
             Ret (reject "ProxyInactive" "Proxy is inactive" 403)
           else if negb (String.eqb (proxy_platform proxy) platform) then
             Ret (reject "PlatformMismatch" "Platform mismatch" 400)
           else
             adapter <- createAdapter env proxy ;;
             match adapter with
             | None =>
                 Ret (reject "AdapterCreationFailed"
                             "Failed to create adapter" 500)
             | Some adapter =>
                 let task (request : Request) :=
                   {| task_adapter := adapter;
                      task_body := req_body request;
                      task_proxyId := proxy_id proxy;
                      task_randomKey := randomKey |} in
                 clonedRequest <- Request_clone false req ;;
                 response <- adapter_handleWebhook adapter req ;;
                 tasks <-
                   (if Z.eqb (status response) 200 then
                      if String.eqb platform "qqbot" then
                        let bodyText := req_body clonedRequest in
                        payload <- parse JSON_parse bodyText ;;
                        op <- JS.get payload "op" ;;
                        _ <- JS.String_ op ;;
                        t <- JS.get payload "t" ;;
                        _ <- JS.String_ (JS.or t (JS.str "N/A")) ;;
                        if JS.is_num 0 op then
                          again <- Request_clone true clonedRequest ;;
                          Ret [task again]
                        else Ret []
                      else Ret [task clonedRequest]
                    else Ret []) ;;
                 Ret {| response := response;
                        recorded := ("success", None);
                        scheduled := tasks |}
             end
       end)
    (fun error =>
       let errorType := classifyError env error in
       let answer :=
         match error with
         | SyntaxError => text_response "Invalid JSON payload" 400
         | TypeError => text_response "Invalid request format" 400
         | Error _ => text_response "Internal server error" 500
         end in
       Ret {| response := answer;
              recorded := ("error", Some errorType);
              scheduled := [] |}).

Definition retry_options : RetryOptions :=
  {| maxRetries := 2; initialDelay := 100 |}.

(** The step retried for the delivery: a response that is not ok is
    thrown. *)
Definition deliver (randomKey : string) (event : WebhookEventData)
           (attempt : nat) : outcome unit :=
  doResponse <- broadcast_fetch env randomKey event attempt ;;
  if negb (do_ok doResponse) then
    Throw (Error ("DO broadcast failed: " ++ JS.Number_toString (do_status doResponse)))
  else Ret tt.

Definition report (n1 n2 : nat) (ev : option WebhookEventData)
           (e : option error) (fin : outcome unit) : BroadcastReport :=
  {| count_attempts := n1; delivery_attempts := n2;
     delivered := ev; logged := e; finished := fin |}.

(** [async function broadcastEvent(c, adapter, request, proxyId, randomKey)].
    After the delivery the closing log line turns [event.type] into a
    string, inside the [try]. *)
Definition broadcastEvent (t : BroadcastTask) : BroadcastReport :=
  match (payload <- parse JSON_parse (task_body t) ;;
         adapter_transform (task_adapter t) payload) with
  | Throw e => report 0 0 None (Some e) (Ret tt)
  | Pending => report 0 0 None None Pending
  | Ret event =>
      let (r1, n1) :=
        withRetry (updateProxyEventCount env (task_proxyId t))
                  retry_options (fun _ _ => true) in
      match r1 with
      | Throw e => report n1 0 None (Some e) (Ret tt)
      | Pending => report n1 0 None None Pending
      | Ret _ =>
          let (r2, n2) :=
            withRetry (deliver (task_randomKey t) event)
                      retry_options (fun _ _ => true) in
          match r2 with
          | Throw e => report n1 n2 None (Some e) (Ret tt)
          | Pending => report n1 n2 None None Pending
          | Ret _ =>
              match JS.String_ (ev_type event) with
              | Throw e => report n1 n2 (Some event) (Some e) (Ret tt)
              | _ => report n1 n2 (Some event) None (Ret tt)
              end
          end
      end
  end.

(** [webhook.get('/:platform/:randomKey/:connectionType', ...)] *)
Definition get_handler (platform randomKey connectionType : string)
           (req : Request) : outcome Response :=
  try_catch
    (if negb (includes SUPPORTED_PLATFORMS platform) then
       Ret (text_response "Invalid platform" 400)
     else if negb (includes ["ws"; "sse"] connectionType) then
       Ret (text_response "Invalid connection type" 400)
     else
       proxy <- await_query (getProxyByRandomKey env randomKey) ;;
       match proxy with
       | SNull | SUndefined =>
           Ret (text_response "Proxy not found or inactive" 404)
       | SProxy proxy =>
           if negb (proxy_active proxy) then
             Ret (text_response "Proxy not found or inactive" 404)
           else if negb (String.eqb (proxy_platform proxy) platform) then
             Ret (text_response "Platform mismatch" 400)
           else
             let newRequest :=
               {| req_body := req_body req;
                  req_headers :=
                    ("X-Proxy-Access-Token",
                     match access_token proxy with Some t => t | None => "" end)
                    :: req_headers req |} in
             response <- connection_fetch env randomKey newRequest ;;
             Ret response
       end)
    (fun _ => Ret (text_response "Internal server error" 500)).

End Routes.

(* ------------------------------------------------------------------ *)
(** ** Auxiliary definitions of the properties *)

Definition hex_of_byte (b : byte) : string :=
  JSString.padStart2 (toString16 b).

Fixpoint no_space (s : string) : bool :=
  match s with
  | EmptyString => true
  | String c r => negb (JSString.is_space c) && no_space r
  end.

(** Everything [hexToBytes] relies on, for the two digits of one byte. *)
Definition digits_ok (b : byte) : bool :=
  match hex_of_byte b with
  | String h1 (String h2 EmptyString) =>
      negb (JSString.is_space h1) && negb (JSString.is_space h2)
      && negb (Ascii.eqb h2 "x")
      && Byte.eqb (toUint8 (parseInt16 (String h1 (String h2 EmptyString)))) b
  | _ => false
  end.

(** The text of [bytesToHex] is lower-case hexadecimal. *)
Definition lower_hex (c : ascii) : bool :=
  let n := N_of_ascii c in
  (((48 <=? n) && (n <=? 57)) || ((97 <=? n) && (n <=? 102)))%N.

Fixpoint all_chars (p : ascii -> bool) (s : string) : bool :=
  match s with
  | EmptyString => true
  | String c r => p c && all_chars p r
  end.

(** The round trip of the design document: sign, then verify what was
    signed, under one secret. *)
Definition sign_then_verify (nacl : tweetnacl) (fuel : nat)
           (s m : string) : outcome bool :=
  signature <- Ed25519_sign nacl fuel (new_Ed25519 s) m ;;
  Ed25519_verify nacl fuel (new_Ed25519 s) signature m.

Definition is_ascii (c : ascii) : bool := (N_of_ascii c <? 128)%N.

(** A secret longer than the seed: 33 characters. *)
Definition long_secret : string := "aaaaaaaaaaaaaaaaaaaaaaaaaaaaaaaaa".

(** A stand-in for tweetnacl that computes: the key pair is the seed
    twice, the signature is the first 64 bytes of key, message and
    padding, and the check recomputes it. *)
Definition toy_detached (m sk : list byte) : list byte :=
  firstn 64 (sk ++ m ++ repeat x00 64).

Definition bytes_eqb (a b : list byte) : bool :=
  if list_eq_dec Byte.byte_eq_dec a b then true else false.

Definition toy_nacl : tweetnacl :=
  {| PublicKey := list byte;
     SecretKey := list byte;
     crypto_sign_seed_keypair := fun seed => (seed, seed);
     crypto_sign_detached := toy_detached;
     crypto_sign_verify := fun m sig pk => bytes_eqb sig (toy_detached m pk) |}.

(** *** Sample requests *)

(** The double quote, and a quoted word. *)
Definition dq : string := String "034"%char EmptyString.
Definition quoted (w : string) : string := dq ++ w ++ dq.

(** [{"op":0,"t":"MESSAGE_CREATE","d":{}}] *)
Definition body_dispatch : string :=
  "{" ++ quoted "op" ++ ":0," ++ quoted "t" ++ ":" ++ quoted "MESSAGE_CREATE"
      ++ "," ++ quoted "d" ++ ":{}}".

(** [{"op":13,"d":{"plain_token":"tok","event_ts":"1700000000"}}] *)
Definition body_challenge : string :=
  "{" ++ quoted "op" ++ ":13," ++ quoted "d" ++ ":{" ++ quoted "plain_token"
      ++ ":" ++ quoted "tok" ++ "," ++ quoted "event_ts" ++ ":"
      ++ quoted "1700000000" ++ "}}".

(** [{"op":13,"d":{"plain_token":12345,"event_ts":1700000000}}] *)
Definition body_challenge_numeric : string :=
  "{" ++ quoted "op" ++ ":13," ++ quoted "d" ++ ":{" ++ quoted "plain_token"
      ++ ":12345," ++ quoted "event_ts" ++ ":1700000000}}".

(** [{"op":13,"d":{"plain_token":0,"event_ts":"1700000000"}}] *)
Definition body_challenge_zero : string :=
  "{" ++ quoted "op" ++ ":13," ++ quoted "d" ++ ":{" ++ quoted "plain_token"
      ++ ":0," ++ quoted "event_ts" ++ ":" ++ quoted "1700000000" ++ "}}".

(** [{"op":13,"d":null}] *)
Definition body_challenge_null : string :=
  "{" ++ quoted "op" ++ ":13," ++ quoted "d" ++ ":null}".

(** [{"op":7}] *)
Definition body_unknown : string := "{" ++ quoted "op" ++ ":7}".

(** A text that is not JSON. *)
Definition body_malformed : string := "{not json".

(** [JSON.parse] on the sample texts; the others stand for texts that do
    not parse. *)
Definition sample_parse (text : string) : option json :=
  if String.eqb text body_dispatch then
    Some (JObj [("op", JNum 0); ("t", JStr "MESSAGE_CREATE"); ("d", JObj [])])
  else if String.eqb text body_challenge then
    Some (JObj [("op", JNum 13);
                ("d", JObj [("plain_token", JStr "tok");
                            ("event_ts", JStr "1700000000")])])
  else if String.eqb text body_challenge_numeric then
    Some (JObj [("op", JNum 13);
                ("d", JObj [("plain_token", JNum 12345);
                            ("event_ts", JNum 1700000000)])])
  else if String.eqb text body_challenge_zero then
    Some (JObj [("op", JNum 13);
                ("d", JObj [("plain_token", JNum 0);
                            ("event_ts", JStr "1700000000")])])
  else if String.eqb text body_challenge_null then
    Some (JObj [("op", JNum 13); ("d", JNull)])
  else if String.eqb text body_unknown then
    Some (JObj [("op", JNum 7)])
  else None.

(** A request without headers, and one with the two signature headers. *)
Definition unsigned (text : string) : Request :=
  {| req_body := text; req_headers := [] |}.

Definition signed (text timestamp signature : string) : Request :=
  {| req_body := text;
     req_headers := [("X-Signature-Timestamp", timestamp);
                     ("X-Signature-Ed25519", signature)] |}.

(** A configuration with verification on and a secret of six characters. *)
Definition verifying_config : QQBotConfig :=
  {| appId := "102000000"; cfg_secret := "s3cr3t"; verifySignature := true |}.

(** The same without a secret. *)
Definition config_without_secret : QQBotConfig :=
  {| appId := "102000000"; cfg_secret := ""; verifySignature := true |}.

(** *** The adapter behind the interface of the routes *)

Definition qqbot_adapter (nacl : tweetnacl) (JSON_parse : string -> option json)
           (fuel : nat) (now_id now_ts : Z) (cfg : QQBotConfig) : Adapter :=
  {| adapter_handleWebhook :=
       handleWebhook nacl JSON_parse fuel (createQQBotAdapter cfg);
     adapter_transform := transform now_id now_ts |}.

(** Modelled from the spec: [createAdapter] of utils/adapter-factory.ts is
    not among the sources.  The registry selects the adapter by the
    platform of the record and binds it to the credential of the record;
    a platform without an adapter is an explicit failure.  Of the
    adapters only the QQ Bot one is at hand. *)
Definition createAdapter_model (nacl : tweetnacl)
           (JSON_parse : string -> option json) (fuel : nat)
           (now_id now_ts : Z) (proxy : Proxy) : outcome (option Adapter) :=
  if String.eqb (proxy_platform proxy) "qqbot" then
    Ret (Some (qqbot_adapter nacl JSON_parse fuel now_id now_ts
                 {| appId := "";
                    cfg_secret := proxy_secret proxy;
                    verifySignature := proxy_verify_signature proxy |}))
  else Ret None.

(** A routing record of the QQ Bot platform, active, with verification. *)
Definition sample_proxy : Proxy :=
  {| proxy_id := "p1"; proxy_platform := "qqbot"; proxy_active := true;
     access_token := Some "token"; proxy_secret := "s3cr3t";
     proxy_verify_signature := true |}.

Definition inactive_proxy : Proxy :=
  {| proxy_id := "p1"; proxy_platform := "qqbot"; proxy_active := false;
     access_token := Some "token"; proxy_secret := "s3cr3t";
     proxy_verify_signature := true |}.

(** An environment for the examples: the store answers every key alike,
    the counter and the Durable Object answer by attempt. *)
Definition sample_env (query : Query) (count : nat -> outcome unit)
           (target : nat -> outcome DOResponse) : Env :=
  {| getProxyByRandomKey := fun _ => query;
     createAdapter := createAdapter_model toy_nacl sample_parse 5 1700000000001 1700000000002;
     classifyError := fun _ => "UnknownError";
     updateProxyEventCount := fun _ => count;
     broadcast_fetch := fun _ _ => target;
     connection_fetch := fun _ _ => Ret (text_response "connected" 200) |}.

Definition fast (v : store_value) : Query :=
  {| settles_after := 12; answer := Ret v |}.

Definition hung : Query := {| settles_after := 0; answer := Pending |}.

Definition always_ok : nat -> outcome unit := fun _ => Ret tt.
Definition always_failing : nat -> outcome unit :=
  fun _ => Throw (Error "D1_ERROR").
Definition accepting : nat -> outcome DOResponse :=
  fun _ => Ret {| do_ok := true; do_status := 200 |}.

(** What can be compared of the result of the POST handler: the response,
    what was recorded, and of each scheduled task the body, the record and
    the routing key. *)
Definition summary (r : outcome PostResult)
  : option (Response * (string * option string) * list (string * string * string)) :=
  match r with
  | Ret r =>
      Some (response r, recorded r,
            map (fun t => (task_body t, task_proxyId t, task_randomKey t))
                (scheduled r))
  | _ => None
  end.

(** A task for the sample dispatch, as [broadcastEvent] takes it. *)
Definition sample_task : BroadcastTask :=
  {| task_adapter :=
       qqbot_adapter toy_nacl sample_parse 5 1700000000001 1700000000002
                     verifying_config;
     task_body := body_dispatch;
     task_proxyId := "p1";
     task_randomKey := "k1" |}.

(** The environment with other answers of the counter and of the Durable
    Object. *)
Definition with_effects (env : Env)
           (count : string -> nat -> outcome unit)
           (target : string -> WebhookEventData -> nat -> outcome DOResponse)
  : Env :=
  {| getProxyByRandomKey := getProxyByRandomKey env;
     createAdapter := createAdapter env;
     classifyError := classifyError env;
     updateProxyEventCount := count;
     broadcast_fetch := target;
     connection_fetch := connection_fetch env |}.

(** The payload [broadcastEvent] transforms. *)
Definition broadcast_event (JSON_parse : string -> option json)
           (t : BroadcastTask) : outcome WebhookEventData :=
  payload <- parse JSON_parse (task_body t) ;;
  adapter_transform (task_adapter t) payload.

(** The retried increment of the counter, as [broadcastEvent] runs it. *)
Definition count_update (env : Env) (t : BroadcastTask) : outcome unit * nat :=
  withRetry (updateProxyEventCount env (task_proxyId t))
            retry_options (fun _ _ => true).

(** What can be compared of a run of [broadcastEvent]. *)
Definition report_summary (r : BroadcastReport)
  : nat * nat * bool * option error * outcome unit :=
  (count_attempts r, delivery_attempts r,
   match delivered r with Some _ => true | None => false end,
   logged r, finished r).

(** Induction on a parsed text, with the items of an array at hand. *)
Section JsonInduction.

Variable P : json -> Prop.
Hypothesis HNull : P JNull.
Hypothesis HBool : forall b, P (JBool b).
Hypothesis HNum : forall n, P (JNum n).
Hypothesis HDec : forall m e, P (JDec m e).
Hypothesis HStr : forall s, P (JStr s).
Hypothesis HArr : forall items, Forall P items -> P (JArr items).
Hypothesis HObj : forall fields, P (JObj fields).

Fixpoint json_items_ind (v : json) : P v :=
  match v with
  | JNull => HNull
  | JBool b => HBool b
  | JNum n => HNum n
  | JDec m e => HDec m e
  | JStr s => HStr s
  | JArr items =>
      HArr items
        ((fix all (l : list json) : Forall P l :=
            match l with
            | [] => Forall_nil P
            | e :: r => Forall_cons e (json_items_ind e) (all r)
            end) items)
  | JObj fields => HObj fields
  end.

End JsonInduction.

(** A value that can be turned into a string: no object with a member
    [toString] of its own, at the top or among the items of an array. *)
Fixpoint printable (v : json) : bool :=
  match v with
  | JArr items => forallb printable items
  | JObj fields =>
      match JS.field "toString" fields with
      | Some _ => false
      | None => true
      end
  | _ => true
  end.

(** A routing record of the QQ Bot platform with the verification off. *)
Definition open_proxy : Proxy :=
  {| proxy_id := "p1"; proxy_platform := "qqbot"; proxy_active := true;
     access_token := Some "token"; proxy_secret := "s3cr3t";
     proxy_verify_signature := false |}.

(** Two payloads that agree on the members [transform] reads. *)
Definition same_members (p p' : jsval) : Prop :=
  JS.get p "id" = JS.get p' "id"
  /\ JS.get p "op" = JS.get p' "op"
  /\ JS.get p "d" = JS.get p' "d"
  /\ JS.get p "s" = JS.get p' "s"
  /\ JS.get p "t" = JS.get p' "t".

(** *** More samples *)

(** A secret of 32 code units whose first one is not ASCII (U+00E9). *)
Definition latin_secret : string :=
  String "233"%char "bcdefghijklmnopqrstuvwxyz012345".

(** The statuses the adapter writes itself. *)
Definition adapter_status (r : Response) : Prop :=
  In (status r) [200; 400; 401; 500]%Z.

(** A value that [JSON.stringify] keeps in an object: not [undefined]. *)
Definition defined (v : jsval) : bool :=
  match v with Some _ => true | None => false end.

(** The response of the [catch] of the POST handler to an error. *)
Definition post_catch (env : Env) (e : error) : PostResult :=
  {| response :=
       match e with
       | SyntaxError => text_response "Invalid JSON payload" 400
       | TypeError => text_response "Invalid request format" 400
       | Error _ => text_response "Internal server error" 500
       end;
     recorded := ("error", Some (classifyError env e));
     scheduled := [] |}.

(** The request the GET handler hands to the Durable Object: the headers
    of the request with [X-Proxy-Access-Token] set, and its body. *)
Definition forwarded (proxy : Proxy) (req : Request) : Request :=
  {| req_body := req_body req;
     req_headers :=
       ("X-Proxy-Access-Token",
        match access_token proxy with Some t => t | None => "" end)
       :: req_headers req |}.

(** *** The other copy of the routes (src/unnamed/part_001)

    The POST handler of the second routes file differs from the one above
    in the timer of the lookup, 5000 ms (the store again winning a tie),
    and in its log lines: on the QQ Bot platform it writes [op] into a log
    line, not [t].  Its [broadcastEvent] and its GET handler are the ones
    above. *)

(** [Promise.race([dbQueryPromise, timeoutPromise])], the timer resolving
    to [null] after 5000 ms. *)
Definition race_with_timeout_5s (q : Query) : outcome store_value :=
  match answer q with
  | Pending => Ret SNull
  | r => if (settles_after q <=? 5000)%Z then r else Ret SNull
  end.

(** [webhook.post('/:platform/:randomKey', ...)] of the second file *)
Definition post_handler_5s (env : Env) (JSON_parse : string -> option json)
           (platform randomKey : string) (req : Request)
  : outcome PostResult :=
  try_catch
    (if negb (includes SUPPORTED_PLATFORMS platform) then
       Ret (reject "InvalidPlatform" "Invalid platform" 400)
     else
       proxy <- race_with_timeout_5s (getProxyByRandomKey env randomKey) ;;
       match proxy with
       | SNull => Ret (reject "DBTimeout" "Database timeout" 500)
       | SUndefined => Ret (reject "ProxyNotFound" "Proxy not found" 404)
       | SProxy proxy =>
           if negb (proxy_active proxy) then
             Ret (reject "ProxyInactive" "Proxy is inactive" 403)
           else if negb (String.eqb (proxy_platform proxy) platform) then
             Ret (reject "PlatformMismatch" "Platform mismatch" 400)
           else
             adapter <- createAdapter env proxy ;;
             match adapter with
             | None =>
                 Ret (reject "AdapterCreationFailed"
                             "Failed to create adapter" 500)
             | Some adapter =>
                 let task (request : Request) :=
                   {| task_adapter := adapter;
                      task_body := req_body request;
                      task_proxyId := proxy_id proxy;
                      task_randomKey := randomKey |} in
                 clonedRequest <- Request_clone false req ;;
                 response <- adapter_handleWebhook adapter req ;;
                 tasks <-
                   (if Z.eqb (status response) 200 then
                      if String.eqb platform "qqbot" then
                        let bodyText := req_body clonedRequest in
                        payload <- parse JSON_parse bodyText ;;
                        op <- JS.get payload "op" ;;
                        _ <- JS.String_ op ;;
                        if JS.is_num 0 op then
                          again <- Request_clone true clonedRequest ;;
                          Ret [task again]
                        else Ret []
                      else Ret [task clonedRequest]
                    else Ret []) ;;
                 Ret {| response := response;
                        recorded := ("success", None);
                        scheduled := tasks |}
             end
       end)
    (fun error =>
       let errorType := classifyError env error in
       let answer :=
         match error with
         | SyntaxError => text_response "Invalid JSON payload" 400
         | TypeError => text_response "Invalid request format" 400
         | Error _ => text_response "Internal server error" 500
         end in
       Ret {| response := answer;
              recorded := ("error", Some errorType);
              scheduled := [] |}).


(** *** Samples for the other platforms

    The adapters of the other platforms are not among the sources; the
    routes see an adapter through its interface only.  For the examples, an
    adapter that acknowledges every request stands for one of them. *)
Definition acknowledging_adapter : Adapter :=
  {| adapter_handleWebhook := fun _ => Ret (text_response "OK" 200);
     adapter_transform := transform 1700000000001 1700000000002 |}.

(** A routing record of the platform [generic]. *)
Definition generic_proxy : Proxy :=
  {| proxy_id := "p2"; proxy_platform := "generic"; proxy_active := true;
     access_token := Some "token"; proxy_secret := "";
     proxy_verify_signature := false |}.

(** An environment whose store holds that record and whose registry gives
    the acknowledging adapter. *)
Definition generic_env : Env :=
  {| getProxyByRandomKey := fun _ => fast (SProxy generic_proxy);
     createAdapter := fun _ => Ret (Some acknowledging_adapter);
     classifyError := fun _ => "UnknownError";
     updateProxyEventCount := fun _ => always_ok;
     broadcast_fetch := fun _ _ => accepting;
     connection_fetch := fun _ _ => Ret (text_response "connected" 200) |}.

(** [{"op":7,"t":{"toString":1}}]: an event type that cannot be turned into
    a string. *)
Definition body_unprintable_type : string :=
  "{" ++ quoted "op" ++ ":7," ++ quoted "t" ++ ":{" ++ quoted "toString"
      ++ ":1}}".

(** [JSON.parse] on that text too. *)
Definition sample_parse' (text : string) : option json :=
  if String.eqb text body_unprintable_type then
    Some (JObj [("op", JNum 7); ("t", JObj [("toString", JNum 1)])])
  else sample_parse text.

(** The sample environment with an adapter that parses that text too. *)
Definition sample_env' (query : Query) : Env :=
  {| getProxyByRandomKey := fun _ => query;
     createAdapter :=
       createAdapter_model toy_nacl sample_parse' 5
                           1700000000001 1700000000002;
     classifyError := fun _ => "UnknownError";
     updateProxyEventCount := fun _ => always_ok;
     broadcast_fetch := fun _ _ => accepting;
     connection_fetch := fun _ _ => Ret (text_response "connected" 200) |}.

(* ================================================================== *)
(** * Properties *)

(** ** The hexadecimal helpers *)

Example bytesToHex_sample :
  bytesToHex [x00; x0f; xa5; xff] = "000fa5ff".
Proof. reflexivity. Qed.

Example hexToBytes_sample :
  hexToBytes "0x000FA5ff " = Ret [x00; x0f; xa5; xff].
Proof. reflexivity. Qed.

Example hexToBytes_odd :
  throws (hexToBytes "abc") = true.
Proof. reflexivity. Qed.

(** A sloppy digit pair is read as far as it goes: [parseInt('1g', 16)] is 1
    and [parseInt('zz', 16)] is [NaN], stored as 0. *)
Example hexToBytes_lenient :
  hexToBytes "1gzz" = Ret [x01; x00].
Proof. reflexivity. Qed.

Lemma digits_ok_all (b : byte) : digits_ok b = true.
Proof. destruct b; vm_compute; reflexivity. Qed.

Lemma hex_of_byte_shape (b : byte) :
  exists h1 h2,
    hex_of_byte b = String h1 (String h2 EmptyString)
    /\ JSString.is_space h1 = false /\ JSString.is_space h2 = false
    /\ h2 <> "x"%char
    /\ toUint8 (parseInt16 (String h1 (String h2 EmptyString))) = b.
Proof.
  pose proof (digits_ok_all b) as H. unfold digits_ok in H.
  destruct (hex_of_byte b) as [|h1 [|h2 [|? ?]]]; try discriminate.
  exists h1, h2.
  repeat (apply andb_prop in H; destruct H as [H ?]).
  repeat match goal with
         | K : negb _ = true |- _ => apply negb_true_iff in K
         end.
  repeat split; auto.
  - intros ->. discriminate.
  - apply Byte.byte_dec_bl. assumption.
Qed.

Lemma append_empty_r (s : string) : s ++ "" = s.
Proof. induction s; simpl; congruence. Qed.

Lemma bytesToHex_cons (b : byte) (bs : list byte) :
  bytesToHex (b :: bs) = hex_of_byte b ++ bytesToHex bs.
Proof.
  unfold bytesToHex. simpl. fold (hex_of_byte b).
  destruct (map _ bs) eqn:E; simpl.
  - now rewrite append_empty_r.
  - reflexivity.
Qed.

Lemma bytesToHex_length (bs : list byte) :
  String.length (bytesToHex bs) = 2 * List.length bs.
Proof.
  induction bs as [|b bs IH]; [reflexivity|].
  rewrite bytesToHex_cons.
  destruct (hex_of_byte_shape b) as (h1 & h2 & -> & _).
  simpl. rewrite IH. lia.
Qed.

Lemma bytesToHex_no_space (bs : list byte) : no_space (bytesToHex bs) = true.
Proof.
  induction bs as [|b bs IH]; [reflexivity|].
  rewrite bytesToHex_cons.
  destruct (hex_of_byte_shape b) as (h1 & h2 & -> & S1 & S2 & _).
  simpl. now rewrite S1, S2, IH.
Qed.

Lemma trimEnd_no_space (s : string) :
  no_space s = true -> JSString.trimEnd s = s.
Proof.
  induction s as [|c r IH]; simpl; [reflexivity|].
  intros H. apply andb_prop in H. destruct H as [Hc Hr].
  rewrite (IH Hr). apply negb_true_iff in Hc. rewrite Hc.
  destruct r; reflexivity.
Qed.

Lemma trim_no_space (s : string) : no_space s = true -> JSString.trim s = s.
Proof.
  intros H. unfold JSString.trim.
  assert (JSString.trimStart s = s) as ->.
  { destruct s as [|c r]; simpl in *; [reflexivity|].
    apply andb_prop in H. destruct H as [Hc _].
    apply negb_true_iff in Hc. now rewrite Hc. }
  now apply trimEnd_no_space.
Qed.

Lemma strip_0x_bytesToHex (bs : list byte) :
  JSString.strip_0x (bytesToHex bs) = bytesToHex bs.
Proof.
  destruct bs as [|b bs]; [reflexivity|].
  rewrite bytesToHex_cons.
  destruct (hex_of_byte_shape b) as (h1 & h2 & -> & _ & _ & Hx & _).
  simpl. destruct h1 as [[] [] [] [] [] [] [] []]; try reflexivity.
  destruct h2 as [[] [] [] [] [] [] [] []]; try reflexivity.
  now elim Hx.
Qed.

Lemma hex_pairs_bytesToHex (bs : list byte) : hex_pairs (bytesToHex bs) = bs.
Proof.
  induction bs as [|b bs IH]; [reflexivity|].
  rewrite bytesToHex_cons.
  destruct (hex_of_byte_shape b) as (h1 & h2 & -> & _ & _ & _ & Hb).
  cbn [append hex_pairs]. now rewrite Hb, IH.
Qed.

(** Decoding the hexadecimal text of a byte array gives the array back. *)
Lemma hexToBytes_bytesToHex (bs : list byte) :
  hexToBytes (bytesToHex bs) = Ret bs.
Proof.
  unfold hexToBytes.
  rewrite strip_0x_bytesToHex, (trim_no_space _ (bytesToHex_no_space bs)).
  rewrite bytesToHex_length, hex_pairs_bytesToHex.
  replace (Nat.even (2 * List.length bs)) with true; [reflexivity|].
  symmetry. apply Nat.even_spec. now exists (List.length bs).
Qed.

Lemma all_chars_app p (s t : string) :
  all_chars p (s ++ t) = all_chars p s && all_chars p t.
Proof. induction s; simpl; [reflexivity|]. now rewrite IHs, andb_assoc. Qed.

Lemma hex_of_byte_lower (b : byte) : all_chars lower_hex (hex_of_byte b) = true.
Proof. destruct b; vm_compute; reflexivity. Qed.

Lemma bytesToHex_lower_hex (bs : list byte) :
  all_chars lower_hex (bytesToHex bs) = true.
Proof.
  induction bs as [|b bs IH]; [reflexivity|].
  now rewrite bytesToHex_cons, all_chars_app, hex_of_byte_lower, IH.
Qed.

(** ** The key derivation *)

Lemma length_append (s t : string) :
  String.length (s ++ t) = String.length s + String.length t.
Proof. induction s; simpl; congruence. Qed.

Lemma length_slice0 (n : nat) (s : string) :
  String.length (JSString.slice0 n s) = Nat.min n (String.length s).
Proof.
  unfold JSString.slice0. revert n.
  induction s as [|c r IH]; intros [|n]; simpl; auto.
Qed.

Lemma stretch_unfold (fuel : nat) (s : string) :
  stretch fuel s =
  if Nat.ltb (String.length s) 32 then
    match fuel with
    | O => Pending
    | S fuel' => stretch fuel' (JSString.slice0 32 (JSString.repeat2 s))
    end
  else Ret s.
Proof. destruct fuel; reflexivity. Qed.

(** A secret of 32 code units or more leaves the loop as it entered it:
    nothing is cut off. *)
Lemma stretch_long (fuel : nat) (s : string) :
  32 <= String.length s -> stretch fuel s = Ret s.
Proof.
  intros H. rewrite stretch_unfold.
  destruct (Nat.ltb_spec (String.length s) 32); [lia|reflexivity].
Qed.

(** A secret that is not empty leaves the loop, with at least 32 code
    units, once the fuel covers the doublings. *)
Lemma stretch_terminates (fuel : nat) (s : string) :
  1 <= String.length s ->
  32 <= String.length s * 2 ^ fuel ->
  exists s', stretch fuel s = Ret s'
             /\ String.length s' = Nat.max 32 (String.length s).
Proof.
  revert s. induction fuel as [|fuel IH]; intros s H1 H2;
    rewrite stretch_unfold;
    destruct (Nat.ltb_spec (String.length s) 32) as [Hlt|Hge].
  - simpl in H2. lia.
  - exists s. split; [reflexivity|lia].
  - set (s1 := JSString.slice0 32 (JSString.repeat2 s)).
    assert (Hl : String.length s1 = Nat.min 32 (2 * String.length s)).
    { unfold s1, JSString.repeat2. rewrite length_slice0, length_append. lia. }
    destruct (IH s1) as (s' & E & L).
    + lia.
    + rewrite Hl. rewrite Nat.pow_succ_r' in H2.
      assert (1 <= 2 ^ fuel) by (pose proof (Nat.pow_nonzero 2 fuel); lia).
      destruct (Nat.min_spec 32 (2 * String.length s)) as [[_ ->]|[_ ->]]; nia.
    + exists s'. split; [exact E|]. rewrite L, Hl. lia.
  - exists s. split; [reflexivity|lia].
Qed.

Lemma stretch_nonempty (fuel : nat) (s : string) :
  1 <= String.length s -> 5 <= fuel ->
  exists s', stretch fuel s = Ret s'
             /\ String.length s' = Nat.max 32 (String.length s).
Proof.
  intros H1 H5. apply stretch_terminates; [assumption|].
  assert (2 ^ 5 <= 2 ^ fuel) by (apply Nat.pow_le_mono_r; lia).
  change (2 ^ 5) with 32 in *. nia.
Qed.

(** The empty secret never leaves the loop. *)
Lemma stretch_empty (fuel : nat) : stretch fuel "" = Pending.
Proof. induction fuel; simpl; auto. Qed.

Lemma TextEncoder_encode_cons (c : ascii) (s : string) :
  TextEncoder_encode (String c s)
  = (encode_unit c ++ TextEncoder_encode s)%list.
Proof. reflexivity. Qed.

(** One byte for each code unit below 128, two for the others. *)
Lemma encode_ascii_length (s : string) :
  all_chars is_ascii s = true ->
  List.length (TextEncoder_encode s) = String.length s.
Proof.
  induction s as [|c r IH]; simpl; [reflexivity|].
  intros H. apply andb_prop in H. destruct H as [Hc Hr].
  rewrite TextEncoder_encode_cons, length_app, (IH Hr).
  unfold encode_unit. unfold is_ascii in Hc. now rewrite Hc.
Qed.

Lemma encode_length_ge (s : string) :
  String.length s <= List.length (TextEncoder_encode s).
Proof.
  induction s as [|c r IH]; simpl; [lia|].
  rewrite TextEncoder_encode_cons, length_app.
  unfold encode_unit. destruct (N_of_ascii c <? 128)%N; simpl; lia.
Qed.

Section BadSeed.

Variable nacl : tweetnacl.

(** A secret with more than 32 code units reaches [fromSeed] whole, and
    [fromSeed] refuses it: [sign] throws, [verify] answers [false]. *)
Lemma sign_long_secret (fuel : nat) (s m : string) :
  32 < String.length s ->
  Ed25519_sign nacl fuel (new_Ed25519 s) m = Throw (Error "bad seed size").
Proof.
  intros H. unfold Ed25519_sign. cbn [secret].
  rewrite stretch_long by lia. cbn [bind].
  unfold keyPair_fromSeed.
  pose proof (encode_length_ge s).
  destruct (Nat.eqb_spec (List.length (TextEncoder_encode s)) 32); [lia|].
  reflexivity.
Qed.

Lemma verify_long_secret (fuel : nat) (s sig m : string) :
  32 < String.length s ->
  Ed25519_verify nacl fuel (new_Ed25519 s) sig m = Ret false.
Proof.
  intros H. unfold Ed25519_verify. cbn [secret].
  rewrite stretch_long by lia. cbn [bind].
  unfold keyPair_fromSeed.
  pose proof (encode_length_ge s).
  destruct (Nat.eqb_spec (List.length (TextEncoder_encode s)) 32); [lia|].
  reflexivity.
Qed.

(** With the empty secret neither method settles. *)
Lemma sign_empty_secret (fuel : nat) (m : string) :
  Ed25519_sign nacl fuel (new_Ed25519 "") m = Pending.
Proof. unfold Ed25519_sign. cbn [secret]. now rewrite stretch_empty. Qed.

Lemma verify_empty_secret (fuel : nat) (sig m : string) :
  Ed25519_verify nacl fuel (new_Ed25519 "") sig m = Pending.
Proof. unfold Ed25519_verify. cbn [secret]. now rewrite stretch_empty. Qed.

End BadSeed.

Lemma all_chars_slice0 p (n : nat) (s : string) :
  all_chars p s = true -> all_chars p (JSString.slice0 n s) = true.
Proof.
  unfold JSString.slice0. revert n.
  induction s as [|c r IH]; intros [|n] H; simpl in *; auto.
  apply andb_prop in H. destruct H as [-> Hr]. simpl. now apply IH.
Qed.

(** The loop keeps the characters of the secret in their class. *)
Lemma stretch_all_chars p (fuel : nat) (s s' : string) :
  all_chars p s = true -> stretch fuel s = Ret s' -> all_chars p s' = true.
Proof.
  revert s. induction fuel as [|fuel IH]; intros s H;
    rewrite stretch_unfold; destruct (Nat.ltb (String.length s) 32);
    try discriminate; try (intros [= <-]; assumption).
  apply IH. apply all_chars_slice0. unfold JSString.repeat2.
  now rewrite all_chars_app, H.
Qed.

(** A secret of 1 to 32 ASCII characters gives a seed of 32 bytes. *)
Lemma seed_of_short_ascii (fuel : nat) (s : string) :
  1 <= String.length s <= 32 -> all_chars is_ascii s = true -> 5 <= fuel ->
  exists seed, seed_of fuel s = Ret seed /\ List.length seed = 32.
Proof.
  intros [H1 H2] Ha Hf.
  destruct (stretch_nonempty fuel s H1 Hf) as (s' & E & L).
  exists (TextEncoder_encode s'). unfold seed_of. rewrite E. split; [reflexivity|].
  rewrite encode_ascii_length by (eapply stretch_all_chars; eauto). lia.
Qed.

Section RoundTrip.

Variable nacl : tweetnacl.

(** What Ed25519 promises: signatures have 64 bytes, and the signature
    made with the secret key of a seed passes the check under the public
    key of the same seed. *)
Hypothesis detached_length : forall m sk,
  List.length (crypto_sign_detached nacl m sk) = 64.
Hypothesis verify_detached : forall seed m,
  List.length seed = 32 ->
  crypto_sign_verify nacl m
    (crypto_sign_detached nacl m (snd (crypto_sign_seed_keypair nacl seed)))
    (fst (crypto_sign_seed_keypair nacl seed)) = true.

(** Whenever the derived seed has 32 bytes, what [sign] produced is
    accepted by [verify]. *)
Lemma round_trip_good_seed (fuel : nat) (s m : string) (seed : list byte) :
  seed_of fuel s = Ret seed -> List.length seed = 32 ->
  sign_then_verify nacl fuel s m = Ret true.
Proof.
  unfold seed_of, sign_then_verify, Ed25519_sign, Ed25519_verify.
  cbn [secret]. destruct (stretch fuel s) as [s'| |]; try discriminate.
  cbn [bind]. intros [= <-] L.
  unfold keyPair_fromSeed, sign_detached. rewrite L. cbn.
  rewrite hexToBytes_bytesToHex. cbn [bind].
  unfold sign_detached_verify.
  rewrite detached_length. cbn.
  f_equal. now apply verify_detached.
Qed.

Lemma round_trip_short_ascii (fuel : nat) (s m : string) :
  1 <= String.length s <= 32 -> all_chars is_ascii s = true -> 5 <= fuel ->
  sign_then_verify nacl fuel s m = Ret true.
Proof.
  intros H Ha Hf.
  destruct (seed_of_short_ascii fuel s H Ha Hf) as (seed & E & L).
  eapply round_trip_good_seed; eauto.
Qed.

End RoundTrip.

Lemma toy_detached_length (m sk : list byte) :
  List.length (toy_detached m sk) = 64.
Proof.
  unfold toy_detached. rewrite length_firstn, !length_app, repeat_length. lia.
Qed.

Lemma bytes_eqb_refl (a : list byte) : bytes_eqb a a = true.
Proof. unfold bytes_eqb. destruct (list_eq_dec _ a a); congruence. Qed.

(** The promises of the section are met by the stand-in, at the secret
    ["s3cr3t"]. *)
Lemma round_trip_short_ascii_witness :
  sign_then_verify toy_nacl 5 "s3cr3t" "1700000000tok" = Ret true.
Proof.
  apply (@round_trip_short_ascii toy_nacl).
  - intros m sk. apply toy_detached_length.
  - intros seed m _. apply bytes_eqb_refl.
  - simpl. lia.
  - reflexivity.
  - lia.
Defined.

(** ** C3 and C2: secrets longer than the seed *)

(** C3.  The claim promises that a secret longer than 32 bytes is cut to
    32 bytes before the key pair is derived, so that signing and
    verifying succeed for every secret.  At the secret of 33 characters
    the loop hands the secret on whole; [fromSeed] refuses the 33 bytes:
    [sign] throws and [verify] answers [false] to every signature. *)
Theorem long_secret_is_not_truncated :
  forall (nacl : tweetnacl) (fuel : nat) (m sig : string),
    String.length long_secret = 33
    /\ seed_of fuel long_secret = Ret (TextEncoder_encode long_secret)
    /\ List.length (TextEncoder_encode long_secret) = 33
    /\ Ed25519_sign nacl fuel (new_Ed25519 long_secret) m
       = Throw (Error "bad seed size")
    /\ Ed25519_verify nacl fuel (new_Ed25519 long_secret) sig m = Ret false.
Proof.
  intros nacl fuel m sig.
  assert (L : String.length long_secret = 33) by reflexivity.
  repeat split.
  - unfold seed_of. rewrite stretch_long by (rewrite L; lia). reflexivity.
  - apply sign_long_secret. rewrite L. lia.
  - apply verify_long_secret. rewrite L. lia.
Qed.

(** C2.  The claim promises that verifying what was signed yields valid for
    any message under any secret.  Under the secret of 33 characters the
    round trip ends in the exception of [sign], for every message. *)
Theorem round_trip_fails_for_long_secret :
  forall (nacl : tweetnacl) (fuel : nat) (m : string),
    sign_then_verify nacl fuel long_secret m = Throw (Error "bad seed size").
Proof.
  intros nacl fuel m. unfold sign_then_verify.
  rewrite sign_long_secret by (simpl; lia). reflexivity.
Qed.

(** ** The adapter: normal events *)

Section AdapterFacts.

Variable nacl : tweetnacl.
Variable JSON_parse : string -> option json.
Variable fuel : nat.

Abbreviation handle := (handleWebhook nacl JSON_parse fuel).
Abbreviation verify := (QQBotAdapter_verifySignature nacl fuel).

(** The check of the adapter never throws. *)
Lemma verifySignature_never_throws self body timestamp signature :
  throws (verify self body timestamp signature) = false.
Proof.
  unfold QQBotAdapter_verifySignature.
  destruct (verifySignature (config self)); [|reflexivity].
  destruct (ed25519 self) as [ed|]; [|reflexivity].
  cbn. destruct (Ed25519_verify nacl fuel ed signature (timestamp ++ body));
    reflexivity.
Qed.

(** What [handleWebhook] does with a body that parses to a payload whose
    [op] is not 13. *)
Lemma handleWebhook_event self request payload op :
  JSON_parse (req_body request) = Some payload ->
  JS.get (Some payload) "op" = Ret op ->
  JS.is_num 13 op = false ->
  handle self request =
  let timestamp := header_or_empty "X-Signature-Timestamp" request in
  let signature := header_or_empty "X-Signature-Ed25519" request in
  let by_opcode :=
    if JS.is_num 0 op then Ret (handleDispatch (Some payload))
    else Ret createAckResponse in
  if verifySignature (config self)
     && JSString.truthy timestamp && JSString.truthy signature
  then
    match verify self (req_body request) timestamp signature with
    | Ret false => Ret (text_response "Invalid signature" 401)
    | Ret true => by_opcode
    | Throw _ => Ret (text_response "Internal server error" 500)
    | Pending => Pending
    end
  else by_opcode.
Proof.
  intros Hp Hop H13. unfold handleWebhook, parse. rewrite Hp. cbn [bind].
  rewrite Hop. cbn [bind]. rewrite H13. cbn zeta.
  destruct (verifySignature (config self)
            && JSString.truthy (header_or_empty "X-Signature-Timestamp" request)
            && JSString.truthy (header_or_empty "X-Signature-Ed25519" request)).
  - destruct (verify self (req_body request) _ _) as [[|]| |]; cbn;
      try reflexivity; destruct (JS.is_num 0 op); reflexivity.
  - destruct (JS.is_num 0 op); reflexivity.
Qed.

(** When both signature headers are there and the check fails, the
    answer is 401. *)
Lemma invalid_signature_is_rejected self request payload op :
  JSON_parse (req_body request) = Some payload ->
  JS.get (Some payload) "op" = Ret op ->
  JS.is_num 13 op = false ->
  verifySignature (config self) = true ->
  JSString.truthy (header_or_empty "X-Signature-Timestamp" request) = true ->
  JSString.truthy (header_or_empty "X-Signature-Ed25519" request) = true ->
  verify self (req_body request)
         (header_or_empty "X-Signature-Timestamp" request)
         (header_or_empty "X-Signature-Ed25519" request) = Ret false ->
  handle self request = Ret (text_response "Invalid signature" 401).
Proof.
  intros Hp Hop H13 Hv Ht Hs Hf.
  rewrite (handleWebhook_event self request payload op Hp Hop H13). cbn zeta.
  now rewrite Hv, Ht, Hs, Hf.
Qed.

(** When a signature header is missing, the check is not consulted: the
    answer does not depend on the secret or on the switch. *)
Lemma missing_header_skips_the_check self request payload op :
  JSON_parse (req_body request) = Some payload ->
  JS.get (Some payload) "op" = Ret op ->
  JS.is_num 13 op = false ->
  headers_get "X-Signature-Ed25519" (req_headers request) = None ->
  handle self request =
  Ret (if JS.is_num 0 op then handleDispatch (Some payload)
       else createAckResponse).
Proof.
  intros Hp Hop H13 Hs.
  rewrite (handleWebhook_event self request payload op Hp Hop H13). cbn zeta.
  unfold header_or_empty at 2. rewrite Hs. cbn [JSString.truthy].
  rewrite andb_false_r. destruct (JS.is_num 0 op); reflexivity.
Qed.

(** ** The adapter: the handshake *)

(** What [handleWebhook] does with a payload whose [op] is 13: the
    headers are not read. *)
Lemma handleWebhook_handshake self request payload op :
  JSON_parse (req_body request) = Some payload ->
  JS.get (Some payload) "op" = Ret op ->
  JS.is_num 13 op = true ->
  handle self request =
  try_catch (handleVerification nacl fuel self (Some payload))
            (fun _ => Ret (text_response "Internal server error" 500)).
Proof.
  intros Hp Hop H13. unfold handleWebhook, parse. rewrite Hp. cbn [bind].
  rewrite Hop. cbn [bind]. now rewrite H13.
Qed.

Lemma handshake_ignores_the_headers self body hs hs' payload op :
  JSON_parse body = Some payload ->
  JS.get (Some payload) "op" = Ret op ->
  JS.is_num 13 op = true ->
  handle self {| req_body := body; req_headers := hs |}
  = handle self {| req_body := body; req_headers := hs' |}.
Proof.
  intros Hp Hop H13.
  rewrite (handleWebhook_handshake self {| req_body := body; req_headers := hs |}
             payload op Hp Hop H13).
  now rewrite (handleWebhook_handshake self {| req_body := body; req_headers := hs' |}
             payload op Hp Hop H13).
Qed.

(** A challenge whose content [d] is there and lacks a truthy
    [plain_token] or [event_ts] is answered 400. *)
Lemma handshake_missing_field self request payload op d tok ts :
  JSON_parse (req_body request) = Some payload ->
  JS.get (Some payload) "op" = Ret op ->
  JS.is_num 13 op = true ->
  JS.get (Some payload) "d" = Ret d ->
  JS.get d "plain_token" = Ret tok ->
  JS.get d "event_ts" = Ret ts ->
  JS.truthy tok = false \/ JS.truthy ts = false ->
  handle self request = Ret (text_response "Bad request" 400).
Proof.
  intros Hp Hop H13 Hd Htok Hts Hf.
  rewrite (handleWebhook_handshake self request payload op Hp Hop H13).
  unfold handleVerification. rewrite Hd. cbn [bind].
  rewrite Htok, Hts. cbn [bind].
  destruct Hf as [-> | ->]; cbn; [reflexivity|].
  rewrite orb_true_r. reflexivity.
Qed.

(** A complete challenge without a bound secret is answered 500. *)
Lemma handshake_without_credential self request payload op d tok ts :
  JSON_parse (req_body request) = Some payload ->
  JS.get (Some payload) "op" = Ret op ->
  JS.is_num 13 op = true ->
  JS.get (Some payload) "d" = Ret d ->
  JS.get d "plain_token" = Ret tok ->
  JS.get d "event_ts" = Ret ts ->
  JS.truthy tok = true -> JS.truthy ts = true ->
  ed25519 self = None ->
  handle self request = Ret (text_response "Server configuration error" 500).
Proof.
  intros Hp Hop H13 Hd Htok Hts Ht1 Ht2 He.
  rewrite (handleWebhook_handshake self request payload op Hp Hop H13).
  unfold handleVerification. rewrite Hd. cbn [bind].
  rewrite Htok, Hts. cbn [bind]. rewrite Ht1, Ht2, He. reflexivity.
Qed.

(** A challenge without content ([d] is [null] or missing) is answered
    500 by the [catch] of [handleWebhook]: the destructuring throws. *)
Lemma handshake_without_content self request payload op d :
  JSON_parse (req_body request) = Some payload ->
  JS.get (Some payload) "op" = Ret op ->
  JS.is_num 13 op = true ->
  JS.get (Some payload) "d" = Ret d ->
  d = None \/ d = Some JNull ->
  handle self request = Ret (text_response "Internal server error" 500).
Proof.
  intros Hp Hop H13 Hd Hn.
  rewrite (handleWebhook_handshake self request payload op Hp Hop H13).
  unfold handleVerification. rewrite Hd. cbn [bind].
  destruct Hn as [-> | ->]; reflexivity.
Qed.

End AdapterFacts.

(** ** The adapter always answers *)

Section AdapterTotal.

Variable nacl : tweetnacl.
Variable JSON_parse : string -> option json.
Variable fuel : nat.
Hypothesis enough : 5 <= fuel.

Lemma truthy_nonempty (s : string) :
  JSString.truthy s = true -> 1 <= String.length s.
Proof. destruct s; [discriminate|simpl; lia]. Qed.

(** Under a secret that is not empty, [sign] returns or throws. *)
Lemma Ed25519_sign_settles (s m : string) :
  JSString.truthy s = true ->
  settled (Ed25519_sign nacl fuel (new_Ed25519 s) m) = true.
Proof.
  intros H. apply truthy_nonempty in H.
  destruct (stretch_nonempty fuel s H enough) as (s' & E & _).
  unfold Ed25519_sign. cbn [secret]. rewrite E. cbn [bind].
  unfold keyPair_fromSeed.
  destruct (Nat.eqb (List.length (TextEncoder_encode s')) 32); reflexivity.
Qed.

(** Under a secret that is not empty, [verify] returns a boolean. *)
Lemma Ed25519_verify_returns (s sig m : string) :
  JSString.truthy s = true ->
  exists b, Ed25519_verify nacl fuel (new_Ed25519 s) sig m = Ret b.
Proof.
  intros H. apply truthy_nonempty in H.
  destruct (stretch_nonempty fuel s H enough) as (s' & E & _).
  unfold Ed25519_verify. cbn [secret]. rewrite E. cbn [bind].
  unfold keyPair_fromSeed.
  destruct (Nat.eqb (List.length (TextEncoder_encode s')) 32);
    cbn [bind try_catch]; eauto.
  destruct (hexToBytes sig) as [bs| |] eqn:Hh; cbn [bind try_catch]; eauto.
  - unfold sign_detached_verify.
    destruct (Nat.eqb (List.length bs) 64); cbn; eauto.
  - unfold hexToBytes in Hh.
    destruct (negb (Nat.even _)) in Hh; discriminate.
Qed.

Lemma verifySignature_returns (cfg : QQBotConfig) body timestamp signature :
  exists b,
    QQBotAdapter_verifySignature nacl fuel (createQQBotAdapter cfg)
                                 body timestamp signature = Ret b.
Proof.
  unfold QQBotAdapter_verifySignature, createQQBotAdapter, new_QQBotAdapter.
  cbn [config ed25519].
  destruct (verifySignature cfg); cbn [negb]; eauto.
  destruct (JSString.truthy (cfg_secret cfg)) eqn:Ht; eauto.
  destruct (Ed25519_verify_returns (cfg_secret cfg) signature
                                   (timestamp ++ body) Ht) as (b & ->).
  cbn. eauto.
Qed.

Lemma get_cases (v : jsval) (k : string) :
  (exists x, JS.get v k = Ret x) \/ JS.get v k = Throw TypeError.
Proof. destruct v as [[]|]; cbn; eauto. Qed.

(** Turning a value into a string returns or throws a [TypeError]; it
    returns exactly for the printable values. *)
Lemma toString_cases (v : json) :
  (printable v = true /\ exists s, JS.toString v = Ret s)
  \/ (printable v = false /\ JS.toString v = Throw TypeError).
Proof.
  induction v as [|b|n|m e|s|items IH|fields] using json_items_ind.
  - left. split; [reflexivity|]. cbn. eauto.
  - left. split; [reflexivity|]. destruct b; cbn; eauto.
  - left. split; [reflexivity|]. cbn. eauto.
  - left. split; [reflexivity|]. cbn [JS.toString]. eauto.
  - left. split; [reflexivity|]. cbn. eauto.
  - cbn [JS.toString printable].
    induction IH as [|e r He Hr IHr]; [left; split; [reflexivity|cbn; eauto]|].
    cbn [forallb].
    assert (Hx : (printable e = true
                  /\ exists x, match e with
                               | JNull => Ret ""
                               | _ => JS.toString e
                               end = Ret x)
                 \/ (printable e = false
                     /\ match e with
                        | JNull => Ret ""
                        | _ => JS.toString e
                        end = Throw TypeError)).
    { destruct He as [[Hp (x & Hx)]|[Hp Hx]].
      - left. split; [exact Hp|]. destruct e; eauto.
      - right. split; [exact Hp|]. destruct e; try exact Hx; discriminate. }
    destruct Hx as [[-> (x & ->)]|[-> ->]]; cbn [andb bind];
      [|right; split; reflexivity].
    destruct IHr as [[-> (sr & Hsr)]|[-> Hsr]].
    + left. split; [reflexivity|].
      match type of Hsr with
      | bind ?j _ = _ => destruct j as [xs| |]; try discriminate
      end.
      cbn [bind]. eauto.
    + right. split; [reflexivity|].
      match type of Hsr with
      | bind ?j _ = _ => destruct j as [xs| |]; try discriminate
      end.
      cbn [bind]. exact Hsr.
  - cbn. destruct (JS.field "toString" fields); [right|left]; eauto.
Qed.

Lemma String_cases (v : jsval) :
  (exists s, JS.String_ v = Ret s) \/ JS.String_ v = Throw TypeError.
Proof.
  destruct v as [j|]; cbn; [|eauto].
  destruct (toString_cases j) as [[_ H]|[_ H]]; auto.
Qed.

Lemma handleVerification_caught (cfg : QQBotConfig) (payload : jsval) :
  exists r,
    try_catch (handleVerification nacl fuel (createQQBotAdapter cfg) payload)
              (fun _ => Ret (text_response "Internal server error" 500))
    = Ret r.
Proof.
  unfold handleVerification.
  destruct (get_cases payload "d") as [(d & ->) | ->];
    cbn [bind try_catch]; eauto.
  destruct (get_cases d "plain_token") as [(tok & ->) | ->];
    cbn [bind try_catch]; eauto.
  destruct (get_cases d "event_ts") as [(ts & ->) | ->];
    cbn [bind try_catch]; eauto.
  destruct (negb (JS.truthy tok) || negb (JS.truthy ts));
    cbn [try_catch]; eauto.
  unfold createQQBotAdapter, new_QQBotAdapter. cbn [ed25519].
  destruct (JSString.truthy (cfg_secret cfg)) eqn:Ht;
    cbn [try_catch]; eauto.
  destruct (String_cases tok) as [(stok & ->) | ->];
    cbn [bind try_catch]; eauto.
  destruct (String_cases ts) as [(sts & ->) | ->];
    cbn [bind try_catch]; eauto.
  pose proof (Ed25519_sign_settles (cfg_secret cfg) (sts ++ stok) Ht) as Hs.
  destruct (Ed25519_sign nacl fuel (new_Ed25519 (cfg_secret cfg))
              (sts ++ stok));
    cbn [bind try_catch]; eauto; discriminate.
Qed.

(** With fuel for five doublings, an adapter made by its constructor
    answers every request with a response: nothing escapes the [catch],
    and the loop of the key derivation ends. *)
Lemma handleWebhook_returns (cfg : QQBotConfig) (request : Request) :
  exists r,
    handleWebhook nacl JSON_parse fuel (createQQBotAdapter cfg) request = Ret r.
Proof.
  unfold handleWebhook, parse.
  destruct (JSON_parse (req_body request)) as [payload|];
    cbn [bind try_catch]; eauto.
  destruct (get_cases (Some payload) "op") as [(op & ->) | ->];
    cbn [bind try_catch]; eauto.
  destruct (JS.is_num 13 op).
  - apply handleVerification_caught.
  - destruct (verifySignature (config (createQQBotAdapter cfg))
              && JSString.truthy (header_or_empty "X-Signature-Timestamp" request)
              && JSString.truthy (header_or_empty "X-Signature-Ed25519" request)).
    + destruct (verifySignature_returns cfg (req_body request)
                  (header_or_empty "X-Signature-Timestamp" request)
                  (header_or_empty "X-Signature-Ed25519" request))
        as (b & ->).
      cbn [bind]. destruct b; cbn [negb try_catch]; eauto.
      destruct (JS.is_num 0 op); cbn; eauto.
    + destruct (JS.is_num 0 op); cbn; eauto.
Qed.

End AdapterTotal.

(** ** C1, C5, C4: the adapter on the wire *)

(** The positive part of C1, met on the sample: a dispatch whose
    signature header does not decode to 64 bytes is answered 401. *)
Lemma invalid_signature_is_rejected_witness :
  handleWebhook toy_nacl sample_parse 5 (createQQBotAdapter verifying_config)
                (signed body_dispatch "1700000000" "abcd")
  = Ret (text_response "Invalid signature" 401).
Proof.
  apply (@invalid_signature_is_rejected toy_nacl sample_parse 5
           (createQQBotAdapter verifying_config)
           (signed body_dispatch "1700000000" "abcd")
           (JObj [("op", JNum 0); ("t", JStr "MESSAGE_CREATE"); ("d", JObj [])])
           (JS.num 0)); reflexivity.
Defined.

(** C1.  The claim promises that a normal event on a record with
    verification enabled is verified before anything else, and rejected
    with 401 when the verification fails.  An event that carries no
    signature headers at all is not verified: with verification enabled and
    a secret bound, the adapter acknowledges a dispatch and an event with
    another discriminator with 200, whatever the signature primitives are.
    The pipeline hands the acknowledgement of the unknown discriminator on
    as a success; for the dispatch it answers 400, for the clone of the
    request that fails, and not 401. *)
Theorem unsigned_dispatch_is_acknowledged :
  forall (nacl : tweetnacl) (fuel : nat),
    verifySignature verifying_config = true
    /\ ed25519 (createQQBotAdapter verifying_config)
       = Some (new_Ed25519 "s3cr3t")
    /\ handleWebhook nacl sample_parse fuel
         (createQQBotAdapter verifying_config) (unsigned body_dispatch)
       = Ret createAckResponse
    /\ handleWebhook nacl sample_parse fuel
         (createQQBotAdapter verifying_config) (unsigned body_unknown)
       = Ret createAckResponse
    /\ summary
         (post_handler (sample_env (fast (SProxy sample_proxy)) always_ok accepting)
                       sample_parse "qqbot" "k1" (unsigned body_unknown))
       = Some (createAckResponse, ("success", None), [])
    /\ summary
         (post_handler (sample_env (fast (SProxy sample_proxy)) always_ok accepting)
                       sample_parse "qqbot" "k1" (unsigned body_dispatch))
       = Some (text_response "Invalid request format" 400,
               ("error", Some "UnknownError"), []).
Proof.
  intros nacl fuel.
  split; [reflexivity|]. split; [reflexivity|]. split; [|split; [|split]].
  - rewrite (@missing_header_skips_the_check nacl sample_parse fuel
               (createQQBotAdapter verifying_config) (unsigned body_dispatch)
               (JObj [("op", JNum 0); ("t", JStr "MESSAGE_CREATE"); ("d", JObj [])])
               (JS.num 0)); reflexivity.
  - rewrite (@missing_header_skips_the_check nacl sample_parse fuel
               (createQQBotAdapter verifying_config) (unsigned body_unknown)
               (JObj [("op", JNum 7)]) (JS.num 7)); reflexivity.
  - vm_compute. reflexivity.
  - vm_compute. reflexivity.
Qed.

(** C5.  The claim promises a client error (400) whenever a required
    challenge field is absent.  A challenge whose content is [null] has
    neither field; the destructuring of the content throws, and the
    [catch] of [handleWebhook] answers 500, with or without a secret. *)
Theorem challenge_without_content_is_a_server_error :
  forall (nacl : tweetnacl) (fuel : nat) (cfg : QQBotConfig)
         (hs : list (string * string)),
    handleWebhook nacl sample_parse fuel (createQQBotAdapter cfg)
      {| req_body := body_challenge_null; req_headers := hs |}
    = Ret (text_response "Internal server error" 500).
Proof.
  intros nacl fuel cfg hs.
  eapply handshake_without_content with (d := Some JNull);
    try reflexivity. now right.
Qed.




(** ** C9: the transformation *)

(** C9, as stated, fails twice: a parsed payload without the discriminator
    makes [transform] throw, at [op.toString()]; and a member the adapter
    does not know is mapped nowhere, the event is the one of the payload
    without it. *)
Lemma transform_throws_and_drops_members :
  JS.get (Some (JObj [("t", JStr "MESSAGE_CREATE"); ("d", JObj [])])) "op"
  = Ret undefined
  /\ transform 1700000000001 1700000000002
       (Some (JObj [("t", JStr "MESSAGE_CREATE"); ("d", JObj [])]))
     = Throw TypeError
  /\ exists ev,
      transform 1700000000001 1700000000002
        (Some (JObj [("op", JNum 0); ("zzz", JStr "unknown")])) = Ret ev
      /\ transform 1700000000001 1700000000002 (Some (JObj [("op", JNum 0)]))
         = Ret ev.
Proof.
  split; [reflexivity|]. split; [reflexivity|].
  eexists. split; reflexivity.
Qed.

(** The payload [null] parses and makes [transform] throw as well. *)
Example transform_throws_on_null :
  transform 1700000000001 1700000000002 (Some JNull) = Throw TypeError.
Proof. reflexivity. Qed.

(** A discriminator that is an object with a member [toString] of its own
    cannot be turned into a string: [transform] throws. *)
Example transform_throws_on_unprintable_op :
  transform 1700000000001 1700000000002
    (Some (JObj [("op", JObj [("toString", JNum 1)])])) = Throw TypeError.
Proof. reflexivity. Qed.

Lemma toString_printable (v : json) :
  printable v = true -> exists s, JS.toString v = Ret s.
Proof.
  intros H. destruct (toString_cases v) as [[_ Hs]|[Hn _]];
    [exact Hs|congruence].
Qed.

(** What [transform] returns depends on the five members it reads. *)
Lemma transform_reads_five_members (now_id now_ts : Z) (p p' : jsval) :
  same_members p p' -> transform now_id now_ts p = transform now_id now_ts p'.
Proof.
  intros (H1 & H2 & H3 & H4 & H5). unfold transform.
  now rewrite H1, H2, H3, H4, H5.
Qed.

(** C9, amended.  For every parsed payload that carries a discriminator
    [op] other than [null], where [op] and the sequence number [s] can be
    turned into strings, [transform] returns a canonical event and does not
    throw.  The event is a function of the clock and of the members [id],
    [op], [d], [s] and [t] of the payload: members it does not know are
    dropped, not mapped into the event, and the content [d] is carried as
    it is into [payload] and into [data.event_data]; the platform is
    ["qqbot"] and the time stamp the reading of the clock. *)
Theorem transform_total_with_discriminator :
  forall (now_id now_ts : Z) (payload op : json) (s : jsval),
    JS.get (Some payload) "op" = Ret (Some op) ->
    op <> JNull ->
    printable op = true ->
    JS.get (Some payload) "s" = Ret s ->
    (forall sv, s = Some sv -> printable sv = true) ->
    (exists ev,
        transform now_id now_ts (Some payload) = Ret ev
        /\ ev_platform ev = "qqbot"
        /\ ev_timestamp ev = now_ts
        /\ opcode (ev_data ev) = Some op
        /\ JS.get (Some payload) "d" = Ret (ev_payload ev)
        /\ event_data (ev_data ev) = ev_payload ev)
    /\ (forall payload',
           same_members (Some payload) payload' ->
           transform now_id now_ts payload'
           = transform now_id now_ts (Some payload)).
Proof.
  intros now_id now_ts payload op s Hop Hnn Hpr Hs Hps.
  split; [|intros p' H; symmetry; now apply transform_reads_five_members].
  destruct payload as [| | | | | |fields]; try discriminate.
  cbn in Hop, Hs. injection Hop as Hop. injection Hs as Hs.
  unfold transform. cbn [JS.get bind]. rewrite Hop, Hs.
  destruct (toString_printable op Hpr) as (sop & Hsop).
  assert (JS.call_toString (Some op) = Ret sop) as ->
      by (destruct op; try exact Hsop; now elim Hnn).
  assert (Hseq : exists seq, JS.opt_toString s = Ret seq).
  { destruct s as [sv|]; [|cbn; eauto].
    destruct (toString_printable sv (Hps sv eq_refl)) as (ssv & Hssv).
    destruct sv; cbn [JS.opt_toString]; try rewrite Hssv; cbn; eauto. }
  destruct Hseq as (seq & ->).
  cbn [JS.String_]. rewrite Hsop.
  destruct (JS.truthy (JS.field "t" fields)); cbn [bind];
    eexists; repeat split.
Qed.

Lemma transform_total_with_discriminator_witness :
  exists ev,
    transform 1700000000001 1700000000002
      (Some (JObj [("op", JNum 0); ("d", JObj [("x", JNum 1)]); ("zzz", JBool true)]))
    = Ret ev
    /\ ev_platform ev = "qqbot"
    /\ ev_timestamp ev = 1700000000002%Z
    /\ opcode (ev_data ev) = Some (JNum 0)
    /\ JS.get (Some (JObj [("op", JNum 0); ("d", JObj [("x", JNum 1)]);
                           ("zzz", JBool true)])) "d"
       = Ret (ev_payload ev)
    /\ event_data (ev_data ev) = ev_payload ev.
Proof.
  apply (@transform_total_with_discriminator 1700000000001 1700000000002
           (JObj [("op", JNum 0); ("d", JObj [("x", JNum 1)]); ("zzz", JBool true)])
           (JNum 0) undefined).
  - reflexivity.
  - discriminate.
  - reflexivity.
  - reflexivity.
  - discriminate.
Defined.

(** A handshake and an unknown discriminator, through the pipeline: 200,
    and nothing scheduled. *)
Example handshake_is_not_broadcast :
  exists answer,
    summary
      (post_handler (sample_env (fast (SProxy sample_proxy)) always_ok accepting)
                    sample_parse "qqbot" "k1" (unsigned body_challenge))
    = Some ({| status := 200; res_body := answer |}, ("success", None), []).
Proof. eexists. vm_compute. reflexivity. Qed.

Example unknown_discriminator_is_not_broadcast :
  summary
    (post_handler (sample_env (fast (SProxy sample_proxy)) always_ok accepting)
                  sample_parse "qqbot" "k1" (unsigned body_unknown))
  = Some (createAckResponse, ("success", None), []).
Proof. vm_compute. reflexivity. Qed.

(** A dispatch whose signature fails, through the pipeline: 401, and
    nothing scheduled. *)
Example rejected_dispatch_is_not_broadcast :
  summary
    (post_handler (sample_env (fast (SProxy sample_proxy)) always_ok accepting)
                  sample_parse "qqbot" "k1"
                  (signed body_dispatch "1700000000" "abcd"))
  = Some (text_response "Invalid signature" 401, ("success", None), []).
Proof. vm_compute. reflexivity. Qed.

(** ** C6 and C10: the statuses of the two endpoints *)

Section Statuses.

Variable env : Env.
Variable JSON_parse : string -> option json.
Variables platform randomKey : string.
Variable req : Request.

Abbreviation post := (post_handler env JSON_parse platform randomKey req).
Abbreviation query := (getProxyByRandomKey env randomKey).

Lemma post_invalid_platform :
  includes SUPPORTED_PLATFORMS platform = false ->
  post = Ret (reject "InvalidPlatform" "Invalid platform" 400).
Proof. intros H. unfold post_handler. now rewrite H. Qed.

Hypothesis supported : includes SUPPORTED_PLATFORMS platform = true.

Lemma post_after_lookup :
  post =
  try_catch
    (proxy <- race_with_timeout query ;;
     match proxy with
     | SNull => Ret (reject "DBTimeout" "Database timeout" 500)
     | SUndefined => Ret (reject "ProxyNotFound" "Proxy not found" 404)
     | SProxy proxy =>
         if negb (proxy_active proxy) then
           Ret (reject "ProxyInactive" "Proxy is inactive" 403)
         else if negb (String.eqb (proxy_platform proxy) platform) then
           Ret (reject "PlatformMismatch" "Platform mismatch" 400)
         else
           adapter <- createAdapter env proxy ;;
           match adapter with
           | None =>
               Ret (reject "AdapterCreationFailed"
                           "Failed to create adapter" 500)
           | Some adapter =>
               clonedRequest <- Request_clone false req ;;
               response <- adapter_handleWebhook adapter req ;;
               tasks <-
                 (if Z.eqb (status response) 200 then
                    if String.eqb platform "qqbot" then
                      payload <- parse JSON_parse (req_body clonedRequest) ;;
                      op <- JS.get payload "op" ;;
                      _ <- JS.String_ op ;;
                      t <- JS.get payload "t" ;;
                      _ <- JS.String_ (JS.or t (JS.str "N/A")) ;;
                      if JS.is_num 0 op
                      then
                        again <- Request_clone true clonedRequest ;;
                        Ret [{| task_adapter := adapter;
                                task_body := req_body again;
                                task_proxyId := proxy_id proxy;
                                task_randomKey := randomKey |}]
                      else Ret []
                    else Ret [{| task_adapter := adapter;
                                 task_body := req_body clonedRequest;
                                 task_proxyId := proxy_id proxy;
                                 task_randomKey := randomKey |}]
                  else Ret []) ;;
               Ret {| response := response;
                      recorded := ("success", None);
                      scheduled := tasks |}
           end
     end)
    (fun error =>
       Ret {| response :=
                match error with
                | SyntaxError => text_response "Invalid JSON payload" 400
                | TypeError => text_response "Invalid request format" 400
                | Error _ => text_response "Internal server error" 500
                end;
              recorded := ("error", Some (classifyError env error));
              scheduled := [] |}).
Proof. unfold post_handler. now rewrite supported. Qed.

(** A lookup that has not settled when the timer fires is a
    [DBTimeout]. *)
Lemma post_lookup_timeout :
  answer query = Pending \/ (10000 < settles_after query)%Z ->
  post = Ret (reject "DBTimeout" "Database timeout" 500).
Proof.
  intros H. rewrite post_after_lookup. unfold race_with_timeout.
  destruct H as [-> | H]; [reflexivity|].
  destruct (Z.leb_spec (settles_after query) 10000); [lia|].
  destruct (answer query); reflexivity.
Qed.

Hypothesis in_time : (settles_after query < 10000)%Z.

Lemma race_in_time v : answer query = Ret v -> race_with_timeout query = Ret v.
Proof.
  intros H. unfold race_with_timeout. rewrite H.
  destruct (Z.leb_spec (settles_after query) 10000); [reflexivity|lia].
Qed.

(** A store that answers [undefined] in time: the record is not found. *)
Lemma post_not_found :
  answer query = Ret SUndefined ->
  post = Ret (reject "ProxyNotFound" "Proxy not found" 404).
Proof.
  intros H. rewrite post_after_lookup, (race_in_time _ H). reflexivity.
Qed.

(** A store that answers [null] in time is taken for the timer. *)
Lemma post_null_is_reported_as_timeout :
  answer query = Ret SNull ->
  post = Ret (reject "DBTimeout" "Database timeout" 500).
Proof.
  intros H. rewrite post_after_lookup, (race_in_time _ H). reflexivity.
Qed.

Lemma post_inactive proxy :
  answer query = Ret (SProxy proxy) -> proxy_active proxy = false ->
  post = Ret (reject "ProxyInactive" "Proxy is inactive" 403).
Proof.
  intros H Ha. rewrite post_after_lookup, (race_in_time _ H). cbn.
  now rewrite Ha.
Qed.

Lemma post_platform_mismatch proxy :
  answer query = Ret (SProxy proxy) -> proxy_active proxy = true ->
  String.eqb (proxy_platform proxy) platform = false ->
  post = Ret (reject "PlatformMismatch" "Platform mismatch" 400).
Proof.
  intros H Ha Hm. rewrite post_after_lookup, (race_in_time _ H). cbn.
  now rewrite Ha, Hm.
Qed.

Lemma post_adapter_creation_failed proxy :
  answer query = Ret (SProxy proxy) -> proxy_active proxy = true ->
  String.eqb (proxy_platform proxy) platform = true ->
  createAdapter env proxy = Ret None ->
  post = Ret (reject "AdapterCreationFailed" "Failed to create adapter" 500).
Proof.
  intros H Ha Hm Hc. rewrite post_after_lookup, (race_in_time _ H).
  cbn [bind]. rewrite Ha, Hm. cbn [negb]. rewrite Hc. reflexivity.
Qed.

(** An adapter that lets the [SyntaxError] of its parse escape: 400. *)
Lemma post_syntax_error_escapes proxy adapter :
  answer query = Ret (SProxy proxy) -> proxy_active proxy = true ->
  String.eqb (proxy_platform proxy) platform = true ->
  createAdapter env proxy = Ret (Some adapter) ->
  adapter_handleWebhook adapter req = Throw SyntaxError ->
  post = Ret {| response := text_response "Invalid JSON payload" 400;
                recorded := ("error", Some (classifyError env SyntaxError));
                scheduled := [] |}.
Proof.
  intros H Ha Hm Hc Hh. rewrite post_after_lookup, (race_in_time _ H).
  cbn [bind]. rewrite Ha, Hm. cbn [negb]. rewrite Hc. cbn [bind].
  rewrite Hh. reflexivity.
Qed.

End Statuses.

(** The QQ Bot adapter answers a body that does not parse by itself. *)
Lemma qqbot_malformed_body nacl JSON_parse fuel self request :
  JSON_parse (req_body request) = None ->
  handleWebhook nacl JSON_parse fuel self request
  = Ret (text_response "Internal server error" 500).
Proof. intros H. unfold handleWebhook, parse. now rewrite H. Qed.

(** C6.  The claim promises 400 for malformed JSON.  On the QQ Bot
    platform a body that is not JSON is caught inside the adapter, which
    answers 500; the handler hands that response on and records a
    success, its own mapping of [SyntaxError] to 400 is not reached. *)
Theorem malformed_json_on_qqbot_is_500 :
  sample_parse body_malformed = None
  /\ summary
       (post_handler (sample_env (fast (SProxy sample_proxy)) always_ok accepting)
                     sample_parse "qqbot" "k1" (unsigned body_malformed))
     = Some (text_response "Internal server error" 500, ("success", None), []).
Proof. split; [reflexivity|]. vm_compute. reflexivity. Qed.

Lemma post_after_adapter env JSON_parse platform randomKey req proxy adapter :
  includes SUPPORTED_PLATFORMS platform = true ->
  race_with_timeout (getProxyByRandomKey env randomKey) = Ret (SProxy proxy) ->
  proxy_active proxy = true ->
  String.eqb (proxy_platform proxy) platform = true ->
  createAdapter env proxy = Ret (Some adapter) ->
  post_handler env JSON_parse platform randomKey req =
  try_catch
    (response <- adapter_handleWebhook adapter req ;;
     tasks <-
       (if Z.eqb (status response) 200 then
          if String.eqb platform "qqbot" then
            payload <- parse JSON_parse (req_body req) ;;
            op <- JS.get payload "op" ;;
            _ <- JS.String_ op ;;
            t <- JS.get payload "t" ;;
            _ <- JS.String_ (JS.or t (JS.str "N/A")) ;;
            if JS.is_num 0 op then Throw TypeError else Ret []
          else Ret [{| task_adapter := adapter;
                       task_body := req_body req;
                       task_proxyId := proxy_id proxy;
                       task_randomKey := randomKey |}]
        else Ret []) ;;
     Ret {| response := response;
            recorded := ("success", None);
            scheduled := tasks |})
    (fun error => Ret (post_catch env error)).
Proof.
  intros Hs Hr Ha Hm Hc. rewrite post_after_lookup by assumption.
  rewrite Hr. cbn [bind]. rewrite Ha, Hm. cbn [negb]. rewrite Hc.
  reflexivity.
Qed.

(** On the QQ Bot platform the POST handler schedules nothing. *)
Lemma qqbot_schedules_nothing env JSON_parse randomKey req res :
  post_handler env JSON_parse "qqbot" randomKey req = Ret res ->
  scheduled res = [].
Proof.
  intros H. rewrite post_after_lookup in H by reflexivity.
  assert (Hcatch : forall e, Ret (post_catch env e) = Ret res -> scheduled res = []).
  { now intros e [= <-]. }
  assert (Hrej : forall kind text st,
             Ret (reject kind text st) = Ret res -> scheduled res = []).
  { now intros kind text st [= <-]. }
  unfold post_catch in Hcatch.
  destruct (race_with_timeout (getProxyByRandomKey env randomKey))
    as [[| |proxy]|e|]; cbn [bind try_catch] in H; try discriminate;
    try (now apply Hcatch in H); try (now apply Hrej in H).
  destruct (proxy_active proxy); cbn [negb bind try_catch] in H;
    [|now apply Hrej in H].
  destruct (String.eqb (proxy_platform proxy) "qqbot");
    cbn [negb bind try_catch] in H; [|now apply Hrej in H].
  destruct (createAdapter env proxy) as [[adapter|]|e|];
    cbn [bind try_catch] in H;
    try discriminate; try (now apply Hcatch in H); try (now apply Hrej in H).
  cbn [Request_clone bind] in H.
  destruct (adapter_handleWebhook adapter req) as [resp|e|];
    cbn [bind try_catch] in H;
    try discriminate; try (now apply Hcatch in H).
  destruct (Z.eqb (status resp) 200); cbn [bind try_catch] in H;
    [|now injection H as <-].
  change (String.eqb "qqbot" "qqbot") with true in H. cbn iota in H.
  unfold parse in H.
  destruct (JSON_parse (req_body req)) as [payload|];
    cbn [bind try_catch] in H; [|now apply (Hcatch SyntaxError) in H].
  destruct (JS.get (Some payload) "op") as [op|e|];
    cbn [bind try_catch] in H;
    try discriminate; try (now apply Hcatch in H).
  destruct (JS.String_ op) as [op_text|e|];
    cbn [bind try_catch] in H;
    try discriminate; try (now apply Hcatch in H).
  destruct (JS.get (Some payload) "t") as [t|e|];
    cbn [bind try_catch] in H;
    try discriminate; try (now apply Hcatch in H).
  destruct (JS.String_ (JS.or t (JS.str "N/A"))) as [t_text|e|];
    cbn [bind try_catch] in H;
    try discriminate; try (now apply Hcatch in H).
  destruct (JS.is_num 0 op); cbn [Request_clone bind try_catch] in H;
    [now apply (Hcatch TypeError) in H|now injection H as <-].
Qed.

(** ** C7: the dispatch on the QQ Bot platform *)

(** C7.  The claim promises that a genuine event dispatch, acknowledged
    with 200, gets its broadcast scheduled.  On the QQ Bot platform the
    handler reads the body of the cloned request to look at [op] and then
    clones that request for the task; the clone of a request whose body
    was read throws a [TypeError] (as does, before it, the log line for a
    [t] that cannot be turned into a string).  So whenever the adapter acknowledges a
    dispatch ([op] is 0) with 200, the handler answers 400 and records an
    error; and on this platform no request at all gets a broadcast
    scheduled. *)
Theorem qqbot_dispatch_is_not_broadcast :
  forall (env : Env) (JSON_parse : string -> option json)
         (randomKey : string) (req : Request),
    (forall res,
        post_handler env JSON_parse "qqbot" randomKey req = Ret res ->
        scheduled res = [])
    /\ (forall (proxy : Proxy) (adapter : Adapter) (resp : Response)
               (payload : json) (op : jsval),
           race_with_timeout (getProxyByRandomKey env randomKey)
           = Ret (SProxy proxy) ->
           proxy_active proxy = true ->
           proxy_platform proxy = "qqbot" ->
           createAdapter env proxy = Ret (Some adapter) ->
           adapter_handleWebhook adapter req = Ret resp ->
           status resp = 200%Z ->
           JSON_parse (req_body req) = Some payload ->
           JS.get (Some payload) "op" = Ret op ->
           JS.is_num 0 op = true ->
           post_handler env JSON_parse "qqbot" randomKey req
           = Ret {| response := text_response "Invalid request format" 400;
                    recorded := ("error", Some (classifyError env TypeError));
                    scheduled := [] |}).
Proof.
  intros env JSON_parse randomKey req. split.
  - intros res. apply qqbot_schedules_nothing.
  - intros proxy adapter resp payload op Hr Ha Hm Hc Hh H200 Hp Hop H0.
    apply String.eqb_eq in Hm.
    rewrite (post_after_adapter env JSON_parse "qqbot" randomKey req proxy adapter
               eq_refl Hr Ha Hm Hc).
    rewrite Hh. cbn [bind]. rewrite H200. cbn.
    unfold parse. rewrite Hp. cbn [bind]. rewrite Hop. cbn [bind].
    destruct op as [[| |n|m e| | |]|]; try discriminate;
      cbn [JS.String_ JS.toString bind];
      (destruct payload as [| | | | | |fields]; try discriminate).
    all: cbn [JS.get bind];
      (destruct (String_cases (JS.or (JS.field "t" fields) (JS.str "N/A")))
        as [(t_text & ->) | ->]; cbn [bind]; [|reflexivity]);
      rewrite H0; reflexivity.
Qed.

(** The sample dispatch on a record without verification: the adapter
    acknowledges it with 200, the pipeline answers 400. *)
Lemma qqbot_dispatch_is_not_broadcast_witness :
  handleWebhook toy_nacl sample_parse 5
    (createQQBotAdapter {| appId := ""; cfg_secret := "s3cr3t";
                           verifySignature := false |})
    (unsigned body_dispatch) = Ret createAckResponse
  /\ post_handler (sample_env (fast (SProxy open_proxy)) always_ok accepting)
                  sample_parse "qqbot" "k1" (unsigned body_dispatch)
     = Ret {| response := text_response "Invalid request format" 400;
              recorded := ("error", Some "UnknownError");
              scheduled := [] |}.
Proof.
  split; [reflexivity|].
  destruct (@qqbot_dispatch_is_not_broadcast
              (sample_env (fast (SProxy open_proxy)) always_ok accepting)
              sample_parse "k1" (unsigned body_dispatch)) as [_ H].
  eapply (H open_proxy); try reflexivity.
Defined.

(** C10.  On the GET endpoint a record that is absent (the store answers
    [null] or [undefined]) and a record that is inactive get the same
    response, 404 with one text; the POST endpoint tells an absent record
    (the store answers [undefined] in time: 404) from an inactive one
    (403); and the GET handler awaits the store
    without a timer: while the store does not answer the handler does not
    answer either, where the POST handler reports a [DBTimeout]. *)
Theorem get_merges_absent_and_inactive :
  forall (env : Env) (JSON_parse : string -> option json)
         (platform randomKey connectionType : string) (req : Request)
         (p : Proxy),
    includes SUPPORTED_PLATFORMS platform = true ->
    includes ["ws"; "sse"] connectionType = true ->
    proxy_active p = false ->
    (forall v, v = SNull \/ v = SUndefined \/ v = SProxy p ->
               answer (getProxyByRandomKey env randomKey) = Ret v ->
               get_handler env platform randomKey connectionType req
               = Ret (text_response "Proxy not found or inactive" 404))
    /\ ((settles_after (getProxyByRandomKey env randomKey) < 10000)%Z ->
        answer (getProxyByRandomKey env randomKey) = Ret SUndefined ->
        post_handler env JSON_parse platform randomKey req
        = Ret (reject "ProxyNotFound" "Proxy not found" 404))
    /\ ((settles_after (getProxyByRandomKey env randomKey) < 10000)%Z ->
        answer (getProxyByRandomKey env randomKey) = Ret (SProxy p) ->
        post_handler env JSON_parse platform randomKey req
        = Ret (reject "ProxyInactive" "Proxy is inactive" 403))
    /\ (answer (getProxyByRandomKey env randomKey) = Pending ->
        get_handler env platform randomKey connectionType req = Pending
        /\ post_handler env JSON_parse platform randomKey req
           = Ret (reject "DBTimeout" "Database timeout" 500)).
Proof.
  intros env JSON_parse platform randomKey connectionType req p Hs Hc Ha.
  repeat apply conj.
  - intros v Hv Hq. unfold get_handler, await_query.
    rewrite Hs, Hc, Hq. cbn [negb bind].
    destruct Hv as [-> | [-> | ->]]; try reflexivity.
    now rewrite Ha.
  - intros Ht Hq. now apply post_not_found.
  - intros Ht Hq. now apply post_inactive with (proxy := p).
  - intros Hq. split.
    + unfold get_handler, await_query. now rewrite Hs, Hc, Hq.
    + apply post_lookup_timeout; auto.
Qed.

Lemma get_merges_absent_and_inactive_witness :
  get_handler (sample_env (fast (SProxy inactive_proxy)) always_ok accepting)
              "qqbot" "k1" "sse" (unsigned "")
  = Ret (text_response "Proxy not found or inactive" 404)
  /\ post_handler (sample_env (fast (SProxy inactive_proxy)) always_ok accepting)
                  sample_parse "qqbot" "k1" (unsigned "")
     = Ret (reject "ProxyInactive" "Proxy is inactive" 403).
Proof.
  pose proof (@get_merges_absent_and_inactive
                (sample_env (fast (SProxy inactive_proxy)) always_ok accepting)
                sample_parse "qqbot" "k1" "sse" (unsigned "") inactive_proxy
                eq_refl eq_refl eq_refl) as (H1 & _ & H3 & _).
  split.
  - apply (H1 (SProxy inactive_proxy)); auto.
  - apply H3; reflexivity.
Defined.

(** The absent record and the hung store on the two endpoints. *)
Example get_absent :
  get_handler (sample_env (fast SUndefined) always_ok accepting)
              "qqbot" "k1" "ws" (unsigned "")
  = Ret (text_response "Proxy not found or inactive" 404).
Proof. reflexivity. Qed.

Example get_hung_store :
  get_handler (sample_env hung always_ok accepting)
              "qqbot" "k1" "ws" (unsigned "") = Pending.
Proof. reflexivity. Qed.

Example post_hung_store :
  post_handler (sample_env hung always_ok accepting)
               sample_parse "qqbot" "k1" (unsigned body_dispatch)
  = Ret (reject "DBTimeout" "Database timeout" 500).
Proof. reflexivity. Qed.

(** ** C8: the background task *)

(** The retry helper with a predicate that always continues: when every
    attempt fails, the failure comes back after [maxRetries + 1] attempts. *)
Lemma withRetry_from_exhausted {A} (fn : nat -> outcome A) (e : error)
      (retries attempt : nat) :
  (forall k, fn k = Throw e) ->
  withRetry_from fn (fun _ _ => true) retries attempt
  = (Throw e, S (attempt + retries)).
Proof.
  intros H. revert attempt.
  induction retries as [|retries IH]; intros attempt; simpl; rewrite H.
  - now rewrite Nat.add_0_r.
  - rewrite IH. f_equal. lia.
Qed.

Lemma withRetry_exhausted {A} (fn : nat -> outcome A) (e : error)
      (options : RetryOptions) :
  (forall k, fn k = Throw e) ->
  withRetry fn options (fun _ _ => true) = (Throw e, S (maxRetries options)).
Proof.
  intros H. unfold withRetry.
  now rewrite (withRetry_from_exhausted fn e (maxRetries options) 0 H).
Qed.

(** C8, as stated, fails: when the increment of the counter fails on all
    three attempts, the task logs the failure and ends; the delivery is
    not attempted. *)
Lemma failed_count_stops_delivery :
  report_summary
    (broadcastEvent (sample_env (fast (SProxy sample_proxy))
                                always_failing accepting)
                    sample_parse sample_task)
  = (3, 0, false, Some (Error "D1_ERROR"), Ret tt).
Proof. vm_compute. reflexivity. Qed.

(** With a counter that answers, the event is delivered. *)
Example broadcast_delivers :
  report_summary
    (broadcastEvent (sample_env (fast (SProxy sample_proxy)) always_ok accepting)
                    sample_parse sample_task)
  = (1, 1, true, None, Ret tt).
Proof. vm_compute. reflexivity. Qed.

(** C8, amended.  No failure of the background task is thrown out of
    [broadcastEvent]; a failure of the increment of the counter that
    outlasts its retries is logged and ends the task before the delivery
    is attempted, so that an event is delivered only after the counter was
    updated; and the response of the POST handler does not depend on what
    the counter and the broadcast target answer. *)
Theorem broadcast_failures_stay_in_the_task :
  forall (env : Env) (JSON_parse : string -> option json) (t : BroadcastTask),
    throws (finished (broadcastEvent env JSON_parse t)) = false
    /\ (forall ev e n,
           broadcast_event JSON_parse t = Ret ev ->
           count_update env t = (Throw e, n) ->
           report_summary (broadcastEvent env JSON_parse t)
           = (n, 0, false, Some e, Ret tt))
    /\ (forall ev,
           delivered (broadcastEvent env JSON_parse t) = Some ev ->
           exists n, count_update env t = (Ret tt, n))
    /\ (forall count target platform randomKey req,
           post_handler (with_effects env count target) JSON_parse
                        platform randomKey req
           = post_handler env JSON_parse platform randomKey req).
Proof.
  intros env JSON_parse t. repeat apply conj.
  - unfold broadcastEvent.
    repeat match goal with
           | |- context [match ?x with _ => _ end] => destruct x
           end; reflexivity.
  - intros ev e n Hev Hc. unfold broadcastEvent.
    unfold broadcast_event in Hev. rewrite Hev.
    unfold count_update in Hc. rewrite Hc. reflexivity.
  - intros ev. unfold broadcastEvent, count_update.
    destruct (payload <- parse JSON_parse (task_body t);;
              adapter_transform (task_adapter t) payload);
      try discriminate.
    destruct (withRetry (updateProxyEventCount env (task_proxyId t))
                        retry_options (fun _ _ => true)) as [[[]| |] n];
      try discriminate.
    intros _. now exists n.
  - reflexivity.
Qed.

Lemma broadcast_failures_stay_in_the_task_witness :
  report_summary
    (broadcastEvent (sample_env (fast (SProxy sample_proxy))
                                (fun _ => Throw (Error "locked")) accepting)
                    sample_parse sample_task)
  = (3, 0, false, Some (Error "locked"), Ret tt).
Proof.
  pose proof (@broadcast_failures_stay_in_the_task
                (sample_env (fast (SProxy sample_proxy))
                            (fun _ => Throw (Error "locked")) accepting)
                sample_parse sample_task) as (_ & H & _).
  eapply H.
  - vm_compute. reflexivity.
  - apply withRetry_exhausted. reflexivity.
Defined.

(* ================================================================== *)
(** * Further properties of the code *)

(** ** utils/ed25519.ts: the hexadecimal helpers *)

Lemma hex_pairs_length (n : nat) (s : string) :
  String.length s = 2 * n -> List.length (hex_pairs s) = n.
Proof.
  revert s. induction n as [|n IH]; intros s H.
  - destruct s; [reflexivity|discriminate].
  - destruct s as [|a [|b r]]; simpl in H; try lia.
    cbn [hex_pairs List.length]. f_equal. apply IH. lia.
Qed.

Lemma trimEnd_trailing_space (s : string) :
  no_space s = true -> JSString.trimEnd (s ++ " ") = s.
Proof.
  induction s as [|c r IH]; [reflexivity|].
  cbn [no_space]. intros H. apply andb_prop in H. destruct H as [Hc Hr].
  cbn [append JSString.trimEnd]. rewrite (IH Hr).
  apply negb_true_iff in Hc. rewrite Hc. destruct r; reflexivity.
Qed.

Lemma trim_trailing_space (s : string) :
  no_space s = true -> JSString.trim (s ++ " ") = s.
Proof.
  intros H. unfold JSString.trim. destruct s as [|c r]; [reflexivity|].
  assert (JSString.trimStart (String c r ++ " ") = String c r ++ " ") as ->.
  { cbn in H |- *. apply andb_prop in H. destruct H as [Hc _].
    apply negb_true_iff in Hc. now rewrite Hc. }
  now apply trimEnd_trailing_space.
Qed.

(** X1.  Decoding undoes encoding: [hexToBytes] gives back every byte
    array from the text [bytesToHex] made of it, also when the text comes
    with the prefix [0x] and a trailing blank. *)
Theorem hex_round_trip :
  forall bs : list byte,
    hexToBytes (bytesToHex bs) = Ret bs
    /\ hexToBytes ("0x" ++ bytesToHex bs ++ " ") = Ret bs.
Proof.
  intros bs. split; [apply hexToBytes_bytesToHex|].
  unfold hexToBytes. cbn [append JSString.strip_0x].
  rewrite (trim_trailing_space _ (bytesToHex_no_space bs)).
  rewrite bytesToHex_length, hex_pairs_bytesToHex.
  replace (Nat.even (2 * List.length bs)) with true; [reflexivity|].
  symmetry. apply Nat.even_spec. now exists (List.length bs).
Qed.

(** X2.  The text of [bytesToHex] has two characters for each byte, all of
    them digits or the letters a to f in lower case. *)
Theorem bytesToHex_shape :
  forall bs : list byte,
    String.length (bytesToHex bs) = 2 * List.length bs
    /\ all_chars lower_hex (bytesToHex bs) = true.
Proof.
  intros bs. split; [apply bytesToHex_length|apply bytesToHex_lower_hex].
Qed.

(** X3.  [hexToBytes] refuses a text only for its length: once the prefix
    [0x] and the surrounding white space are gone, an odd number of
    characters throws, and an even number always gives half as many bytes,
    whatever the characters are (a pair that is no number is stored as 0). *)
Theorem hexToBytes_checks_only_the_length :
  forall hex : string,
    let h := JSString.trim (JSString.strip_0x hex) in
    (Nat.even (String.length h) = false ->
     hexToBytes hex
     = Throw (Error "Hex string must have an even number of characters"))
    /\ (Nat.even (String.length h) = true ->
        exists bs, hexToBytes hex = Ret bs
                   /\ 2 * List.length bs = String.length h).
Proof.
  intros hex h. unfold hexToBytes. fold h. split; intros E; rewrite E.
  - reflexivity.
  - cbn [negb]. eexists. split; [reflexivity|].
    apply Nat.even_spec in E. destruct E as [n E].
    now rewrite (hex_pairs_length n h E).
Qed.

(** Text that is no hexadecimal at all decodes, to zeros. *)
Example hexToBytes_of_garbage :
  hexToBytes "zzzz--" = Ret [x00; x00; x00].
Proof. reflexivity. Qed.

(** A blank before the prefix keeps the prefix in the text: it is read as
    a pair of its own. *)
Example hexToBytes_blank_before_prefix :
  hexToBytes " 0xab" = Ret [x00; xab].
Proof. reflexivity. Qed.

(** ** utils/ed25519.ts: the key derivation *)

Lemma stretch_result_long (fuel : nat) (s s' : string) :
  stretch fuel s = Ret s' -> 32 <= String.length s'.
Proof.
  revert s. induction fuel as [|fuel IH]; intros s; rewrite stretch_unfold;
    destruct (Nat.ltb_spec (String.length s) 32); try discriminate;
    try (intros [= <-]; assumption).
  apply IH.
Qed.

Lemma slice0_append (n : nat) (a b : string) :
  String.length a <= n ->
  JSString.slice0 n (a ++ b) = a ++ JSString.slice0 (n - String.length a) b.
Proof.
  unfold JSString.slice0. revert n.
  induction a as [|c a IH]; intros n H; simpl in *.
  - now rewrite Nat.sub_0_r.
  - destruct n as [|n]; [lia|]. simpl. f_equal. apply IH. lia.
Qed.

Lemma append_assoc (a b c : string) : (a ++ b) ++ c = a ++ (b ++ c).
Proof. induction a; simpl; congruence. Qed.

(** The secret is the beginning of what leaves the loop. *)
Lemma stretch_keeps_prefix (fuel : nat) (s s' : string) :
  stretch fuel s = Ret s' -> exists r, s' = s ++ r.
Proof.
  revert s. induction fuel as [|fuel IH]; intros s; rewrite stretch_unfold;
    destruct (Nat.ltb_spec (String.length s) 32) as [Hlt|Hge];
    try discriminate;
    try (intros [= <-]; exists ""; now rewrite append_empty_r).
  intros H. apply IH in H. destruct H as (r & ->).
  unfold JSString.repeat2. rewrite slice0_append by lia.
  eexists. apply append_assoc.
Qed.

(** The loop reads the secret round and round. *)
Lemma stretch_cyclic (s : string) (fuel : nat) (t s' : string) :
  1 <= String.length s ->
  (forall i, i < String.length t ->
             String.get i t = String.get (i mod String.length s) s) ->
  Nat.divide (String.length s) (String.length t) \/ 32 <= String.length t ->
  stretch fuel t = Ret s' ->
  forall i, i < String.length s' ->
            String.get i s' = String.get (i mod String.length s) s.
Proof.
  intros Hn. revert t.
  induction fuel as [|fuel IH]; intros t Hc Hd; rewrite stretch_unfold;
    destruct (Nat.ltb_spec (String.length t) 32) as [Hlt|Hge];
    try discriminate; try (intros [= <-]; assumption).
  destruct Hd as [[k Hk]|Hd]; [|lia].
  apply IH.
  - intros i Hi. unfold JSString.slice0, JSString.repeat2 in *.
    change (String.length (substring 0 32 (t ++ t))) with
      (String.length (JSString.slice0 32 (t ++ t))) in Hi.
    rewrite length_slice0, length_append in Hi.
    rewrite substring_correct1 by lia. rewrite Nat.add_0_r.
    destruct (Nat.lt_ge_cases i (String.length t)) as [Hs|Hs].
    + rewrite <- append_correct1 by assumption. now apply Hc.
    + replace i with ((i - String.length t) + String.length t) at 1 by lia.
      rewrite <- append_correct2. rewrite Hc by lia.
      f_equal.
      replace i with ((i - String.length t) + k * String.length s) at 2 by lia.
      now rewrite Nat.Div0.mod_add.
  - unfold JSString.repeat2. rewrite length_slice0, length_append.
    destruct (Nat.le_gt_cases (String.length t + String.length t) 32).
    + left. exists (2 * k). lia.
    + right. lia.
Qed.

(** X4.  Repeat and truncate: from a secret of 1 to 32 code units the loop
    makes a text of exactly 32 code units that reads the secret round and
    round, the code unit at place [i] being the one of the secret at place
    [i mod length]. *)
Theorem stretch_repeats_the_secret :
  forall (fuel : nat) (s : string),
    1 <= String.length s <= 32 -> 5 <= fuel ->
    exists s',
      stretch fuel s = Ret s'
      /\ String.length s' = 32
      /\ forall i, i < 32 ->
                   String.get i s' = String.get (i mod String.length s) s.
Proof.
  intros fuel s [H1 H2] Hf.
  destruct (stretch_nonempty fuel s H1 Hf) as (s' & E & L).
  exists s'. split; [exact E|]. split; [lia|].
  intros i Hi.
  apply (stretch_cyclic s fuel s s' H1); try assumption; try lia.
  - intros j Hj. now rewrite Nat.mod_small.
  - left. exists 1. lia.
Qed.

Lemma stretch_repeats_the_secret_witness :
  exists s',
    stretch 5 "s3cr3t" = Ret s'
    /\ String.length s' = 32
    /\ forall i, i < 32 ->
                 String.get i s' = String.get (i mod String.length "s3cr3t") "s3cr3t".
Proof.
  apply (stretch_repeats_the_secret 5 "s3cr3t").
  - simpl. lia.
  - lia.
Defined.

Example stretch_sample :
  stretch 5 "s3cr3t" = Ret "s3cr3ts3cr3ts3cr3ts3cr3ts3cr3ts3".
Proof. reflexivity. Qed.

(** ** utils/ed25519.ts: sign, verify and the two convenience functions *)

(** X5.  With the empty secret the loop of the key derivation never ends,
    whatever the number of iterations granted: neither method of the class
    and neither convenience function settles. *)
Theorem empty_secret_never_settles :
  forall (nacl : tweetnacl) (fuel : nat) (a b c : string),
    Ed25519_sign nacl fuel (new_Ed25519 "") a = Pending
    /\ Ed25519_verify nacl fuel (new_Ed25519 "") a b = Pending
    /\ verifyQQBotSignature nacl fuel a b c "" = Pending
    /\ signQQBotCallback nacl fuel a b "" = Pending.
Proof.
  intros nacl fuel a b c.
  unfold verifyQQBotSignature, signQQBotCallback.
  now rewrite !sign_empty_secret, !verify_empty_secret.
Qed.

Lemma encode_non_ascii_longer (s : string) :
  all_chars is_ascii s = false ->
  String.length s < List.length (TextEncoder_encode s).
Proof.
  induction s as [|c r IH]; [discriminate|].
  cbn [all_chars String.length]. rewrite TextEncoder_encode_cons, length_app.
  pose proof (encode_length_ge r) as Hr.
  unfold is_ascii at 1, encode_unit.
  destruct (N_of_ascii c <? 128)%N; cbn [andb List.length].
  - intros H. apply IH in H. lia.
  - intros _. lia.
Qed.

(** X6.  The seed is measured in bytes and the secret in code units: a
    secret that holds a code unit outside ASCII never gives a seed of 32
    bytes, so [sign] throws and [verify] answers [false], whatever the
    length of the secret. *)
Theorem non_ascii_secret_is_refused :
  forall (nacl : tweetnacl) (fuel : nat) (s m sig : string),
    all_chars is_ascii s = false -> 5 <= fuel ->
    Ed25519_sign nacl fuel (new_Ed25519 s) m = Throw (Error "bad seed size")
    /\ Ed25519_verify nacl fuel (new_Ed25519 s) sig m = Ret false.
Proof.
  intros nacl fuel s m sig Ha Hf.
  assert (H1 : 1 <= String.length s) by (destruct s; [discriminate|simpl; lia]).
  destruct (stretch_nonempty fuel s H1 Hf) as (s' & E & _).
  pose proof (stretch_result_long fuel s s' E) as Hl.
  destruct (stretch_keeps_prefix fuel s s' E) as (r & Hr).
  assert (Hs' : all_chars is_ascii s' = false)
    by (rewrite Hr, all_chars_app, Ha; reflexivity).
  apply encode_non_ascii_longer in Hs'.
  unfold Ed25519_sign, Ed25519_verify. cbn [secret]. rewrite E. cbn [bind].
  unfold keyPair_fromSeed.
  destruct (Nat.eqb_spec (List.length (TextEncoder_encode s')) 32); [lia|].
  split; reflexivity.
Qed.

Lemma non_ascii_secret_is_refused_witness :
  String.length latin_secret = 32
  /\ Ed25519_sign toy_nacl 5 (new_Ed25519 latin_secret) "1700000000tok"
     = Throw (Error "bad seed size")
  /\ Ed25519_verify toy_nacl 5 (new_Ed25519 latin_secret) "00" "1700000000tok"
     = Ret false.
Proof.
  split; [reflexivity|].
  apply (@non_ascii_secret_is_refused toy_nacl 5 latin_secret).
  - reflexivity.
  - lia.
Defined.

(** [verify] catches whatever is thrown inside it. *)
Lemma verify_never_throws nacl fuel ed sig m :
  throws (Ed25519_verify nacl fuel ed sig m) = false.
Proof.
  unfold Ed25519_verify.
  match goal with |- throws (try_catch ?b _) = false => destruct b end;
    reflexivity.
Qed.

(** X7.  [verify] answers [true] only when everything was checked: the
    derived seed has 32 bytes, the signature text decodes to 64 bytes, and
    the primitive accepts these bytes for the bytes of the message under
    the public key of the seed. *)
Theorem verify_accepts_only_checked_signatures :
  forall (nacl : tweetnacl) (fuel : nat) (ed : Ed25519) (sig m : string),
    Ed25519_verify nacl fuel ed sig m = Ret true ->
    exists seed bs,
      seed_of fuel (secret ed) = Ret seed
      /\ List.length seed = 32
      /\ hexToBytes sig = Ret bs
      /\ List.length bs = 64
      /\ crypto_sign_verify nacl (TextEncoder_encode m) bs
           (fst (crypto_sign_seed_keypair nacl seed)) = true.
Proof.
  intros nacl fuel ed sig m. unfold Ed25519_verify, seed_of.
  destruct (stretch fuel (secret ed)) as [s'| |]; cbn [bind try_catch];
    try discriminate.
  unfold keyPair_fromSeed.
  destruct (Nat.eqb_spec (List.length (TextEncoder_encode s')) 32) as [L|L];
    cbn [bind try_catch]; try discriminate.
  destruct (hexToBytes sig) as [bs| |]; cbn [bind try_catch]; try discriminate.
  unfold sign_detached_verify.
  destruct (Nat.eqb_spec (List.length bs) 64) as [B|B];
    cbn [negb try_catch fst]; try discriminate.
  intros [= H]. exists (TextEncoder_encode s'), bs. auto.
Qed.

Lemma verify_accepts_only_checked_signatures_witness :
  exists seed bs,
    seed_of 5 "s3cr3t" = Ret seed
    /\ List.length seed = 32
    /\ hexToBytes
         (bytesToHex (toy_detached (TextEncoder_encode "1700000000tok")
                        (TextEncoder_encode "s3cr3ts3cr3ts3cr3ts3cr3ts3cr3ts3")))
       = Ret bs
    /\ List.length bs = 64
    /\ crypto_sign_verify toy_nacl (TextEncoder_encode "1700000000tok") bs
         (fst (crypto_sign_seed_keypair toy_nacl seed)) = true.
Proof.
  apply (@verify_accepts_only_checked_signatures toy_nacl 5
           (new_Ed25519 "s3cr3t")).
  vm_compute. reflexivity.
Defined.

(** X8.  A signature text that, without prefix and surrounding white
    space, is not 128 characters long is answered [false]: it is not
    handed to the primitive, and nothing is thrown. *)
Theorem verify_rejects_other_lengths :
  forall (nacl : tweetnacl) (fuel : nat) (s sig m : string),
    JSString.truthy s = true -> 5 <= fuel ->
    String.length (JSString.trim (JSString.strip_0x sig)) <> 128 ->
    Ed25519_verify nacl fuel (new_Ed25519 s) sig m = Ret false.
Proof.
  intros nacl fuel s sig m Ht Hf Hlen.
  assert (H1 : 1 <= String.length s) by (destruct s; [discriminate|simpl; lia]).
  destruct (stretch_nonempty fuel s H1 Hf) as (s' & E & _).
  unfold Ed25519_verify. cbn [secret]. rewrite E. cbn [bind].
  unfold keyPair_fromSeed.
  destruct (Nat.eqb (List.length (TextEncoder_encode s')) 32);
    cbn [bind try_catch]; [|reflexivity].
  unfold hexToBytes.
  destruct (Nat.even (String.length (JSString.trim (JSString.strip_0x sig))))
    eqn:Ev; cbn [negb bind try_catch]; [|reflexivity].
  apply Nat.even_spec in Ev. destruct Ev as [n Ev].
  rewrite (hex_pairs_length n _ Ev).
  destruct (Nat.eqb_spec n 64) as [->|N]; [now elim Hlen|]. reflexivity.
Qed.

Lemma verify_rejects_other_lengths_witness :
  Ed25519_verify toy_nacl 5 (new_Ed25519 "s3cr3t") "0xabcd " "1700000000{}"
  = Ret false.
Proof.
  apply (@verify_rejects_other_lengths toy_nacl 5 "s3cr3t").
  - reflexivity.
  - lia.
  - simpl. discriminate.
Defined.

(** X9.  The check of the adapter in terms of the exported function: with
    the switch off every signature passes; with the switch on and no
    secret every signature fails; with the switch on and a secret the
    answer is the one of [verifyQQBotSignature] for the same body,
    time stamp, signature and secret. *)
Theorem adapter_check_is_verifyQQBotSignature :
  forall (nacl : tweetnacl) (fuel : nat) (cfg : QQBotConfig)
         (body timestamp signature : string),
    (verifySignature cfg = false ->
     QQBotAdapter_verifySignature nacl fuel (createQQBotAdapter cfg)
                                  body timestamp signature = Ret true)
    /\ (verifySignature cfg = true -> cfg_secret cfg = "" ->
        QQBotAdapter_verifySignature nacl fuel (createQQBotAdapter cfg)
                                     body timestamp signature = Ret false)
    /\ (verifySignature cfg = true -> cfg_secret cfg <> "" ->
        QQBotAdapter_verifySignature nacl fuel (createQQBotAdapter cfg)
                                     body timestamp signature
        = verifyQQBotSignature nacl fuel body timestamp signature
                               (cfg_secret cfg)).
Proof.
  intros nacl fuel cfg body timestamp signature.
  unfold QQBotAdapter_verifySignature, createQQBotAdapter, new_QQBotAdapter,
    verifyQQBotSignature.
  cbn [config ed25519].
  repeat apply conj.
  - intros ->. reflexivity.
  - intros -> ->. reflexivity.
  - intros -> Hs. cbn [negb].
    destruct (cfg_secret cfg) as [|c r] eqn:Es; [now elim Hs|].
    cbn [JSString.truthy].
    pose proof (verify_never_throws nacl fuel (new_Ed25519 (String c r))
                  signature (timestamp ++ body)) as Hn.
    destruct (Ed25519_verify nacl fuel (new_Ed25519 (String c r)) signature
                (timestamp ++ body)); try reflexivity; discriminate.
Qed.

Lemma adapter_check_is_verifyQQBotSignature_witness :
  QQBotAdapter_verifySignature toy_nacl 5 (createQQBotAdapter verifying_config)
                               body_dispatch "1700000000" "abcd"
  = verifyQQBotSignature toy_nacl 5 body_dispatch "1700000000" "abcd" "s3cr3t".
Proof.
  apply (@adapter_check_is_verifyQQBotSignature toy_nacl 5 verifying_config
           body_dispatch "1700000000" "abcd").
  - reflexivity.
  - discriminate.
Defined.

(** ** adapters/qqbot.ts: the handshake *)

(** X10.  The signature of the handshake is the one of the exported
    [signQQBotCallback] for the time stamp and the token turned into
    strings by [String()], and the secret of the configuration: when both
    conversions return and the function returns, the response is 200 with
    the token and that signature; when it throws, the response is 500.
    When a conversion throws (an object with a member [toString] that
    cannot be called), the response is 500 as well. *)
Theorem handshake_signs_with_signQQBotCallback :
  forall (nacl : tweetnacl) (JSON_parse : string -> option json) (fuel : nat)
         (cfg : QQBotConfig) (request : Request)
         (payload tok ts : json) (op d : jsval),
    JSON_parse (req_body request) = Some payload ->
    JS.get (Some payload) "op" = Ret op ->
    JS.is_num 13 op = true ->
    JS.get (Some payload) "d" = Ret d ->
    JS.get d "plain_token" = Ret (Some tok) ->
    JS.get d "event_ts" = Ret (Some ts) ->
    JS.truthy (Some tok) = true ->
    JS.truthy (Some ts) = true ->
    cfg_secret cfg <> "" ->
    (forall plainTokenStr eventTsStr : string,
        JS.String_ (Some tok) = Ret plainTokenStr ->
        JS.String_ (Some ts) = Ret eventTsStr ->
        handleWebhook nacl JSON_parse fuel (createQQBotAdapter cfg) request
        = match signQQBotCallback nacl fuel eventTsStr plainTokenStr
                                  (cfg_secret cfg) with
          | Ret signature =>
              Ret {| status := 200;
                     res_body :=
                       JSON_stringify
                         (JObj [("plain_token", tok);
                                ("signature", JStr signature)]) |}
          | Throw _ => Ret (text_response "Internal server error" 500)
          | Pending => Pending
          end)
    /\ (printable tok = false \/ printable ts = false ->
        handleWebhook nacl JSON_parse fuel (createQQBotAdapter cfg) request
        = Ret (text_response "Internal server error" 500)).
Proof.
  intros nacl JSON_parse fuel cfg request payload tok ts op d
         Hp Hop H13 Hd Htok Hts Ht1 Ht2 Hs.
  rewrite (handleWebhook_handshake nacl JSON_parse fuel _ request payload op
             Hp Hop H13).
  unfold handleVerification. rewrite Hd. cbn [bind].
  rewrite Htok, Hts. cbn [bind]. rewrite Ht1, Ht2. cbn [negb orb].
  unfold createQQBotAdapter, new_QQBotAdapter, signQQBotCallback.
  cbn [ed25519].
  destruct (cfg_secret cfg) as [|c r]; [now elim Hs|].
  cbn [JSString.truthy].
  split.
  - intros plainTokenStr eventTsStr -> ->. cbn [bind].
    destruct (Ed25519_sign nacl fuel (new_Ed25519 (String c r))
                (eventTsStr ++ plainTokenStr)); reflexivity.
  - cbn [JS.String_].
    destruct (toString_cases tok) as [[Pt (stok & ->)]|[Pt ->]];
      [|reflexivity].
    destruct (toString_cases ts) as [[Ps (sts & Es)]|[Ps ->]];
      [|reflexivity].
    intros [H|H]; congruence.
Qed.

Lemma handshake_signs_with_signQQBotCallback_witness :
  handleWebhook toy_nacl sample_parse 5 (createQQBotAdapter verifying_config)
                (unsigned body_challenge)
  = match signQQBotCallback toy_nacl 5 "1700000000" "tok" "s3cr3t" with
    | Ret signature =>
        Ret {| status := 200;
               res_body :=
                 JSON_stringify
                   (JObj [("plain_token", JStr "tok");
                          ("signature", JStr signature)]) |}
    | Throw _ => Ret (text_response "Internal server error" 500)
    | Pending => Pending
    end.
Proof.
  destruct (@handshake_signs_with_signQQBotCallback
           toy_nacl sample_parse 5 verifying_config (unsigned body_challenge)
           (JObj [("op", JNum 13);
                  ("d", JObj [("plain_token", JStr "tok");
                              ("event_ts", JStr "1700000000")])])
           (JStr "tok") (JStr "1700000000") (JS.num 13)
           (Some (JObj [("plain_token", JStr "tok");
                        ("event_ts", JStr "1700000000")])))
    as [H _]; [reflexivity ..|discriminate|].
  apply (H "tok" "1700000000"); reflexivity.
Defined.

(** X11.  The answer to a handshake depends on the body and on the secret
    only: not on the headers of the request, and not on the verification
    switch or the application id of the configuration. *)
Theorem handshake_depends_on_body_and_secret :
  forall (nacl : tweetnacl) (JSON_parse : string -> option json) (fuel : nat)
         (cfg cfg' : QQBotConfig) (body : string)
         (hs hs' : list (string * string)) (payload : json) (op : jsval),
    JSON_parse body = Some payload ->
    JS.get (Some payload) "op" = Ret op ->
    JS.is_num 13 op = true ->
    cfg_secret cfg = cfg_secret cfg' ->
    handleWebhook nacl JSON_parse fuel (createQQBotAdapter cfg)
                  {| req_body := body; req_headers := hs |}
    = handleWebhook nacl JSON_parse fuel (createQQBotAdapter cfg')
                    {| req_body := body; req_headers := hs' |}.
Proof.
  intros nacl JSON_parse fuel cfg cfg' body hs hs' payload op Hp Hop H13 Hs.
  rewrite (handleWebhook_handshake nacl JSON_parse fuel _
             {| req_body := body; req_headers := hs |} payload op Hp Hop H13).
  rewrite (handleWebhook_handshake nacl JSON_parse fuel _
             {| req_body := body; req_headers := hs' |} payload op Hp Hop H13).
  unfold handleVerification, createQQBotAdapter, new_QQBotAdapter.
  cbn [ed25519]. now rewrite Hs.
Qed.

Lemma handshake_depends_on_body_and_secret_witness :
  handleWebhook toy_nacl sample_parse 5 (createQQBotAdapter verifying_config)
                (unsigned body_challenge)
  = handleWebhook toy_nacl sample_parse 5
      (createQQBotAdapter
         {| appId := ""; cfg_secret := "s3cr3t"; verifySignature := false |})
      (signed body_challenge "1700000000" "abcd").
Proof.
  apply (@handshake_depends_on_body_and_secret
           toy_nacl sample_parse 5 verifying_config
           {| appId := ""; cfg_secret := "s3cr3t"; verifySignature := false |}
           body_challenge [] _
           (JObj [("op", JNum 13);
                  ("d", JObj [("plain_token", JStr "tok");
                              ("event_ts", JStr "1700000000")])])
           (JS.num 13)); reflexivity.
Defined.

(** X12.  The errors of the handshake, when the challenge has a content:
    a token or a time stamp that is missing or falsy is answered 400,
    with or without a secret; a complete challenge without a secret is
    answered 500 as a fault of the configuration. *)
Theorem handshake_errors :
  forall (nacl : tweetnacl) (JSON_parse : string -> option json) (fuel : nat)
         (self : QQBotAdapter) (request : Request)
         (payload : json) (op d tok ts : jsval),
    JSON_parse (req_body request) = Some payload ->
    JS.get (Some payload) "op" = Ret op ->
    JS.is_num 13 op = true ->
    JS.get (Some payload) "d" = Ret d ->
    JS.get d "plain_token" = Ret tok ->
    JS.get d "event_ts" = Ret ts ->
    (JS.truthy tok = false \/ JS.truthy ts = false ->
     handleWebhook nacl JSON_parse fuel self request
     = Ret (text_response "Bad request" 400))
    /\ (JS.truthy tok = true -> JS.truthy ts = true -> ed25519 self = None ->
        handleWebhook nacl JSON_parse fuel self request
        = Ret (text_response "Server configuration error" 500)).
Proof.
  intros nacl JSON_parse fuel self request payload op d tok ts
         Hp Hop H13 Hd Htok Hts.
  split.
  - intros H. eapply handshake_missing_field; eauto.
  - intros H1 H2 He. eapply handshake_without_credential; eauto.
Qed.

Lemma handshake_errors_witness :
  handleWebhook toy_nacl sample_parse 5
                (createQQBotAdapter config_without_secret)
                (unsigned body_challenge)
  = Ret (text_response "Server configuration error" 500).
Proof.
  apply (@handshake_errors
           toy_nacl sample_parse 5 (createQQBotAdapter config_without_secret)
           (unsigned body_challenge)
           (JObj [("op", JNum 13);
                  ("d", JObj [("plain_token", JStr "tok");
                              ("event_ts", JStr "1700000000")])])
           (JS.num 13)
           (Some (JObj [("plain_token", JStr "tok");
                        ("event_ts", JStr "1700000000")]))
           (JS.str "tok") (JS.str "1700000000")); reflexivity.
Defined.

(** ** adapters/qqbot.ts: normal events *)

(** X13.  With the verification switched off, every body whose [op] is not
    13 is acknowledged with 200 and [{op: 12}], whatever its discriminator,
    its headers and the secret. *)
Theorem verification_off_acknowledges :
  forall (nacl : tweetnacl) (JSON_parse : string -> option json) (fuel : nat)
         (self : QQBotAdapter) (request : Request) (payload : json)
         (op : jsval),
    JSON_parse (req_body request) = Some payload ->
    JS.get (Some payload) "op" = Ret op ->
    JS.is_num 13 op = false ->
    verifySignature (config self) = false ->
    handleWebhook nacl JSON_parse fuel self request = Ret createAckResponse.
Proof.
  intros nacl JSON_parse fuel self request payload op Hp Hop H13 Hv.
  rewrite (handleWebhook_event nacl JSON_parse fuel self request payload op
             Hp Hop H13).
  cbn zeta. rewrite Hv. cbn [andb].
  destruct (JS.is_num 0 op); reflexivity.
Qed.

Lemma verification_off_acknowledges_witness :
  handleWebhook toy_nacl sample_parse 5
    (createQQBotAdapter
       {| appId := ""; cfg_secret := ""; verifySignature := false |})
    (signed body_unknown "1700000000" "abcd")
  = Ret createAckResponse.
Proof.
  apply (@verification_off_acknowledges toy_nacl sample_parse 5
           _ (signed body_unknown "1700000000" "abcd")
           (JObj [("op", JNum 7)]) (JS.num 7)); reflexivity.
Defined.

(** X14.  With the verification switched on and both signature headers
    present, a normal event is answered 200 only if [verify] of the bound
    secret accepted the signature header for the time stamp header
    followed by the body; without a bound secret it is answered 401. *)
Theorem signed_event_needs_a_valid_signature :
  forall (nacl : tweetnacl) (JSON_parse : string -> option json) (fuel : nat)
         (self : QQBotAdapter) (request : Request) (payload : json)
         (op : jsval) (timestamp signature : string),
    JSON_parse (req_body request) = Some payload ->
    JS.get (Some payload) "op" = Ret op ->
    JS.is_num 13 op = false ->
    verifySignature (config self) = true ->
    headers_get "X-Signature-Timestamp" (req_headers request) = Some timestamp ->
    headers_get "X-Signature-Ed25519" (req_headers request) = Some signature ->
    timestamp <> "" -> signature <> "" ->
    (forall r,
        handleWebhook nacl JSON_parse fuel self request = Ret r ->
        status r = 200%Z ->
        exists ed,
          ed25519 self = Some ed
          /\ Ed25519_verify nacl fuel ed signature (timestamp ++ req_body request)
             = Ret true)
    /\ (ed25519 self = None ->
        handleWebhook nacl JSON_parse fuel self request
        = Ret (text_response "Invalid signature" 401)).
Proof.
  intros nacl JSON_parse fuel self request payload op timestamp signature
         Hp Hop H13 Hv Hts Hsig Ht Hs.
  rewrite (handleWebhook_event nacl JSON_parse fuel self request payload op
             Hp Hop H13).
  cbn zeta. unfold header_or_empty. rewrite Hts, Hsig, Hv.
  assert (JSString.truthy timestamp = true) as ->
      by (destruct timestamp; [now elim Ht|reflexivity]).
  assert (JSString.truthy signature = true) as ->
      by (destruct signature; [now elim Hs|reflexivity]).
  cbn [andb]. unfold QQBotAdapter_verifySignature. rewrite Hv. cbn [negb].
  split.
  - intros r. destruct (ed25519 self) as [ed|].
    + cbn zeta.
      destruct (Ed25519_verify nacl fuel ed signature
                  (timestamp ++ req_body request)) as [[|]| |] eqn:Ev;
        cbn [bind try_catch].
      * intros _ _. exists ed. split; [reflexivity|exact Ev].
      * intros [= <-]. discriminate.
      * intros [= <-]. discriminate.
      * discriminate.
    + intros [= <-]. discriminate.
  - intros ->. reflexivity.
Qed.

Lemma signed_event_needs_a_valid_signature_witness :
  handleWebhook toy_nacl sample_parse 5
                (createQQBotAdapter config_without_secret)
                (signed body_dispatch "1700000000" "abcd")
  = Ret (text_response "Invalid signature" 401).
Proof.
  apply (@signed_event_needs_a_valid_signature toy_nacl sample_parse 5
           (createQQBotAdapter config_without_secret)
           (signed body_dispatch "1700000000" "abcd")
           (JObj [("op", JNum 0); ("t", JStr "MESSAGE_CREATE"); ("d", JObj [])])
           (JS.num 0) "1700000000" "abcd");
    try reflexivity; discriminate.
Defined.

(** ** adapters/qqbot.ts: every request gets an answer *)

Lemma handleVerification_status nacl fuel (cfg : QQBotConfig) (payload : jsval) :
  5 <= fuel ->
  exists r,
    try_catch (handleVerification nacl fuel (createQQBotAdapter cfg) payload)
              (fun _ => Ret (text_response "Internal server error" 500))
    = Ret r
    /\ adapter_status r.
Proof.
  intros Hf. unfold handleVerification, adapter_status.
  destruct (get_cases payload "d") as [(d & ->) | ->];
    cbn [bind try_catch]; [|eexists; split; [reflexivity|cbn; auto 6]].
  destruct (get_cases d "plain_token") as [(tok & ->) | ->];
    cbn [bind try_catch]; [|eexists; split; [reflexivity|cbn; auto 6]].
  destruct (get_cases d "event_ts") as [(ts & ->) | ->];
    cbn [bind try_catch]; [|eexists; split; [reflexivity|cbn; auto 6]].
  destruct (negb (JS.truthy tok) || negb (JS.truthy ts));
    cbn [try_catch]; [eexists; split; [reflexivity|cbn; auto 6]|].
  unfold createQQBotAdapter, new_QQBotAdapter. cbn [ed25519].
  destruct (JSString.truthy (cfg_secret cfg)) eqn:Ht;
    cbn [try_catch]; [|eexists; split; [reflexivity|cbn; auto 6]].
  destruct (String_cases tok) as [(stok & ->) | ->];
    cbn [bind try_catch]; [|eexists; split; [reflexivity|cbn; auto 6]].
  destruct (String_cases ts) as [(sts & ->) | ->];
    cbn [bind try_catch]; [|eexists; split; [reflexivity|cbn; auto 6]].
  pose proof (Ed25519_sign_settles nacl fuel Hf (cfg_secret cfg)
                (sts ++ stok) Ht) as Hs.
  destruct (Ed25519_sign nacl fuel (new_Ed25519 (cfg_secret cfg))
              (sts ++ stok));
    cbn [bind try_catch]; try discriminate;
    eexists; (split; [reflexivity|cbn; auto 6]).
Qed.

(** X15.  An adapter made by its constructor answers every request, given
    five iterations for the key derivation: nothing is thrown out of
    [handleWebhook], the loop ends, and the status of the response is
    200, 400, 401 or 500. *)
Theorem handleWebhook_always_answers :
  forall (nacl : tweetnacl) (JSON_parse : string -> option json) (fuel : nat)
         (cfg : QQBotConfig) (request : Request),
    5 <= fuel ->
    exists r,
      handleWebhook nacl JSON_parse fuel (createQQBotAdapter cfg) request = Ret r
      /\ adapter_status r.
Proof.
  intros nacl JSON_parse fuel cfg request Hf.
  unfold handleWebhook, parse.
  destruct (JSON_parse (req_body request)) as [payload|];
    cbn [bind try_catch];
    [|eexists; split; [reflexivity|unfold adapter_status; cbn; auto 6]].
  destruct (get_cases (Some payload) "op") as [(op & ->) | ->];
    cbn [bind try_catch];
    [|eexists; split; [reflexivity|unfold adapter_status; cbn; auto 6]].
  destruct (JS.is_num 13 op).
  - now apply handleVerification_status.
  - destruct (verifySignature (config (createQQBotAdapter cfg))
              && JSString.truthy (header_or_empty "X-Signature-Timestamp" request)
              && JSString.truthy (header_or_empty "X-Signature-Ed25519" request)).
    + destruct (verifySignature_returns nacl fuel Hf cfg (req_body request)
                  (header_or_empty "X-Signature-Timestamp" request)
                  (header_or_empty "X-Signature-Ed25519" request))
        as (b & ->).
      cbn [bind]. destruct b; cbn [negb try_catch].
      * destruct (JS.is_num 0 op); cbn;
          eexists; (split; [reflexivity|unfold adapter_status; cbn; auto 6]).
      * eexists; split; [reflexivity|unfold adapter_status; cbn; auto 6].
    + destruct (JS.is_num 0 op); cbn;
        eexists; (split; [reflexivity|unfold adapter_status; cbn; auto 6]).
Qed.

Lemma handleWebhook_always_answers_witness :
  exists r,
    handleWebhook toy_nacl sample_parse 5 (createQQBotAdapter verifying_config)
                  (unsigned body_malformed) = Ret r
    /\ adapter_status r.
Proof.
  apply (@handleWebhook_always_answers toy_nacl sample_parse 5
           verifying_config (unsigned body_malformed)).
  lia.
Defined.

(** ** adapters/qqbot.ts: transform *)

Lemma or_defined (a b : jsval) : defined b = true -> defined (JS.or a b) = true.
Proof.
  intros H. unfold JS.or. destruct (JS.truthy a) eqn:E; [|exact H].
  destruct a; [reflexivity|discriminate].
Qed.

Lemma or_truthy (a b : jsval) :
  JS.truthy b = true -> JS.truthy (JS.or a b) = true.
Proof. intros H. unfold JS.or. now destruct (JS.truthy a) eqn:E. Qed.

(** The payloads [transform] cannot turn into an event. *)
Lemma transform_cases (now_id now_ts : Z) (payload : json) :
  (transform now_id now_ts (Some payload) = Throw TypeError
   /\ (payload = JNull
       \/ JS.get (Some payload) "op" = Ret undefined
       \/ JS.get (Some payload) "op" = Ret (Some JNull)
       \/ (exists o, JS.get (Some payload) "op" = Ret (Some o)
                     /\ printable o = false)
       \/ (exists sv, JS.get (Some payload) "s" = Ret (Some sv)
                      /\ printable sv = false)))
  \/ ((exists ev, transform now_id now_ts (Some payload) = Ret ev)
      /\ payload <> JNull
      /\ (exists o, JS.get (Some payload) "op" = Ret (Some o)
                    /\ o <> JNull /\ printable o = true)
      /\ (forall sv, JS.get (Some payload) "s" = Ret (Some sv) ->
                     printable sv = true)).
Proof.
  destruct payload as [|b|n|m e|s|items|fields];
    try (left; split; [reflexivity|auto]; fail);
    try (left; split; [unfold transform; cbn [JS.get bind JS.truthy];
                       reflexivity|auto]; fail).
  unfold transform. cbn [JS.get bind].
  destruct (JS.field "op" fields) as [o|] eqn:Eo.
  2:{ left. split; [|auto].
      destruct (JS.truthy (JS.field "t" fields)); reflexivity. }
  destruct (toString_cases o) as [[Po (so & Eso)]|[Po Eso]].
  2:{ left. split; [|right; right; right; left; eauto].
      destruct o; try discriminate;
        (destruct (JS.truthy (JS.field "t" fields));
         cbn [JS.String_ JS.call_toString bind]; rewrite ?Eso; reflexivity). }
  destruct o as [|b|n|m e|s|items|ofields].
  { left. split; [|auto].
    destruct (JS.truthy (JS.field "t" fields)); reflexivity. }
  all: match goal with
       | |- context [JS.call_toString (Some ?o)] =>
           change (JS.call_toString (Some o)) with (JS.toString o);
           change (JS.String_ (Some o)) with (JS.toString o)
       end;
    rewrite Eso;
    assert (Ht : forall t : jsval,
               exists ty, (if JS.truthy t then Ret t
                           else op_text <- Ret so ;;
                                Ret (JS.str ("op_" ++ op_text)))
                          = Ret ty :> outcome jsval)
      by (intros t; destruct (JS.truthy t); cbn [bind]; eauto);
    destruct (Ht (JS.field "t" fields)) as (ty & ->); cbn [bind];
    (destruct (JS.field "s" fields) as [sv|] eqn:Es;
     [destruct (toString_cases sv) as [[Ps (ss & Ess)]|[Ps Ess]];
      [right; split;
       [destruct sv; cbn [JS.opt_toString bind]; rewrite ?Ess; cbn [bind]; eauto
       |split; [discriminate|split;
                [eexists; split; [reflexivity|split; [discriminate|exact Po]]
                |now intros sv' [= <-]]]]
      |left; split;
       [destruct sv; try discriminate;
        cbn [JS.opt_toString bind]; rewrite Ess; reflexivity
       |right; right; right; right; eauto]]
     |right; split;
      [cbn [JS.opt_toString bind]; eauto
      |split; [discriminate|split;
               [eexists; split; [reflexivity|split; [discriminate|exact Po]]
               |intros sv' [=]]]]]).
Qed.

(** X16.  [transform] throws exactly on the payloads whose discriminator
    or sequence number cannot be used: the payload [null]; every payload
    whose [op] is missing or [null] (numbers, strings, booleans and arrays
    among them); and every payload whose [op] or [s] cannot be turned into
    a string (an object with a member [toString] of its own, at the top or
    in an array).  What it throws is a [TypeError]; on all other payloads
    it returns. *)
Theorem transform_throws_iff :
  forall (now_id now_ts : Z) (payload : json),
    (transform now_id now_ts (Some payload) = Throw TypeError <->
     payload = JNull
     \/ JS.get (Some payload) "op" = Ret undefined
     \/ JS.get (Some payload) "op" = Ret (Some JNull)
     \/ (exists o, JS.get (Some payload) "op" = Ret (Some o)
                   /\ printable o = false)
     \/ (exists sv, JS.get (Some payload) "s" = Ret (Some sv)
                    /\ printable sv = false))
    /\ (forall e, transform now_id now_ts (Some payload) = Throw e -> e = TypeError)
    /\ transform now_id now_ts (Some payload) <> Pending.
Proof.
  intros now_id now_ts payload.
  destruct (transform_cases now_id now_ts payload)
    as [[Ht Hc]|[(ev & Hr) (Hn & (o & Ho & Hon & Hop) & Hs)]].
  - rewrite Ht. split; [tauto|]. split; [now intros e [= <-]|discriminate].
  - rewrite Hr. split; [|split; discriminate].
    split; [discriminate|].
    intros [H|[H|[H|[(o' & H & Hp)|(sv & H & Hp)]]]].
    + contradiction.
    + rewrite Ho in H. discriminate.
    + rewrite Ho in H. injection H as ->. now elim Hon.
    + rewrite Ho in H. injection H as ->. congruence.
    + apply Hs in H. congruence.
Qed.

(** X17.  In every event [transform] returns, the fields that have a
    default are there: [id] and [type] are truthy, and the sequence header
    and the event type, op code, sequence and event id of the data are
    never [undefined]; the platform is ["qqbot"] and the time stamp is the
    reading of the clock. *)
Theorem transform_fills_the_defaults :
  forall (now_id now_ts : Z) (payload : jsval) (ev : WebhookEventData),
    transform now_id now_ts payload = Ret ev ->
    JS.truthy (ev_id ev) = true
    /\ JS.truthy (ev_type ev) = true
    /\ ev_platform ev = "qqbot"
    /\ ev_timestamp ev = now_ts
    /\ defined (x_qqbot_seq (ev_headers ev)) = true
    /\ defined (x_qqbot_event_type (ev_headers ev)) = true
    /\ defined (opcode (ev_data ev)) = true
    /\ defined (event_type (ev_data ev)) = true
    /\ defined (sequence (ev_data ev)) = true
    /\ defined (event_id (ev_data ev)) = true.
Proof.
  intros now_id now_ts payload ev. unfold transform.
  destruct (JS.get payload "id") as [id| |]; cbn [bind]; try discriminate.
  destruct (JS.get payload "op") as [op| |]; cbn [bind]; try discriminate.
  destruct (JS.get payload "d") as [d| |]; cbn [bind]; try discriminate.
  destruct (JS.get payload "s") as [s| |]; cbn [bind]; try discriminate.
  destruct (JS.get payload "t") as [t| |]; cbn [bind]; try discriminate.
  assert (Hty : forall ty,
             (if JS.truthy t then Ret t
              else op_text <- JS.String_ op ;; Ret (JS.str ("op_" ++ op_text)))
             = Ret ty -> JS.truthy ty = true).
  { intros ty. destruct (JS.truthy t) eqn:Et.
    - now intros [= <-].
    - destruct (JS.String_ op); cbn [bind]; try discriminate.
      now intros [= <-]. }
  destruct (if JS.truthy t then Ret t
            else op_text <- JS.String_ op ;; Ret (JS.str ("op_" ++ op_text)))
    as [ty| |]; cbn [bind]; try discriminate.
  specialize (Hty ty eq_refl).
  destruct (JS.call_toString op) as [op_str| |] eqn:Hop; cbn [bind];
    try discriminate.
  destruct (JS.opt_toString s) as [seq| |]; cbn [bind]; try discriminate.
  intros [= <-]. cbn.
  repeat split; try exact Hty; try (apply or_truthy; reflexivity);
    try (apply or_defined; reflexivity).
  destruct op as [[]|]; try discriminate; reflexivity.
Qed.

Lemma transform_fills_the_defaults_witness :
  exists ev,
    transform 1700000000001 1700000000002 (Some (JObj [("op", JNum 0)])) = Ret ev
    /\ JS.truthy (ev_id ev) = true
    /\ JS.truthy (ev_type ev) = true
    /\ ev_platform ev = "qqbot"
    /\ ev_timestamp ev = 1700000000002%Z
    /\ defined (x_qqbot_seq (ev_headers ev)) = true
    /\ defined (x_qqbot_event_type (ev_headers ev)) = true
    /\ defined (opcode (ev_data ev)) = true
    /\ defined (event_type (ev_data ev)) = true
    /\ defined (sequence (ev_data ev)) = true
    /\ defined (event_id (ev_data ev)) = true.
Proof.
  eexists. split; [reflexivity|].
  apply (@transform_fills_the_defaults 1700000000001 1700000000002
           (Some (JObj [("op", JNum 0)]))).
  reflexivity.
Defined.

(** The defaults on a bare dispatch. *)
Example transform_bare_dispatch :
  exists ev,
    transform 1700000000001 1700000000002 (Some (JObj [("op", JNum 0)])) = Ret ev
    /\ ev_id ev = JS.str "qqbot_1700000000001"
    /\ ev_type ev = JS.str "op_0"
    /\ x_qqbot_op (ev_headers ev) = "0"
    /\ sequence (ev_data ev) = JS.num 0.
Proof. eexists. split; [reflexivity|]. repeat split. Qed.

(** ** routes/webhook.ts: the POST handler *)

(** Everything that holds when the POST handler has scheduled a task. *)
Lemma post_scheduled_inversion env JSON_parse platform randomKey req res t :
  post_handler env JSON_parse platform randomKey req = Ret res ->
  In t (scheduled res) ->
  includes SUPPORTED_PLATFORMS platform = true
  /\ exists proxy,
      race_with_timeout (getProxyByRandomKey env randomKey) = Ret (SProxy proxy)
      /\ proxy_active proxy = true
      /\ String.eqb (proxy_platform proxy) platform = true
      /\ createAdapter env proxy = Ret (Some (task_adapter t))
      /\ adapter_handleWebhook (task_adapter t) req = Ret (response res)
      /\ status (response res) = 200%Z
      /\ task_body t = req_body req
      /\ task_proxyId t = proxy_id proxy
      /\ task_randomKey t = randomKey
      /\ scheduled res = [t]
      /\ recorded res = ("success", None)
      /\ String.eqb platform "qqbot" = false.
Proof.
  intros H Hin.
  destruct (includes SUPPORTED_PLATFORMS platform) eqn:Hs.
  2:{ rewrite post_invalid_platform in H by assumption.
      injection H as <-. destruct Hin. }
  split; [reflexivity|].
  rewrite post_after_lookup in H by assumption.
  assert (Hcatch : forall e, Ret (post_catch env e) = Ret res -> False).
  { intros e [= <-]. destruct Hin. }
  assert (Hrej : forall kind text st, Ret (reject kind text st) = Ret res -> False).
  { intros kind text st [= <-]. destruct Hin. }
  unfold post_catch in Hcatch.
  destruct (race_with_timeout (getProxyByRandomKey env randomKey))
    as [[| |proxy]|e|]; cbn [bind try_catch] in H; try discriminate;
    try (now apply Hcatch in H); try (now apply Hrej in H).
  destruct (proxy_active proxy) eqn:Ha; cbn [negb bind try_catch] in H;
    [|now apply Hrej in H].
  destruct (String.eqb (proxy_platform proxy) platform) eqn:Hm;
    cbn [negb bind try_catch] in H; [|now apply Hrej in H].
  destruct (createAdapter env proxy) as [[adapter|]|e|] eqn:Hc;
    cbn [bind try_catch] in H;
    try discriminate; try (now apply Hcatch in H); try (now apply Hrej in H).
  cbn [Request_clone bind] in H.
  destruct (adapter_handleWebhook adapter req) as [resp|e|] eqn:Hh;
    cbn [bind try_catch] in H;
    try discriminate; try (now apply Hcatch in H).
  exists proxy.
  destruct (Z.eqb_spec (status resp) 200) as [E200|N200];
    cbn [bind try_catch] in H;
    [|injection H as <-; destruct Hin].
  destruct (String.eqb platform "qqbot") eqn:Hq.
  - unfold parse in H.
    destruct (JSON_parse (req_body req)) as [payload|] eqn:Hp;
      cbn [bind try_catch] in H; [|now apply (Hcatch SyntaxError) in H].
    destruct (JS.get (Some payload) "op") as [op|e|] eqn:Hop;
      cbn [bind try_catch] in H;
      try discriminate; try (now apply Hcatch in H).
    destruct (JS.String_ op) as [op_text|e|];
      cbn [bind try_catch] in H;
      try discriminate; try (now apply Hcatch in H).
    destruct (JS.get (Some payload) "t") as [ty|e|];
      cbn [bind try_catch] in H;
      try discriminate; try (now apply Hcatch in H).
    destruct (JS.String_ (JS.or ty (JS.str "N/A"))) as [t_text|e|];
      cbn [bind try_catch] in H;
      try discriminate; try (now apply Hcatch in H).
    destruct (JS.is_num 0 op) eqn:H0; cbn [Request_clone bind try_catch] in H;
      [now apply (Hcatch TypeError) in H|].
    injection H as <-. destruct Hin.
  - cbn [bind try_catch] in H. injection H as <-.
    cbn [scheduled] in Hin. destruct Hin as [<-|[]]. cbn.
    repeat split; auto.
Qed.

(** X18.  A broadcast is scheduled only for a supported platform other
    than the QQ Bot one, for a record the store gave in time, active and
    of the platform of the path, whose adapter was made and answered 200;
    there is then exactly one task, and it carries the body of the
    request, the id of the record and the routing key. *)
Theorem broadcast_only_for_accepted_calls :
  forall (env : Env) (JSON_parse : string -> option json)
         (platform randomKey : string) (req : Request) (res : PostResult)
         (t : BroadcastTask),
    post_handler env JSON_parse platform randomKey req = Ret res ->
    In t (scheduled res) ->
    includes SUPPORTED_PLATFORMS platform = true
    /\ platform <> "qqbot"
    /\ scheduled res = [t]
    /\ recorded res = ("success", None)
    /\ status (response res) = 200%Z
    /\ adapter_handleWebhook (task_adapter t) req = Ret (response res)
    /\ task_body t = req_body req
    /\ task_randomKey t = randomKey
    /\ exists proxy,
        race_with_timeout (getProxyByRandomKey env randomKey)
        = Ret (SProxy proxy)
        /\ proxy_active proxy = true
        /\ proxy_platform proxy = platform
        /\ createAdapter env proxy = Ret (Some (task_adapter t))
        /\ task_proxyId t = proxy_id proxy.
Proof.
  intros env JSON_parse platform randomKey req res t H Hin.
  destruct (post_scheduled_inversion env JSON_parse platform randomKey req res t
              H Hin)
    as (Hs & proxy & Hr & Ha & Hm & Hc & Hh & H200 & Hb & Hi & Hk & Hl & Hrec
        & Hq).
  apply String.eqb_neq in Hq. apply String.eqb_eq in Hm.
  repeat split; auto.
  exists proxy. repeat split; auto.
Qed.

Lemma broadcast_only_for_accepted_calls_witness :
  exists res t,
    post_handler generic_env sample_parse "generic" "k2"
                 (unsigned body_dispatch) = Ret res
    /\ scheduled res = [t]
    /\ status (response res) = 200%Z
    /\ task_body t = body_dispatch
    /\ task_randomKey t = "k2".
Proof.
  eexists. eexists. split; [reflexivity|].
  destruct (@broadcast_only_for_accepted_calls
              generic_env sample_parse "generic" "k2" (unsigned body_dispatch)
              _ _ eq_refl (or_introl eq_refl))
    as (_ & _ & H1 & _ & H2 & _ & H3 & H4 & _).
  repeat split; assumption.
Defined.
(** X20.  What the POST handler does with the answer of the adapter.  A
    response other than 200 is handed on as it is, recorded as a success,
    with nothing scheduled.  On a platform other than ["qqbot"] a
    response 200 is handed on with one task scheduled, the body unread.
    An exception of the adapter becomes 400 for a [SyntaxError] or a
    [TypeError] and 500 otherwise, recorded as an error.  While the adapter
    does not answer, the handler does not either. *)
Theorem post_relays_the_adapter :
  forall (env : Env) (JSON_parse : string -> option json)
         (platform randomKey : string) (req : Request)
         (proxy : Proxy) (adapter : Adapter),
    includes SUPPORTED_PLATFORMS platform = true ->
    race_with_timeout (getProxyByRandomKey env randomKey) = Ret (SProxy proxy) ->
    proxy_active proxy = true ->
    proxy_platform proxy = platform ->
    createAdapter env proxy = Ret (Some adapter) ->
    (forall resp,
        adapter_handleWebhook adapter req = Ret resp ->
        status resp <> 200%Z ->
        post_handler env JSON_parse platform randomKey req
        = Ret {| response := resp; recorded := ("success", None);
                 scheduled := [] |})
    /\ (forall resp,
           adapter_handleWebhook adapter req = Ret resp ->
           status resp = 200%Z -> platform <> "qqbot" ->
           post_handler env JSON_parse platform randomKey req
           = Ret {| response := resp; recorded := ("success", None);
                    scheduled :=
                      [{| task_adapter := adapter;
                          task_body := req_body req;
                          task_proxyId := proxy_id proxy;
                          task_randomKey := randomKey |}] |})
    /\ (forall e,
           adapter_handleWebhook adapter req = Throw e ->
           post_handler env JSON_parse platform randomKey req
           = Ret (post_catch env e))
    /\ (adapter_handleWebhook adapter req = Pending ->
        post_handler env JSON_parse platform randomKey req = Pending).
Proof.
  intros env JSON_parse platform randomKey req proxy adapter Hs Hr Ha Hm Hc.
  apply String.eqb_eq in Hm.
  rewrite (post_after_adapter env JSON_parse platform randomKey req proxy adapter
             Hs Hr Ha Hm Hc).
  repeat apply conj.
  - intros resp -> Hn. cbn [bind].
    destruct (Z.eqb_spec (status resp) 200); [contradiction|]. reflexivity.
  - intros resp -> H200 Hq. cbn [bind]. rewrite H200. cbn.
    apply String.eqb_neq in Hq. rewrite Hq. reflexivity.
  - intros e ->. reflexivity.
  - intros ->. reflexivity.
Qed.

Lemma post_relays_the_adapter_witness :
  post_handler (sample_env (fast (SProxy sample_proxy)) always_ok accepting)
               sample_parse "qqbot" "k1"
               (signed body_dispatch "1700000000" "abcd")
  = Ret {| response := text_response "Invalid signature" 401;
           recorded := ("success", None);
           scheduled := [] |}.
Proof.
  eapply (@post_relays_the_adapter
            (sample_env (fast (SProxy sample_proxy)) always_ok accepting)
            sample_parse "qqbot" "k1" (signed body_dispatch "1700000000" "abcd")
            sample_proxy); try reflexivity.
  discriminate.
Defined.

(** When the store settles by the deadline, the race gives its answer:
    at exactly 10000 ms too, the promise of the store coming first. *)
Lemma race_by_deadline (q : Query) :
  (settles_after q <= 10000)%Z -> race_with_timeout q = answer q \/ answer q = Pending.
Proof.
  intros H. unfold race_with_timeout.
  destruct (Z.leb_spec (settles_after q) 10000); [|lia].
  destruct (answer q); auto.
Qed.

(** X21.  What the POST handler makes of the lookup, on a supported
    platform.  A store that has not answered when the timer of 10000 ms
    fires (it hangs, or it settles later than that), and also a store that
    answers [null] by then, is reported as [DBTimeout] with 500; a store
    that answers [undefined] by then as [ProxyNotFound] with 404; a store
    that fails by then goes to the [catch].  A store that settles at
    exactly 10000 ms is in time. *)
Theorem post_lookup_outcomes :
  forall (env : Env) (JSON_parse : string -> option json)
         (platform randomKey : string) (req : Request),
    includes SUPPORTED_PLATFORMS platform = true ->
    (answer (getProxyByRandomKey env randomKey) = Pending
     \/ (10000 < settles_after (getProxyByRandomKey env randomKey))%Z ->
     post_handler env JSON_parse platform randomKey req
     = Ret (reject "DBTimeout" "Database timeout" 500))
    /\ ((settles_after (getProxyByRandomKey env randomKey) <= 10000)%Z ->
        (answer (getProxyByRandomKey env randomKey) = Ret SNull ->
         post_handler env JSON_parse platform randomKey req
         = Ret (reject "DBTimeout" "Database timeout" 500))
        /\ (answer (getProxyByRandomKey env randomKey) = Ret SUndefined ->
            post_handler env JSON_parse platform randomKey req
            = Ret (reject "ProxyNotFound" "Proxy not found" 404))
        /\ (forall e,
               answer (getProxyByRandomKey env randomKey) = Throw e ->
               post_handler env JSON_parse platform randomKey req
               = Ret (post_catch env e))).
Proof.
  intros env JSON_parse platform randomKey req Hs. split.
  - now apply post_lookup_timeout.
  - intros Ht. rewrite post_after_lookup by assumption.
    destruct (race_by_deadline (getProxyByRandomKey env randomKey) Ht)
      as [-> | Hp].
    + repeat apply conj.
      * intros ->. reflexivity.
      * intros ->. reflexivity.
      * intros e ->. reflexivity.
    + rewrite Hp. repeat apply conj; try intros e; discriminate.
Qed.

Lemma post_lookup_outcomes_witness :
  post_handler (sample_env {| settles_after := 10001;
                              answer := Ret (SProxy sample_proxy) |}
                           always_ok accepting)
               sample_parse "qqbot" "k1" (unsigned body_dispatch)
  = Ret (reject "DBTimeout" "Database timeout" 500).
Proof.
  destruct (@post_lookup_outcomes
              (sample_env {| settles_after := 10001;
                             answer := Ret (SProxy sample_proxy) |}
                          always_ok accepting)
              sample_parse "qqbot" "k1" (unsigned body_dispatch) eq_refl)
    as [H _].
  apply H. right. cbn. lia.
Defined.

(** At exactly 10000 ms the store is in time: its answer is used. *)
Example post_lookup_tie_goes_to_the_store :
  post_handler (sample_env {| settles_after := 10000;
                              answer := Ret SUndefined |}
                           always_ok accepting)
               sample_parse "qqbot" "k1" (unsigned body_dispatch)
  = Ret (reject "ProxyNotFound" "Proxy not found" 404).
Proof. reflexivity. Qed.

(** X22.  The checks of the record, in their order.  An inactive record is
    answered 403, also when its platform is another one; an active record
    of another platform is answered 400; when the factory gives no adapter
    the answer is 500 [AdapterCreationFailed], and when it throws, the
    answer is the one of the [catch]. *)
Theorem post_record_checks :
  forall (env : Env) (JSON_parse : string -> option json)
         (platform randomKey : string) (req : Request) (proxy : Proxy),
    includes SUPPORTED_PLATFORMS platform = true ->
    (settles_after (getProxyByRandomKey env randomKey) < 10000)%Z ->
    answer (getProxyByRandomKey env randomKey) = Ret (SProxy proxy) ->
    (proxy_active proxy = false ->
     post_handler env JSON_parse platform randomKey req
     = Ret (reject "ProxyInactive" "Proxy is inactive" 403))
    /\ (proxy_active proxy = true -> proxy_platform proxy <> platform ->
        post_handler env JSON_parse platform randomKey req
        = Ret (reject "PlatformMismatch" "Platform mismatch" 400))
    /\ (proxy_active proxy = true -> proxy_platform proxy = platform ->
        createAdapter env proxy = Ret None ->
        post_handler env JSON_parse platform randomKey req
        = Ret (reject "AdapterCreationFailed" "Failed to create adapter" 500))
    /\ (forall e,
           proxy_active proxy = true -> proxy_platform proxy = platform ->
           createAdapter env proxy = Throw e ->
           post_handler env JSON_parse platform randomKey req
           = Ret (post_catch env e)).
Proof.
  intros env JSON_parse platform randomKey req proxy Hs Ht Hq.
  repeat apply conj.
  - intros Ha. now apply post_inactive with (proxy := proxy).
  - intros Ha Hm. apply post_platform_mismatch with (proxy := proxy); auto.
    now apply String.eqb_neq.
  - intros Ha Hm Hc. apply post_adapter_creation_failed with (proxy := proxy);
      auto. now apply String.eqb_eq.
  - intros e Ha Hm Hc. rewrite post_after_lookup by assumption.
    rewrite (race_in_time env randomKey Ht _ Hq). cbn [bind].
    apply String.eqb_eq in Hm. rewrite Ha, Hm. cbn [negb]. rewrite Hc.
    reflexivity.
Qed.

Lemma post_record_checks_witness :
  post_handler
    (sample_env (fast (SProxy {| proxy_id := "p2"; proxy_platform := "github";
                                 proxy_active := false; access_token := None;
                                 proxy_secret := ""; 
                                 proxy_verify_signature := false |}))
                always_ok accepting)
    sample_parse "qqbot" "k1" (unsigned body_dispatch)
  = Ret (reject "ProxyInactive" "Proxy is inactive" 403).
Proof.
  eapply (@post_record_checks
            (sample_env (fast (SProxy {| proxy_id := "p2";
                                         proxy_platform := "github";
                                         proxy_active := false;
                                         access_token := None;
                                         proxy_secret := "";
                                         proxy_verify_signature := false |}))
                        always_ok accepting)
            sample_parse "qqbot" "k1" (unsigned body_dispatch)); reflexivity.
Defined.

(** ** routes/webhook.ts: the GET handler *)

(** X23.  For an active record of the platform of the path, the GET
    handler hands the call to the Durable Object and relays what it
    answers (500 when the hand-over throws).  The request handed over has
    the body of the call and its headers, except that
    [X-Proxy-Access-Token] is the access token of the record (the empty
    string when it has none), whatever the caller sent under that name. *)
Theorem get_forwards_with_the_token :
  forall (env : Env) (platform randomKey connectionType : string)
         (req : Request) (proxy : Proxy),
    includes SUPPORTED_PLATFORMS platform = true ->
    includes ["ws"; "sse"] connectionType = true ->
    answer (getProxyByRandomKey env randomKey) = Ret (SProxy proxy) ->
    proxy_active proxy = true ->
    proxy_platform proxy = platform ->
    get_handler env platform randomKey connectionType req
    = try_catch (connection_fetch env randomKey (forwarded proxy req))
                (fun _ => Ret (text_response "Internal server error" 500))
    /\ req_body (forwarded proxy req) = req_body req
    /\ (forall name,
           lowercase name = "x-proxy-access-token" ->
           headers_get name (req_headers (forwarded proxy req))
           = Some (match access_token proxy with Some t => t | None => "" end))
    /\ (forall name,
           lowercase name <> "x-proxy-access-token" ->
           headers_get name (req_headers (forwarded proxy req))
           = headers_get name (req_headers req)).
Proof.
  intros env platform randomKey connectionType req proxy Hs Hc Hq Ha Hm.
  repeat apply conj.
  - unfold get_handler, await_query. rewrite Hs, Hc, Hq. cbn [negb bind].
    apply String.eqb_eq in Hm. rewrite Ha, Hm. cbn [negb].
    fold (forwarded proxy req).
    destruct (connection_fetch env randomKey (forwarded proxy req));
      reflexivity.
  - reflexivity.
  - intros name Hn. cbn [forwarded req_headers headers_get].
    change (lowercase "X-Proxy-Access-Token") with "x-proxy-access-token".
    rewrite Hn. reflexivity.
  - intros name Hn. cbn [forwarded req_headers headers_get].
    change (lowercase "X-Proxy-Access-Token") with "x-proxy-access-token".
    destruct (String.eqb_spec "x-proxy-access-token" (lowercase name)) as [E|E];
      [now elim Hn|reflexivity].
Qed.

Lemma get_forwards_with_the_token_witness :
  headers_get "x-proxy-access-token"
    (req_headers
       (forwarded sample_proxy
          {| req_body := "";
             req_headers := [("X-Proxy-Access-Token", "forged");
                             ("Upgrade", "websocket")] |}))
  = Some "token".
Proof.
  destruct (@get_forwards_with_the_token
              (sample_env (fast (SProxy sample_proxy)) always_ok accepting)
              "qqbot" "k1" "ws"
              {| req_body := "";
                 req_headers := [("X-Proxy-Access-Token", "forged");
                                 ("Upgrade", "websocket")] |}
              sample_proxy eq_refl eq_refl eq_refl eq_refl eq_refl)
    as (_ & _ & H & _).
  apply H. reflexivity.
Defined.

(** X24.  What the GET handler refuses before it hands over.  An unknown
    platform, and then a connection type other than [ws] and [sse], is
    answered 400 without the store being asked (so also when the store
    hangs); an active record of another platform is answered 400; a store
    that fails is answered 500. *)
Theorem get_refusals :
  forall (env : Env) (platform randomKey connectionType : string)
         (req : Request),
    (includes SUPPORTED_PLATFORMS platform = false ->
     get_handler env platform randomKey connectionType req
     = Ret (text_response "Invalid platform" 400))
    /\ (includes SUPPORTED_PLATFORMS platform = true ->
        includes ["ws"; "sse"] connectionType = false ->
        get_handler env platform randomKey connectionType req
        = Ret (text_response "Invalid connection type" 400))
    /\ (forall proxy,
           includes SUPPORTED_PLATFORMS platform = true ->
           includes ["ws"; "sse"] connectionType = true ->
           answer (getProxyByRandomKey env randomKey) = Ret (SProxy proxy) ->
           proxy_active proxy = true -> proxy_platform proxy <> platform ->
           get_handler env platform randomKey connectionType req
           = Ret (text_response "Platform mismatch" 400))
    /\ (forall e,
           includes SUPPORTED_PLATFORMS platform = true ->
           includes ["ws"; "sse"] connectionType = true ->
           answer (getProxyByRandomKey env randomKey) = Throw e ->
           get_handler env platform randomKey connectionType req
           = Ret (text_response "Internal server error" 500)).
Proof.
  intros env platform randomKey connectionType req.
  unfold get_handler, await_query. repeat apply conj.
  - intros ->. reflexivity.
  - intros -> ->. reflexivity.
  - intros proxy -> -> -> Ha Hm. cbn [negb bind]. rewrite Ha.
    apply String.eqb_neq in Hm. rewrite Hm. reflexivity.
  - intros e -> -> ->. reflexivity.
Qed.

Lemma get_refusals_witness :
  get_handler (sample_env hung always_ok accepting)
              "qqbot" "k1" "longpoll" (unsigned "")
  = Ret (text_response "Invalid connection type" 400).
Proof.
  destruct (@get_refusals (sample_env hung always_ok accepting)
              "qqbot" "k1" "longpoll" (unsigned "")) as (_ & H & _).
  apply H; reflexivity.
Defined.

(** ** routes/webhook.ts: broadcastEvent *)

(** X25.  The background task delivers the event it made of the body, or
    nothing: when the body does not parse or [transform] throws, the error
    is logged and neither the counter nor the Durable Object is touched;
    and an event counts as delivered only if it is the one [transform]
    returned for the parsed body.  After a delivery the task ends; the
    only error it can still log is the one of its closing log line, which
    turns the type of the event into a string. *)
Theorem broadcast_delivers_the_transformed_body :
  forall (env : Env) (JSON_parse : string -> option json) (t : BroadcastTask),
    (forall e,
        broadcast_event JSON_parse t = Throw e ->
        report_summary (broadcastEvent env JSON_parse t)
        = (0, 0, false, Some e, Ret tt))
    /\ (forall ev,
           delivered (broadcastEvent env JSON_parse t) = Some ev ->
           broadcast_event JSON_parse t = Ret ev
           /\ logged (broadcastEvent env JSON_parse t)
              = match JS.String_ (ev_type ev) with
                | Throw e => Some e
                | _ => None
                end
           /\ finished (broadcastEvent env JSON_parse t) = Ret tt).
Proof.
  intros env JSON_parse t. unfold broadcastEvent, broadcast_event. split.
  - intros e ->. reflexivity.
  - intros ev.
    destruct (payload <- parse JSON_parse (task_body t);;
              adapter_transform (task_adapter t) payload) as [event| |];
      try discriminate.
    destruct (withRetry (updateProxyEventCount env (task_proxyId t))
                        retry_options (fun _ _ => true))
      as [[[]| |] n1]; try discriminate.
    destruct (withRetry (deliver env (task_randomKey t) event)
                        retry_options (fun _ _ => true))
      as [[[]| |] n2]; try discriminate.
    destruct (JS.String_ (ev_type event)) eqn:Ety;
      cbn; intros [= <-]; rewrite Ety; repeat split.
Qed.

Lemma broadcast_delivers_the_transformed_body_witness :
  report_summary
    (broadcastEvent (sample_env (fast (SProxy sample_proxy)) always_ok accepting)
                    sample_parse
                    {| task_adapter := task_adapter sample_task;
                       task_body := body_malformed;
                       task_proxyId := "p1";
                       task_randomKey := "k1" |})
  = (0, 0, false, Some SyntaxError, Ret tt).
Proof.
  destruct (@broadcast_delivers_the_transformed_body
              (sample_env (fast (SProxy sample_proxy)) always_ok accepting)
              sample_parse
              {| task_adapter := task_adapter sample_task;
                 task_body := body_malformed;
                 task_proxyId := "p1";
                 task_randomKey := "k1" |}) as [H _].
  apply H. reflexivity.
Defined.

(** An event whose type cannot be turned into a string is delivered, and
    the closing log line of the task throws into its [catch]. *)
Example delivered_event_with_unprintable_type :
  report_summary
    (broadcastEvent generic_env sample_parse'
                    {| task_adapter := acknowledging_adapter;
                       task_body := body_unprintable_type;
                       task_proxyId := "p2";
                       task_randomKey := "k2" |})
  = (1, 1, true, Some TypeError, Ret tt).
Proof. vm_compute. reflexivity. Qed.
(** ** The two copies of the POST handler *)

Lemma races_agree (q : Query) :
  (settles_after q <= 5000)%Z \/ (10000 < settles_after q)%Z
  \/ answer q = Pending ->
  race_with_timeout_5s q = race_with_timeout q.
Proof.
  unfold race_with_timeout_5s, race_with_timeout.
  intros [H|[H|H]].
  - destruct (Z.leb_spec (settles_after q) 5000); [|lia].
    destruct (Z.leb_spec (settles_after q) 10000); [|lia]. reflexivity.
  - destruct (Z.leb_spec (settles_after q) 5000); [lia|].
    destruct (Z.leb_spec (settles_after q) 10000); [lia|]. reflexivity.
  - rewrite H. reflexivity.
Qed.

(** The log line of the first copy returns for an event type that can be
    turned into a string. *)
Lemma log_line_returns (t : jsval) :
  (forall tv, t = Some tv -> printable tv = true) ->
  exists text, JS.String_ (JS.or t (JS.str "N/A")) = Ret text.
Proof.
  intros H. unfold JS.or. destruct (JS.truthy t); [|cbn; eauto].
  destruct t as [tv|]; [|cbn; eauto].
  cbn [JS.String_]. apply toString_printable. now apply H.
Qed.

(** X26.  The two copies of the POST handler differ by their timer and by
    one log line.  They give the same result whenever the store answers
    by 5000 ms, or later than 10000 ms, or never, and the platform is not
    the QQ Bot one or the event type [t] of the body can be turned into a
    string; when the store answers later than 5000 ms, the copy with the
    short timer reports [DBTimeout] on every supported platform, whatever
    the answer is. *)
Theorem the_two_post_handlers :
  forall (env : Env) (JSON_parse : string -> option json)
         (platform randomKey : string) (req : Request),
    ((settles_after (getProxyByRandomKey env randomKey) <= 5000)%Z
     \/ (10000 < settles_after (getProxyByRandomKey env randomKey))%Z
     \/ answer (getProxyByRandomKey env randomKey) = Pending ->
     platform <> "qqbot"
     \/ (forall payload tv,
            JSON_parse (req_body req) = Some payload ->
            JS.get (Some payload) "t" = Ret (Some tv) ->
            printable tv = true) ->
     post_handler_5s env JSON_parse platform randomKey req
     = post_handler env JSON_parse platform randomKey req)
    /\ (includes SUPPORTED_PLATFORMS platform = true ->
        (5000 < settles_after (getProxyByRandomKey env randomKey))%Z ->
        post_handler_5s env JSON_parse platform randomKey req
        = Ret (reject "DBTimeout" "Database timeout" 500)).
Proof.
  intros env JSON_parse platform randomKey req. split.
  - intros H Hlog. unfold post_handler_5s, post_handler.
    rewrite (races_agree _ H).
    destruct (includes SUPPORTED_PLATFORMS platform); [|reflexivity].
    cbn [negb].
    destruct (race_with_timeout (getProxyByRandomKey env randomKey))
      as [[| |proxy]|e|]; try reflexivity.
    cbn [bind].
    destruct (proxy_active proxy); [|reflexivity].
    destruct (String.eqb (proxy_platform proxy) platform); [|reflexivity].
    cbn [negb].
    destruct (createAdapter env proxy) as [[adapter|]|e|]; try reflexivity.
    cbn [bind Request_clone].
    destruct (adapter_handleWebhook adapter req) as [resp|e|];
      try reflexivity.
    cbn [bind].
    destruct (Z.eqb (status resp) 200); [|reflexivity].
    destruct (String.eqb_spec platform "qqbot") as [Eq|Nq]; [|reflexivity].
    destruct Hlog as [Hn|Hlog]; [contradiction|].
    unfold parse.
    destruct (JSON_parse (req_body req)) as [payload|] eqn:Hp;
      [|reflexivity].
    cbn [bind].
    specialize (Hlog payload).
    destruct payload as [|b|n|m e|s|items|fields]; try reflexivity.
    cbn [JS.get bind] in *.
    destruct (JS.String_ (JS.field "op" fields)); try reflexivity.
    cbn [bind].
    destruct (log_line_returns (JS.field "t" fields)) as (text & ->);
      [|reflexivity].
    intros tv Ht. apply Hlog; [reflexivity|now rewrite Ht].
  - intros Hs Ht. unfold post_handler_5s. rewrite Hs. cbn [negb].
    unfold race_with_timeout_5s.
    destruct (Z.leb_spec (settles_after (getProxyByRandomKey env randomKey))
                         5000); [lia|].
    destruct (answer (getProxyByRandomKey env randomKey)); reflexivity.
Qed.

Lemma the_two_post_handlers_witness :
  post_handler_5s
    (sample_env {| settles_after := 7000; answer := Ret (SProxy sample_proxy) |}
                always_ok accepting)
    sample_parse "qqbot" "k1" (unsigned body_unknown)
  = Ret (reject "DBTimeout" "Database timeout" 500)
  /\ summary
       (post_handler
          (sample_env {| settles_after := 7000;
                         answer := Ret (SProxy sample_proxy) |}
                      always_ok accepting)
          sample_parse "qqbot" "k1" (unsigned body_unknown))
     = Some (createAckResponse, ("success", None), []).
Proof.
  split.
  - destruct (@the_two_post_handlers
                (sample_env {| settles_after := 7000;
                               answer := Ret (SProxy sample_proxy) |}
                            always_ok accepting)
                sample_parse "qqbot" "k1" (unsigned body_unknown)) as [_ H].
    apply H; [reflexivity|cbn; lia].
  - vm_compute. reflexivity.
Defined.

(** The log line tells the copies apart: for a body whose [t] cannot be
    turned into a string the first copy answers 400, the second one relays
    the acknowledgement of the adapter. *)
Example the_log_line_tells_the_copies_apart :
  summary (post_handler (sample_env' (fast (SProxy open_proxy)))
                        sample_parse' "qqbot" "k1"
                        (unsigned body_unprintable_type))
  = Some (text_response "Invalid request format" 400,
          ("error", Some "UnknownError"), [])
  /\ summary (post_handler_5s (sample_env' (fast (SProxy open_proxy)))
                              sample_parse' "qqbot" "k1"
                              (unsigned body_unprintable_type))
     = Some (createAckResponse, ("success", None), []).
Proof. split; vm_compute; reflexivity. Qed.
